(** * AdapDict: query analysis, prompt composition and the verify/regenerate pipeline

    A shallow embedding of the Python backend (query_analyzer.py,
    prompt_rule.py, verifier_client.py, schemas/verifier/common.py and
    main.py) together with the properties stated about it.

    Python strings are sequences of Unicode code points, and [len] counts
    code points; they are modelled as lists of code points. *)

From Stdlib Require Import Ascii String.
From Stdlib Require Import NArith ZArith Bool Lia QArith List.
From Stdlib Require Import Floats.SpecFloat.
Import ListNotations.
Close Scope Q_scope.


(* ===================================================================== *)
(** ** Python strings                                                      *)
(* ===================================================================== *)

Module PyStr.

Definition char := N.
Definition str := list char.

Fixpoint str_eqb (a b : str) : bool :=
  match a, b with
  | [], [] => true
  | x :: a', y :: b' => N.eqb x y && str_eqb a' b'
  | _, _ => false
  end.

(** Source literals are written in UTF-8 and decoded to code points. *)
Fixpoint utf8_decode (bs : list N) : str :=
  match bs with
  | [] => []
  | b0 :: r0 =>
    if (b0 <? 128)%N then b0 :: utf8_decode r0
    else if (b0 <? 224)%N then
      match r0 with
      | b1 :: r1 => ((b0 - 192) * 64 + (b1 - 128))%N :: utf8_decode r1
      | [] => [b0]
      end
    else if (b0 <? 240)%N then
      match r0 with
      | b1 :: b2 :: r2 =>
          ((b0 - 224) * 4096 + (b1 - 128) * 64 + (b2 - 128))%N :: utf8_decode r2
      | _ => [b0]
      end
    else
      match r0 with
      | b1 :: b2 :: b3 :: r3 =>
          ((b0 - 240) * 262144 + (b1 - 128) * 4096 + (b2 - 128) * 64 + (b3 - 128))%N
            :: utf8_decode r3
      | _ => [b0]
      end
  end.

Definition u (s : string) : str :=
  utf8_decode (map N_of_ascii (list_ascii_of_string s)).

(** The double quote and the newline, which string literals here avoid. *)
Definition dq : str := [34%N].
Definition nl : str := [10%N].

(** [str.isspace] for one code point; the same class as [\s] in [re]
    for [str] patterns and as the separators of [str.split()]. *)
Definition isspace (c : char) : bool :=
  ((9 <=? c) && (c <=? 13) || (28 <=? c) && (c <=? 32)
   || (c =? 133) || (c =? 160) || (c =? 5760)
   || (8192 <=? c) && (c <=? 8202)
   || (c =? 8232) || (c =? 8233) || (c =? 8239) || (c =? 8287)
   || (c =? 12288))%N.

Fixpoint lstrip (s : str) : str :=
  match s with
  | [] => []
  | c :: s' => if isspace c then lstrip s' else s
  end.

Definition rstrip (s : str) : str := rev (lstrip (rev s)).

Definition strip (s : str) : str := rstrip (lstrip s).

Definition has_nonspace (s : str) : bool := existsb (fun c => negb (isspace c)) s.

(** [re.split] on a pattern that is one character class. *)
Fixpoint split_on (sep : char -> bool) (s : str) : list str :=
  match s with
  | [] => [[]]
  | c :: s' =>
      if sep c then [] :: split_on sep s'
      else match split_on sep s' with
           | p :: ps => (c :: p) :: ps
           | [] => [[c]]
           end
  end.

Definition nonempty (s : str) : bool :=
  match s with [] => false | _ => true end.

(** [s.split()]: maximal runs of non-whitespace. *)
Definition split (s : str) : list str := filter nonempty (split_on isspace s).

(** [sep.join(parts)]. *)
Fixpoint join (sep : str) (parts : list str) : str :=
  match parts with
  | [] => []
  | [p] => p
  | p :: ps => p ++ sep ++ join sep ps
  end.

Definition is_ascii (c : char) : bool := (c <? 128)%N.

Definition ascii_lower (c : char) : char :=
  if ((65 <=? c) && (c <=? 90))%N then (c + 32)%N else c.

(** [a in b] for two strings. *)
Fixpoint is_prefix (p s : str) : bool :=
  match p, s with
  | [], _ => true
  | x :: p', y :: s' => N.eqb x y && is_prefix p' s'
  | _ :: _, [] => false
  end.

Fixpoint is_substring (p s : str) : bool :=
  is_prefix p s ||
  match s with
  | [] => false
  | _ :: s' => is_substring p s'
  end.

Definition ends_with (s suffix : str) : bool := is_prefix (rev suffix) (rev s).

(** Decimal rendering of a natural number, as [str(n)] prints it. *)
Fixpoint digits_fuel (fuel : nat) (n : N) (acc : str) : str :=
  match fuel with
  | O => acc
  | S f =>
      let acc' := (48 + n mod 10)%N :: acc in
      if (n <? 10)%N then acc' else digits_fuel f (n / 10)%N acc'
  end.

Definition str_of_N (n : N) : str := digits_fuel (S (N.to_nat (N.log2 n))) n [].

Definition str_of_nat (n : nat) : str := str_of_N (N.of_nat n).

End PyStr.

Import PyStr.

(* ===================================================================== *)
(** ** schemas/verifier/common.py                                          *)
(* ===================================================================== *)

Module Verifier.

(** A Python [float] is an IEEE-754 binary64 value. *)
Definition float := spec_float.

Inductive HallucinationType := HT_none | HT_semantic | HT_factual | HT_contextual | HT_translation.

Record VerifierMetadata := {
  md_mode : option str;
  md_query_type : option str;
  md_source_lang : option str;
  md_target_lang : option str;
  md_field : option str
}.

Record VerifierResult := {
  has_hallucination : bool;
  hallucination_score : float;
  type : HallucinationType;
  comment : str;
  metadata : option VerifierMetadata
}.

Definition f_zero : float := S754_zero false.
(** 1.0 = 2^52 * 2^-52 *)
Definition f_one : float := S754_finite false 4503599627370496 (-52).

(** The field constraint [ge=0.0, le=1.0] that pydantic checks whenever a
    [VerifierResult] is built; a NaN fails both comparisons. *)
Definition valid_score (s : float) : bool := SFleb f_zero s && SFleb s f_one.

Definition is_safe (self : VerifierResult) (threshold : float) : bool :=
  negb (has_hallucination self) || SFleb (hallucination_score self) threshold.

Definition needs_regeneration (self : VerifierResult) (threshold : float) : bool :=
  negb (is_safe self threshold).

End Verifier.

(* ===================================================================== *)
(** ** Exceptions                                                          *)
(* ===================================================================== *)

(** The exceptions the code can meet; all are subclasses of [Exception].
    [OtherException] stands for whatever an external call may raise. *)
Inductive exn :=
| ValueError (msg : str)
| ValidationError
| RuntimeError
| AttributeError
| TypeError
| KeyError
| IndexError
| OtherException (tag : nat).

Inductive result (A : Type) :=
| Ok (a : A)
| Raise (e : exn).
Arguments Ok {A} a.
Arguments Raise {A} e.

Definition bind {A B} (r : result A) (k : A -> result B) : result B :=
  match r with
  | Ok a => k a
  | Raise e => Raise e
  end.

Notation "x <- c1 ;; c2" := (bind c1 (fun x => c2))
  (at level 61, c1 at next level, right associativity).

(* ===================================================================== *)
(** ** utils/query_analyzer.py                                             *)
(* ===================================================================== *)

Module QueryAnalyzer.

(** [LangCode] and [QueryType] are [Literal] types: plain strings that
    pydantic checks when a [QueryAnalysisResult] is built. *)
Definition LangCode_values : list str := [u "ko"; u "en"; u "zh"; u "de"].
Definition QueryType_values : list str :=
  [u "word"; u "word_list"; u "phrase"; u "phrase_list"; u "sentence"; u "paragraph"].

Definition is_in (s : str) (l : list str) : bool := existsb (str_eqb s) l.

Record QueryAnalysisResult := {
  raw_query : str;
  normalized_query : str;
  query_type : str;
  units : list str;
  query_lang : option str
}.

(** The pydantic constructor: the literal fields are validated. *)
Definition QueryAnalysisResult_new (raw normalized qtype : str) (us : list str)
    (qlang : option str) : result QueryAnalysisResult :=
  if is_in qtype QueryType_values
     && match qlang with None => true | Some l => is_in l LangCode_values end
  then Ok {| raw_query := raw; normalized_query := normalized; query_type := qtype;
             units := us; query_lang := qlang |}
  else Raise ValidationError.

(** [lang == code] for an [Optional[LangCode]]. *)
Definition lang_is (lang : option str) (code : string) : bool :=
  match lang with
  | Some l => str_eqb l (u code)
  | None => false
  end.

Definition in_range (lo hi : N) (c : char) : bool := ((lo <=? c) && (c <=? hi))%N.
Definition in_chars (cs : string) (c : char) : bool := existsb (N.eqb c) (u cs).

Definition _CJK_RANGE : char -> bool := in_range 19968 40959.      (* 一-鿿 *)
Definition _HANGUL_RANGE : char -> bool := in_range 44032 55203.   (* 가-힣 *)
Definition _LATIN_RANGE (c : char) : bool := in_range 65 90 c || in_range 97 122 c.
Definition _GERMAN_CHAR : char -> bool := in_chars "ÄÖÜäöüß".
Definition _SENT_TERM_LATIN : char -> bool := in_chars ".!?".
Definition _SENT_TERM_ZH : char -> bool := in_chars "。？！".
Definition list_punct (c : char) : bool := in_chars ";,/·" c || in_chars "，、；" c.

(** [pattern.findall(s)] for a one-character class: the matching characters. *)
Definition findall (cls : char -> bool) (s : str) : list char := filter cls s.

Definition replace_cr (s : str) : str :=
  map (fun c => if (c =? 13)%N then 10%N else c) s.

Fixpoint replace_crlf (s : str) : str :=
  match s with
  | [] => []
  | c :: s' =>
      match s' with
      | d :: r => if ((c =? 13) && (d =? 10))%N then 10%N :: replace_crlf r
                  else c :: replace_crlf s'
      | [] => [c]
      end
  end.

(** [re.sub(r"[ \t]+", " ", t)] *)
Fixpoint collapse_blanks (in_run : bool) (s : str) : str :=
  match s with
  | [] => []
  | c :: s' =>
      if ((c =? 32) || (c =? 9))%N
      then (if in_run then collapse_blanks true s' else 32%N :: collapse_blanks true s')
      else c :: collapse_blanks false s'
  end.

Definition _normalize (text : str) : str :=
  let t := replace_cr (replace_crlf text) in
  let t := strip t in
  collapse_blanks false t.

Definition _lang_score (text : str) (lang : str) : nat :=
  match text with
  | [] => 0
  | _ =>
    let sample := firstn 300 text in
    if str_eqb lang (u "ko") then length (findall _HANGUL_RANGE sample)
    else if str_eqb lang (u "zh") then length (findall _CJK_RANGE sample)
    else if str_eqb lang (u "de") then
      length (findall _GERMAN_CHAR sample) + length (findall _LATIN_RANGE sample)
    else if str_eqb lang (u "en") then length (findall _LATIN_RANGE sample)
    else 0
  end.

(** [[p.strip() for p in parts if p.strip()]] *)
Definition stripped_nonempty (parts : list str) : list str :=
  map strip (filter (fun p => nonempty (strip p)) parts).

Definition _looks_like_paragraph (text : str) (lang : option str) : bool :=
  match text with
  | [] => false
  | _ =>
    let parts := if lang_is lang "zh" then split_on _SENT_TERM_ZH text
                 else split_on _SENT_TERM_LATIN text in
    let sentences := stripped_nonempty parts in
    if length sentences <? 2 then false
    else if length text <? 80 then false
    else true
  end.

Definition cons_head (c : char) (ps : list str) : list str :=
  match ps with
  | p :: ps' => (c :: p) :: ps'
  | [] => [[c]]
  end.

(** [re.split] on a whitespace run that follows a terminator:
    [(?<=[T])\s+] when [allow_empty] is false, [(?<=[T])\s*] when it is
    true (an empty match still splits). [prev_term]: the character just
    read is a terminator; [skipping]: a separator is being consumed. The
    head of the result is the piece being read. *)
Fixpoint split_after (term : char -> bool) (allow_empty prev_term skipping : bool)
    (s : str) : list str :=
  match s with
  | [] => if prev_term && allow_empty then [[]; []] else [[]]
  | c :: s' =>
      if skipping && isspace c then split_after term allow_empty false true s'
      else if prev_term && isspace c then [] :: split_after term allow_empty false true s'
      else if prev_term && allow_empty
           then [] :: cons_head c (split_after term allow_empty (term c) false s')
      else cons_head c (split_after term allow_empty (term c) false s')
  end.

Definition _split_sentences (text : str) (lang : option str) : list str :=
  match text with
  | [] => []
  | _ =>
    let parts := if lang_is lang "zh" then split_after _SENT_TERM_ZH true false false text
                 else split_after _SENT_TERM_LATIN false false false text in
    stripped_nonempty parts
  end.

(** [re.split] on [[;,/·]|[，、；]|\n+] *)
Fixpoint split_list_pattern (in_newlines : bool) (s : str) : list str :=
  match s with
  | [] => [[]]
  | c :: s' =>
      if list_punct c then [] :: split_list_pattern false s'
      else if (c =? 10)%N
           then (if in_newlines then split_list_pattern true s'
                 else [] :: split_list_pattern true s')
      else cons_head c (split_list_pattern false s')
  end.

Definition _split_list_candidates (text : str) : list str :=
  stripped_nonempty (split_list_pattern false text).

Definition _has_sentence_punc (text : str) (lang : option str) : bool :=
  if lang_is lang "zh" then existsb _SENT_TERM_ZH text
  else existsb _SENT_TERM_LATIN text.

(** [re.search] of the whitespace class in [unit] *)
Definition has_space (s : str) : bool := existsb isspace s.
(** [re.sub] deleting every whitespace character *)
Definition remove_spaces (s : str) : str := filter (fun c => negb (isspace c)) s.

Definition _is_word_like (unit : str) (lang : option str) : bool :=
  match unit with
  | [] => false
  | _ =>
    if lang_is lang "en" || lang_is lang "de" then
      if has_space unit then false else length unit <=? 32
    else if lang_is lang "ko" then negb (has_space unit)
    else if lang_is lang "zh" then length (remove_spaces unit) <=? 3
    else negb (has_space unit)
  end.

(** 0.7 *)
Definition list_ratio_threshold : Q := (7 # 10)%Q.

(** [word_like_count / len(items)]. Python divides the two integers with
    correct rounding and compares with the double nearest to 7/10, which
    orders the quotient against 0.7 as the exact fraction does for every
    list shorter than 10^15 items; the fraction is kept exact here. *)
Definition _decide_list_type (items : list str) (lang : option str) : str :=
  match items with
  | [] => u "word_list"
  | _ =>
    let word_like_count := length (filter (fun it => _is_word_like it lang) items) in
    let ratio := (Z.of_nat word_like_count # Pos.of_nat (length items))%Q in
    if Qle_bool list_ratio_threshold ratio then u "word_list" else u "phrase_list"
  end.

(** The same test as Python evaluates it, in binary64: both integers are
    converted to doubles, divided with rounding to nearest, and the
    quotient is compared with the double that the literal 0.7 denotes,
    6305039478318694 * 2^-53. *)
Definition float_of_nat (n : nat) : spec_float :=
  binary_normalize 53 1024 (Z.of_nat n) 0 false.

Definition float_0_7 : spec_float := S754_finite false 6305039478318694 (-53).

Definition ratio_reaches_threshold_float (word_like_count len : nat) : bool :=
  SFleb float_0_7 (SFdiv 53 1024 (float_of_nat word_like_count) (float_of_nat len)).

Definition ratio_reaches_threshold (word_like_count len : nat) : bool :=
  Qle_bool list_ratio_threshold (Z.of_nat word_like_count # Pos.of_nat len)%Q.

Definition ko_endings : list str :=
  map u ["다"; "이다"; "했다"; "합니다"; "했습니다"; "했어요"; "입니다"; "입니 다";
         "인가요"; "인가요"; "인가"; "인가"; "인가요"; "네요"; "군요"; "겠어요";
         "겠습니다"]%string.

Definition ko_trailer (c : char) : bool :=
  (c =? 34)%N || in_chars "'’”)" c || isspace c.

(** [re.search] of one of the endings followed by a run of trailer
    characters (quotes, closing parenthesis, whitespace) up to the end: no
    ending finishes with a trailer character, so the trailer is the longest
    run of them at the end, and what precedes it must finish with one of
    the endings. *)
Definition ko_sentence_ending (s : str) : bool :=
  let fix drop (r : str) : str :=
    match r with
    | [] => []
    | c :: r' => if ko_trailer c then drop r' else r
    end in
  let core := rev (drop (rev s)) in
  existsb (ends_with core) ko_endings.

Definition _looks_like_sentence (text : str) (lang : option str) : bool :=
  match text with
  | [] => false
  | _ =>
    let stripped := strip text in
    if lang_is lang "ko" && negb (_has_sentence_punc stripped lang)
       && (10 <=? length stripped) && ko_sentence_ending stripped
    then true
    else if _has_sentence_punc stripped lang
            && ((3 <=? length (split stripped))
                || ((lang_is lang "ko" || lang_is lang "zh") && (10 <=? length stripped)))
    then true
    else if (6 <=? length (split stripped)) && (40 <=? length stripped) then true
    else if lang_is lang "zh" && (20 <=? length (remove_spaces stripped)) then true
    else false
  end.

Definition _decide_word_or_phrase (text : str) (lang : option str) : str :=
  match text with
  | [] => u "word"
  | _ =>
    if lang_is lang "en" || lang_is lang "de" || lang_is lang "ko" then
      if length (split text) <=? 1 then u "word" else u "phrase"
    else if lang_is lang "zh" then
      if length (remove_spaces text) <=? 3 then u "word" else u "phrase"
    else
      if length (split text) <=? 1 then u "word" else u "phrase"
  end.

(** Lines 272-284 of [analyze_query]: the language of the query. *)
Definition detect_lang (normalized native_lang target_lang : str) : str :=
  let native_score := _lang_score normalized native_lang in
  let target_score := _lang_score normalized target_lang in
  if (0 <? native_score) || (0 <? target_score) then
    if target_score <? native_score then native_lang
    else if native_score <? target_score then target_lang
    else native_lang
  else native_lang.

Definition analyze_query (query native_lang target_lang : str)
    : result QueryAnalysisResult :=
  let raw_query := query in
  let normalized := _normalize raw_query in
  match normalized with
  | [] => Raise (ValueError (u "QueryAnalyzer: query가 비어 있습니다."))
  | _ =>
    let query_lang := Some (detect_lang normalized native_lang target_lang) in
    let lang_for_heuristics := query_lang in
    let text := normalized in
    let sentences := _split_sentences text lang_for_heuristics in
    if _looks_like_paragraph text lang_for_heuristics && match sentences with [] => false | _ => true end then
      QueryAnalysisResult_new raw_query normalized (u "paragraph") sentences query_lang
    else
      let list_items := _split_list_candidates text in
      let sentence_like_count :=
        length (filter (fun it => _looks_like_sentence it lang_for_heuristics) list_items) in
      if (2 <=? length list_items) && (sentence_like_count =? 0) then
        let list_type := _decide_list_type list_items lang_for_heuristics in
        QueryAnalysisResult_new raw_query normalized list_type list_items query_lang
      else
        let qtype := if _looks_like_sentence text lang_for_heuristics then u "sentence"
                     else _decide_word_or_phrase text lang_for_heuristics in
        QueryAnalysisResult_new raw_query normalized qtype [text] query_lang
  end.

End QueryAnalyzer.

(* ===================================================================== *)
(** ** Python values                                                       *)
(* ===================================================================== *)

(** What [model_dump()] and [request.get_json()] return: JSON-like data.
    A dict keeps its keys in insertion order. *)
Unset Elimination Schemes.
Inductive value :=
| VNone
| VBool (b : bool)
| VInt (z : Z)
| VFloat (f : spec_float)
| VStr (s : str)
| VList (l : list value)
| VDict (d : list (str * value)).
Set Elimination Schemes.

Module Py.

Fixpoint assoc (k : str) (d : list (str * value)) : option value :=
  match d with
  | [] => None
  | (k', v) :: d' => if str_eqb k k' then Some v else assoc k d'
  end.

Definition key_in (k : string) (d : list (str * value)) : bool :=
  match assoc (u k) d with Some _ => true | None => false end.

(** [d.get(k)] on a dict; any other value has no [get]. *)
Definition get (v : value) (k : string) : result value :=
  match v with
  | VDict d => Ok (match assoc (u k) d with Some x => x | None => VNone end)
  | _ => Raise AttributeError
  end.

Definition truthy (v : value) : bool :=
  match v with
  | VNone => false
  | VBool b => b
  | VInt z => negb (z =? 0)%Z
  | VFloat (S754_zero _) => false
  | VFloat _ => true
  | VStr s => nonempty s
  | VList [] => false
  | VList _ => true
  | VDict [] => false
  | VDict _ => true
  end.

(** [a or b] *)
Definition or_ (a b : value) : value := if truthy a then a else b.

Definition is_dict (v : value) : bool :=
  match v with VDict _ => true | _ => false end.

(** [k in v] for a string [k] *)
Definition contains (v : value) (k : string) : result bool :=
  match v with
  | VDict d => Ok (key_in k d)
  | VStr s => Ok (is_substring (u k) s)
  | VList l => Ok (existsb (fun x => match x with VStr s => str_eqb s (u k) | _ => false end) l)
  | _ => Raise TypeError
  end.

(** The elements a [for] loop visits. *)
Definition iter (v : value) : result (list value) :=
  match v with
  | VList l => Ok l
  | VDict d => Ok (map (fun kv => VStr (fst kv)) d)
  | VStr s => Ok (map (fun c => VStr [c]) s)
  | _ => Raise TypeError
  end.

Definition len (v : value) : result nat :=
  match v with
  | VList l => Ok (length l)
  | VDict d => Ok (length d)
  | VStr s => Ok (length s)
  | _ => Raise TypeError
  end.

(** [v[0]] *)
Definition first (v : value) : result value :=
  match v with
  | VList (x :: _) => Ok x
  | VList [] => Raise IndexError
  | VStr (c :: _) => Ok (VStr [c])
  | VStr [] => Raise IndexError
  | VDict _ => Raise KeyError
  | _ => Raise TypeError
  end.

(** [v[1:]] *)
Definition rest (v : value) : result value :=
  match v with
  | VList l => Ok (VList (tl l))
  | VStr s => Ok (VStr (tl s))
  | VDict _ => Raise KeyError
  | _ => Raise TypeError
  end.

(** The part of the Python runtime that is a table rather than code:
    case mapping outside ASCII and the [repr] of floats and containers. *)
Class Runtime := {
  unicode_lower : str -> str;
  py_repr : value -> str
}.

Section WithRuntime.
Context {RT : Runtime}.

(** [s.lower()] *)
Definition lower (s : str) : str :=
  if forallb is_ascii s then map ascii_lower s else unicode_lower s.

Definition str_of_Z (z : Z) : str :=
  match z with
  | Zneg p => 45%N :: str_of_N (Npos p)
  | _ => str_of_N (Z.to_N z)
  end.

(** [str(v)], which is also how an f-string renders [{v}]. *)
Definition str_ (v : value) : str :=
  match v with
  | VStr s => s
  | VNone => u "None"
  | VBool true => u "True"
  | VBool false => u "False"
  | VInt z => str_of_Z z
  | _ => py_repr v
  end.

End WithRuntime.

(** [sep.join(lines)]: every element must be a [str]. *)
Fixpoint strs_of (lines : list value) : result (list str) :=
  match lines with
  | [] => Ok []
  | VStr s :: r => ss <- strs_of r ;; Ok (s :: ss)
  | _ :: _ => Raise TypeError
  end.

Definition join_values (sep : str) (lines : list value) : result str :=
  ss <- strs_of lines ;; Ok (join sep ss).

(** Blocks of appended lines, in program order. *)
Definition block := result (list value).

Definition line (s : str) : block := Ok [VStr s].
Definition raw_line (v : value) : block := Ok [v].
Definition nothing : block := Ok [].

Definition seq (a b : block) : block :=
  la <- a ;; lb <- b ;; Ok (la ++ lb).

Fixpoint for_each (i : nat) (xs : list value) (body : nat -> value -> block) : block :=
  match xs with
  | [] => Ok []
  | x :: xs' => seq (body i x) (for_each (S i) xs' body)
  end.

End Py.

Notation "a +++ b" := (Py.seq a b) (at level 60, right associativity).


(* ===================================================================== *)
(** ** main.py: schema selection and the verifier digest                   *)
(* ===================================================================== *)

Module Digest.
Import Py QueryAnalyzer.

Inductive Schema :=
| WordDictResponse
| EncyclopediaResponse
| SentenceL1toL2Response
| SentenceL2toL1Response
| ParagraphL1toL2Response
| ParagraphL2toL1Response.

Definition lexical_types : list str :=
  [u "word"; u "word_list"; u "phrase"; u "phrase_list"].

(** [native_lang == analysis.query_lang] *)
Definition same_lang (native_lang : str) (query_lang : option str) : bool :=
  match query_lang with
  | Some l => str_eqb native_lang l
  | None => false
  end.

Definition select_schema (mode : str) (analysis : QueryAnalysisResult)
    (native_lang : str) : Schema :=
  if str_eqb mode (u "encyclopedia") then EncyclopediaResponse
  else if is_in (query_type analysis) lexical_types then WordDictResponse
  else if is_in (query_type analysis) [u "sentence"] then
    if same_lang native_lang (query_lang analysis) then SentenceL1toL2Response
    else SentenceL2toL1Response
  else
    if same_lang native_lang (query_lang analysis) then ParagraphL1toL2Response
    else ParagraphL2toL1Response.

Definition dict_get (d : list (str * value)) (k : string) : value :=
  match assoc (u k) d with Some x => x | None => VNone end.

Definition is_none (v : value) : bool :=
  match v with VNone => true | _ => false end.

(** The block shared by [build_verifier_answer_text] and
    [_extract_query_analysis_status]: the top-level [query_analysis], or
    else the one inside a [sentence] dict. *)
Definition find_query_analysis (data : value) : value :=
  match data with
  | VDict d =>
      if key_in "query_analysis" d then dict_get d "query_analysis"
      else match dict_get d "sentence" with
           | VDict sd =>
               if key_in "query_analysis" sd then dict_get sd "query_analysis"
               else VNone
           | _ => VNone
           end
  | _ => VNone
  end.

Definition MAX_CHARS : nat := 4000.
Definition TRUNCATION_MARKER : str := nl ++ u "... [TRUNCATED FOR VERIFIER]".

(** The hard cut at the end of [build_verifier_answer_text]. *)
Definition truncate_for_verifier (verifier_text : str) : str :=
  if MAX_CHARS <? length verifier_text
  then firstn MAX_CHARS verifier_text ++ TRUNCATION_MARKER
  else verifier_text.

Section WithRuntime.
Context {RT : Runtime}.

(** [for ex in examples]: the source and target sentence of each pair. *)
Definition example_lines (prefix : str) (examples : value) : block :=
  exs <- iter examples ;;
  for_each 0 exs (fun _ ex =>
    (s <- get ex "source_sentence" ;; line (prefix ++ u "        - src: " ++ str_ s))
    +++ (t <- get ex "target_sentence" ;; line (prefix ++ u "          tgt: " ++ str_ t))).

(** [for alt in alts: lines.append(head + f"{alt}")] *)
Definition bullet_lines (head : str) (alts : value) : block :=
  xs <- iter alts ;;
  for_each 0 xs (fun _ alt => line (head ++ str_ alt)).

(** The loop over [word_expls], the same in both sentence renderers. *)
Definition word_explanation_lines (word_expls : value)
    (include_word_core include_word_examples include_word_alternatives : bool)
    (prefix : str) : block :=
  if truthy word_expls then
    line (prefix ++ u "- word_explanations:")
    +++ (wes <- iter word_expls ;;
         for_each 0 wes (fun _ we =>
           (if include_word_core then
              (w <- get we "l2_word" ;; line (prefix ++ u "    · l2_word: " ++ str_ w))
              +++ (m <- get we "meaning_l1" ;;
                   line (prefix ++ u "      meaning_l1: " ++ str_ m))
              +++ (e <- get we "explanation_l1" ;;
                   if truthy e then line (prefix ++ u "      explanation_l1: " ++ str_ e)
                   else nothing)
            else nothing)
           +++ (if include_word_examples then
                  e <- get we "examples" ;;
                  let examples := or_ e (VList []) in
                  if truthy examples then
                    line (prefix ++ u "      examples:") +++ example_lines prefix examples
                  else nothing
                else nothing)
           +++ (if include_word_alternatives then
                  a <- get we "alternatives_l2" ;;
                  let alts_l2 := or_ a (VList []) in
                  if truthy alts_l2 then
                    line (prefix ++ u "      alternatives_l2:")
                    +++ bullet_lines (prefix ++ u "        - ") alts_l2
                  else nothing
                else nothing)))
  else nothing.

Definition render_sentence_l1_to_l2 (sent_block word_expls : value)
    (include_word_core include_word_examples include_word_alternatives : bool)
    (prefix : str) : block :=
  let s := or_ sent_block (VDict []) in
  line (prefix ++ u "L1→L2 SENTENCE BLOCK")
  +++ (x <- get s "l1_sentence" ;; line (prefix ++ u "- l1_sentence: " ++ str_ x))
  +++ (x <- get s "main_l2_sentence" ;; line (prefix ++ u "- main_l2_sentence: " ++ str_ x))
  +++ word_explanation_lines word_expls include_word_core include_word_examples
        include_word_alternatives prefix.

Definition render_sentence_l2_to_l1 (sent_block word_expls : value)
    (include_word_core include_word_examples include_word_alternatives : bool)
    (prefix : str) : block :=
  let s := or_ sent_block (VDict []) in
  line (prefix ++ u "L2→L1 SENTENCE BLOCK")
  +++ (x <- get s "l2_sentence" ;; line (prefix ++ u "- l2_sentence: " ++ str_ x))
  +++ (x <- get s "main_l1_sentence" ;; line (prefix ++ u "- main_l1_sentence: " ++ str_ x))
  +++ (x <- get s "sentence_explanation_l1" ;;
       if truthy x then line (prefix ++ u "- sentence_explanation_l1: " ++ str_ x)
       else nothing)
  +++ word_explanation_lines word_expls include_word_core include_word_examples
        include_word_alternatives prefix.

(** The common header and the [query_analysis] lines. *)
Definition header_lines (data : value) (mode_norm qtype : str) : block :=
  line (u "[AdapDict answer summary for Verifier]")
  +++ line (u "mode=" ++ mode_norm ++ u ", query_type=" ++ qtype)
  +++ match find_query_analysis data with
      | VDict qa =>
          let status := dict_get qa "status" in
          let reason := dict_get qa "reason_l1" in
          (if is_none status then nothing
           else line (u "query_analysis.status=" ++ str_ status))
          +++ (if is_none reason then nothing
               else line (u "query_analysis.reason_l1=" ++ str_ reason))
      | _ => nothing
      end
  +++ line [].

(** 1-1) Word / Phrase *)
Definition variant_lines (j : nat) (var : value) : block :=
  line (u "    - Variant #" ++ str_of_nat (j + 1))
  +++ (t <- get var "target_text" ;; line (u "      target_text: " ++ str_ t))
  +++ (e <- get var "explanation" ;;
       if truthy e then line (u "      explanation: " ++ str_ e) else nothing)
  +++ (a <- get var "alternatives" ;;
       let alt_list := or_ a (VList []) in
       if truthy alt_list then
         line (u "      alternatives:") +++ bullet_lines (u "        - ") alt_list
       else nothing)
  +++ (e <- get var "examples" ;;
       let examples := or_ e (VList []) in
       if truthy examples then
         first_ex <- first examples ;;
         line (u "      example:")
         +++ (s <- get first_ex "source_sentence" ;; line (u "        - src: " ++ str_ s))
         +++ (t <- get first_ex "target_sentence" ;; line (u "          tgt: " ++ str_ t))
       else nothing)
  +++ (e <- get var "examples" ;;
       extra_examples <- rest (or_ e (VList [])) ;;
       if truthy extra_examples then
         line (u "      extra_examples:") +++ example_lines [] extra_examples
       else nothing).

Definition entry_lines (idx : nat) (ent : value) : block :=
  line (u "- Entry #" ++ str_of_nat (idx + 1))
  +++ (s <- get ent "source_text" ;; line (u "  source_text: " ++ str_ s))
  +++ (s <- get ent "source_lang" ;; t <- get ent "target_lang" ;;
       line (u "  source_lang: " ++ str_ s ++ u ", target_lang: " ++ str_ t))
  +++ (v <- get ent "variants" ;;
       let variants := or_ v (VList []) in
       (n <- len variants ;; line (u "  variants_count: " ++ str_of_nat n))
       +++ (vs <- iter variants ;; for_each 0 vs variant_lines))
  +++ line [].

Definition word_entries_lines (data : value) : block :=
  e <- get data "entries" ;;
  let entries := or_ e (VList []) in
  line (u "[WORD/PHRASE ENTRIES]")
  +++ (es <- iter entries ;; for_each 0 es entry_lines).

(** 1-2) Sentence *)
Definition sentence_mode_lines (data : value) : block :=
  line (u "[SENTENCE MODE]")
  +++ (sb <- get data "sentence" ;;
       let sent_block := or_ sb (VDict []) in
       we <- get data "word_explanations" ;;
       let word_expls := or_ we (VList []) in
       has_l1 <- contains sent_block "l1_sentence" ;;
       if has_l1 then
         render_sentence_l1_to_l2 sent_block word_expls true true true []
         +++ (a <- get sent_block "alternative_l2_sentences" ;;
              let alts := or_ a (VList []) in
              if truthy alts then
                line (u "alternative_l2_sentences:") +++ bullet_lines (u "- ") alts
              else nothing)
       else
         has_l2 <- contains sent_block "l2_sentence" ;;
         has_main <- (if has_l2 then contains sent_block "main_l1_sentence" else Ok false) ;;
         if has_l2 && has_main then
           render_sentence_l2_to_l1 sent_block word_expls true true true []
         else
           line (u "Unknown sentence schema. RAW sentence block:")
           +++ line (str_ sent_block))
  +++ line [].

(** 1-3) Paragraph *)
Definition card_parts (card : value) : result (value * value) :=
  sb <- get (or_ card (VDict [])) "sentence" ;;
  we <- get (or_ card (VDict [])) "word_explanations" ;;
  Ok (or_ sb (VDict []), or_ we (VList [])).

Definition paragraph_l1_to_l2_lines (data : value) : block :=
  line (u "Direction: L1 → L2 (ParagraphL1toL2Response)")
  +++ line (u "L1 paragraph:")
  +++ (p <- get data "l1_paragraph" ;; raw_line (or_ p (VStr [])))
  +++ (a <- get data "l1_lang" ;; b <- get data "l2_lang" ;;
       line (u "l1_lang: " ++ str_ a ++ u ", l2_lang: " ++ str_ b))
  +++ line []
  +++ (c <- get data "sentence_cards" ;;
       let sentence_cards := or_ c (VList []) in
       line (u "Sentence cards (L1→L2):")
       +++ (cards <- iter sentence_cards ;;
            for_each 0 cards (fun i card =>
              line (u "--- Sentence Card #" ++ str_of_nat (i + 1) ++ u " ---")
              +++ (sw <- card_parts card ;;
                   let sent_block := fst sw in
                   let we := snd sw in
                   render_sentence_l1_to_l2 sent_block we true true true (u "  ")
                   +++ (a <- get sent_block "alternative_l2_sentences" ;;
                        let alts := or_ a (VList []) in
                        if truthy alts then
                          line (u "  alternative_l2_sentences:")
                          +++ bullet_lines (u "    - ") alts
                        else nothing))))).

Definition paragraph_l2_to_l1_lines (data : value) : block :=
  line (u "Direction: L2 → L1 (ParagraphL2toL1Response)")
  +++ line (u "L2 paragraph:")
  +++ (p <- get data "l2_paragraph" ;; raw_line (or_ p (VStr [])))
  +++ (a <- get data "l2_lang" ;; b <- get data "l1_lang" ;;
       line (u "l2_lang: " ++ str_ a ++ u ", l1_lang: " ++ str_ b))
  +++ line []
  +++ line (u "Paragraph-level translation and explanation:")
  +++ (t <- get data "paragraph_l1_translation" ;;
       line (u "- paragraph_l1_translation: " ++ str_ t))
  +++ (e <- get data "paragraph_content_explanation_l1" ;;
       if truthy e then line (u "- paragraph_content_explanation_l1: " ++ str_ e)
       else nothing)
  +++ line []
  +++ line (u "Sentence cards (L2→L1):")
  +++ (c <- get data "sentence_cards" ;;
       let sentence_cards := or_ c (VList []) in
       cards <- iter sentence_cards ;;
       for_each 0 cards (fun i card =>
         line (u "--- Sentence Card #" ++ str_of_nat (i + 1) ++ u " ---")
         +++ (sw <- card_parts card ;;
              render_sentence_l2_to_l1 (fst sw) (snd sw) true true true (u "  ")))).

Definition paragraph_mode_lines (data : value) : block :=
  line (u "[PARAGRAPH MODE]")
  +++ (is_l1 <- contains data "l1_paragraph" ;;
       if is_l1 then paragraph_l1_to_l2_lines data
       else
         is_l2 <- contains data "l2_paragraph" ;;
         if is_l2 then paragraph_l2_to_l1_lines data
         else line (u "Unknown paragraph schema. RAW data:") +++ line (str_ data)).

(** 2) Encyclopedia *)
Fixpoint any_analogy (kts : list value) : result bool :=
  match kts with
  | [] => Ok false
  | kt :: r => a <- get kt "analogy" ;; if truthy a then Ok true else any_analogy r
  end.

Definition optional_section (data : value) (key : string) : block :=
  x <- get data key ;;
  if truthy x then line [] +++ line (u key ++ u ":") +++ raw_line (or_ x (VStr []))
  else nothing.

Definition encyclopedia_lines (data : value) : block :=
  line (u "[ENCYCLOPEDIA ANSWER]")
  +++ (k <- get data "key_terms" ;;
       let key_terms := or_ k (VList []) in
       (if truthy key_terms then
          line (u "key_terms:")
          +++ (kts <- iter key_terms ;;
               for_each 0 kts (fun _ kt =>
                 (t <- get kt "term" ;; line (u "- term: " ++ str_ t))
                 +++ (d <- get kt "definition" ;; line (u "  definition: " ++ str_ d))))
        else nothing)
       +++ line []
       +++ line (u "simplified_explanation:")
       +++ (s <- get data "simplified_explanation" ;; raw_line (or_ s (VStr [])))
       +++ optional_section data "input_text"
       +++ optional_section data "usage_context"
       +++ (if truthy key_terms then
              kts <- iter key_terms ;;
              any <- any_analogy kts ;;
              if any then
                line [] +++ line (u "key_term_analogies:")
                +++ for_each 0 kts (fun _ kt =>
                      a <- get kt "analogy" ;;
                      if truthy a then
                        (t <- get kt "term" ;; line (u "- term: " ++ str_ t))
                        +++ line (u "  analogy: " ++ str_ a)
                      else nothing)
              else nothing
            else nothing)
       +++ optional_section data "extra_notes").

(** Everything [build_verifier_answer_text] appends to [lines]. [entry]
    is the data after [model_dump()] (or the object itself when it has
    none). *)
Definition digest_lines (entry : value) (mode query_type : str) : block :=
  let data := entry in
  let mode_norm := lower (strip mode) in
  let qtype := lower (strip query_type) in
  header_lines data mode_norm qtype
  +++ (if str_eqb mode_norm (u "dict") then
         if is_in qtype lexical_types then word_entries_lines data
         else if str_eqb qtype (u "sentence") then sentence_mode_lines data
         else paragraph_mode_lines data
       else encyclopedia_lines data).

(** The digest before the cut: the lines joined by newlines. *)
Definition full_digest (entry : value) (mode query_type : str) : result str :=
  lines <- digest_lines entry mode query_type ;;
  join_values nl lines.

Definition build_verifier_answer_text (entry : value) (mode query_type : str)
    : result str :=
  verifier_text <- full_digest entry mode query_type ;;
  Ok (truncate_for_verifier verifier_text).

End WithRuntime.

End Digest.

(* ===================================================================== *)
(** ** prompt_rule.py                                                      *)
(* ===================================================================== *)

Module PromptRule.
Import Py QueryAnalyzer.

Definition _direction (query_lang native_lang target_lang : str) : str :=
  if str_eqb query_lang native_lang then u "native_to_target"
  else if str_eqb query_lang target_lang then u "target_to_native"
  else u "native_to_target".

(** [f"{i}. {u}"] for [enumerate(units, 1)] *)
Fixpoint numbered (i : nat) (units : list str) : list str :=
  match units with
  | [] => []
  | x :: r => (str_of_nat i ++ u ". " ++ x) :: numbered (S i) r
  end.

Definition _join_units (units : list str) : str :=
  match units with
  | [] => []
  | [x] => x
  | _ => join nl (numbered 1 units)
  end.

(** *** The instruction texts *)

Definition level_elementary : str :=
  u "Level: Elementary
- Technical terms: keep exact; add very short plain definition.
- Lexical: basic daily words; technical terms from the user's field are allowed but must be explained in very simple language.
- Syntax: very short simple sentences; no subordinate clauses.
- Explanation: direct, concrete, minimal detail. Use friendly and clear emojis frequently to support understanding (about 1 emoji per clause is okay).
- Abstraction: fully concrete; no invisible mechanisms.
- Examples: everyday context plus very simple field-related examples; 1-sentence examples.
".

Definition level_middle : str :=
  u "Level: Middle School
- Technical terms: unchanged; brief intuitive explanation.
- Lexical: common words; basic academic vocab with clarification.
- Syntax: simple compound sentences; basic connectors.
- Explanation: idea → reason → short analogy/example.
- Abstraction: light cause–effect reasoning.
- Examples: simple academic contexts; 1–2 sentence scenarios.
- Style: use emojis sparingly (e.g., 1 per 2–3 sentences) only when they help emphasize or clarify meaning.
".

Definition level_high : str :=
  u "Level: High School
- Technical terms: unchanged; clarify when needed.
- Lexical: basic academic vocab allowed.
- Syntax: clear compound/complex sentences (1–2 ideas each).
- Explanation: intuition → mechanism → limitation.
- Abstraction: medium-level; simplified models/processes.
- Examples: real-world + academic mix; 2–3 sentence cases.
".

Definition level_bachelor : str :=
  u "Level: Bachelor
- Technical terms: used freely and precisely.
- Lexical: semi-specialized terms; define only if useful.
- Syntax: complex sentences; avoid heavy nesting.
- Explanation: concept → properties → concise example.
- Abstraction: medium–high; brief theory framing.
- Examples: empirical or policy-related.
".

Definition level_master : str :=
  u "Level: Master
- Technical terms: fully used; define only unfamiliar items.
- Lexical: domain terminology encouraged.
- Syntax: academic structures; higher information density.
- Explanation: assumption → mechanism → implication.
- Abstraction: high-level; models and causal reasoning.
- Examples: simplified research-oriented cases.
".

Definition level_doctor : str :=
  u "Level: Doctoral
- Technical terms: exact and precise; fine distinctions.
- Lexical: unrestricted domain-theoretical vocabulary.
- Syntax: advanced academic structures; inference chains.
- Explanation: compressed, mechanism-centered; alternatives allowed.
- Abstraction: very high; model-level and theoretical logic.
- Examples: research-level cases (trade-offs, identification issues).
".

Definition level_fallback : str :=
  u "Level: Intermediate Adult
- Technical terms unchanged.
- Clear vocabulary; moderate complexity.
- Balanced explanations with brief definitions.
- Moderate abstraction.
- Everyday + academic examples.
".

Definition domain_general (field : str) : str :=
  u "[Domain behavior for dictionary mode]

In dictionary mode with a GENERAL field:

- You MUST focus on the general, most common everyday senses of the query.
- You MUST NOT restrict the meaning to a narrow technical sub-domain
  unless the query text itself clearly demands it (e.g., contains explicit technical notation or jargon).
- If a word also has specialized technical meanings in particular fields,
  you may briefly mention them only after the general sense, and only if they are clearly helpful for the user.

These rules OVERRIDE any later generic domain hints in this prompt whenever they conflict.
".

Definition domain_specific (field : str) : str :=
  u "[Domain behavior for dictionary mode]

In dictionary mode with a SPECIFIC field:

- The field is '"
  ++ field
  ++ u "' and dictionary mode is FIELD-EXCLUSIVE.
- You MUST ONLY output senses, translations, explanations, examples, and alternatives
  that belong to the '"
  ++ field
  ++ u "' domain.
- You MUST NOT mention general or out-of-field senses, even as secondary background.
- For example, if field = " ++ dq ++ u "finance" ++ dq ++ u " and the query is " ++ dq ++ u "interest" ++ dq ++ u ",
  you MUST only output the financial sense (e.g., '이자') and MUST NOT mention
  the general '관심/흥미' sense.

These rules OVERRIDE any later generic domain hints in this prompt whenever they conflict.
".

Definition domain_encyclopedia (field : str) : str :=
  u "[Domain behavior for encyclopedia mode]

In encyclopedia mode:

- The field '"
  ++ field
  ++ u "' describes the user's study area.
- When multiple interpretations exist, you should prioritize explanations,
  examples, and analogies that are relevant to this field.
- However, you may still mention general meanings or cross-domain background
  when it helps understanding.
".

Definition header_text (native_lang target_lang edu_label education field qtype m level_block domain_block : str) : str :=
  u "
You are the core reasoning engine of a multi-lingual learning dictionary called " ++ dq ++ u "AdapDict" ++ dq ++ u ".

If query_analysis.status != " ++ dq ++ u "VALID" ++ dq ++ u ", you MUST ignore all mode-specific instructions below and leave non-query_analysis fields empty.

- User native language (L1): "
  ++ native_lang
  ++ u "
- User target language (L2): "
  ++ target_lang
  ++ u "
- User education level: "
  ++ edu_label
  ++ u " (code: "
  ++ education
  ++ u ")
- User field of study: "
  ++ field
  ++ u "
- Query type: "
  ++ qtype
  ++ u "
- Mode: "
  ++ (if str_eqb m (u "dict") then u "dictionary" else u "encyclopedia")
  ++ u "

You MUST strictly follow the server-side JSON schema given via the API (response_schema).
Do NOT invent new fields or change the schema structure.
The API will parse your output directly into a typed schema, so you must stay consistent.

[User level adaptation guidelines]
"
  ++ level_block
  ++ u "

"
  ++ domain_block
  ++ u "
[STEP 0: Query validation and query_analysis]

Before generating any dictionary or encyclopedia content, you MUST first evaluate whether the user's query itself is valid for this system.

You MUST always fill the top-level field " ++ dq ++ u "query_analysis" ++ dq ++ u " in the JSON response with the following structure:

- query_analysis.status: one of
  - " ++ dq ++ u "VALID" ++ dq ++ u "
  - " ++ dq ++ u "TYPO" ++ dq ++ u "
  - " ++ dq ++ u "FACTUAL_ERROR" ++ dq ++ u "
  - " ++ dq ++ u "AMBIGUOUS" ++ dq ++ u "
  - " ++ dq ++ u "NONSENSE" ++ dq ++ u "
- query_analysis.reason_l1:
  a short, user-facing explanation written in the user's native language L1 ("
  ++ native_lang
  ++ u ").
- query_analysis.suggestion_queries:
  a list of 0–3 alternative query strings (or null) when appropriate.

Use the statuses as follows:

1) " ++ dq ++ u "VALID" ++ dq ++ u ":
  - The query is a reasonable input for this mode and query type.
  - Example: a normal word, phrase, sentence, or paragraph that is meaningful.
  - In this case:
    - Set query_analysis.reason_l1 to a very short confirmation in L1 ("
  ++ native_lang
  ++ u "),
      e.g. " ++ dq ++ u "정상적인 쿼리입니다." ++ dq ++ u " (if L1 is Korean) or a similar short message in L1.
    - You MUST then generate ALL other fields in the schema normally
      (dictionary/encyclopedia content) according to the mode-specific instructions below.

2) " ++ dq ++ u "TYPO" ++ dq ++ u ":
  - The query contains a spelling mistake, malformed word, or non-existent lexical item that is very close to known words.
  - Example: " ++ dq ++ u "applr" ++ dq ++ u " (likely " ++ dq ++ u "apple" ++ dq ++ u " or " ++ dq ++ u "apply" ++ dq ++ u ").
  - In this case:
    - query_analysis.reason_l1:
      explain in L1 ("
  ++ native_lang
  ++ u ") what seems wrong and which real words it may correspond to.
      or example, if L1 is Korean:
      " ++ dq ++ u "입력하신 'applr'는 알려진 영어 단어가 아니며, 'apple' 또는 'apply'의 오타일 가능성이 높습니다." ++ dq ++ u "
    - query_analysis.suggestion_queries:
      include 1–3 likely intended queries, e.g. [" ++ dq ++ u "apple" ++ dq ++ u ", " ++ dq ++ u "apply" ++ dq ++ u "].
    - For ALL other fields in the schema (dictionary/encyclopedia content),
      you MUST NOT generate a full answer.
      Instead, keep them empty or minimal (empty strings, empty lists, or null),
      because the user needs to re-enter or correct the query.

3) " ++ dq ++ u "FACTUAL_ERROR" ++ dq ++ u ":
  - The query is a sentence or paragraph whose content is clearly false
    with respect to widely known facts.
  - Example: " ++ dq ++ u "지구는 네모다." ++ dq ++ u ", " ++ dq ++ u "서울은 일본의 수도이다." ++ dq ++ u "
  - In this case:
    - query_analysis.reason_l1:
      clearly state in L1 ("
  ++ native_lang
  ++ u ") that the sentence is factually wrong and briefly provide the correct fact.
      For example, in Korean:
      " ++ dq ++ u "입력하신 문장은 사실과 다릅니다. 지구는 네모가 아니라 둥근 타원체에 가깝습니다." ++ dq ++ u "
    - query_analysis.suggestion_queries: usually null.
    - You MUST NOT build a full dictionary/encyclopedia explanation
      treating the false statement as if it were true.
      Instead, only give minimal or empty values for the other fields,
      and focus on correcting the misunderstanding via query_analysis.reason_l1.

4) " ++ dq ++ u "AMBIGUOUS" ++ dq ++ u ":
  - The query is too vague, incomplete, or underspecified to know what the user really wants.
  - Example: a single letter, a very short fragment, or an extremely broad word with no context.
  - In this case:
    - query_analysis.reason_l1:
      explain in L1 ("
  ++ native_lang
  ++ u ") why the query is ambiguous or incomplete.
    - Suggest in L1 how the user could rewrite the query more specifically
      (e.g., add more words, specify field or sentence).
    - query_analysis.suggestion_queries:
      you may propose 1–3 more precise example queries.
    - DO NOT generate a full dictionary/encyclopedia answer;
      keep other fields minimal or empty.

5) " ++ dq ++ u "NONSENSE" ++ dq ++ u ":
  - The query is structurally or semantically nonsensical
    so that no meaningful interpretation can be made.
  - Example: random characters, words in a sequence that do not form a coherent sentence or concept,
    or logically contradictory gibberish.
  - In this case:
    - query_analysis.reason_l1:
      briefly explain in L1 ("
  ++ native_lang
  ++ u ") why the input is not understandable.
    - query_analysis.suggestion_queries:
      usually null, unless you can suggest a clear, sensible alternative.
    - DO NOT generate a full dictionary/encyclopedia answer;
      keep other fields minimal or empty.

[IMPORTANT]

- You MUST always fill query_analysis first.
- If query_analysis.status != " ++ dq ++ u "VALID" ++ dq ++ u ":
  - You MUST NOT generate a normal dictionary/encyclopedia answer.
  - All other fields in the schema should be left empty or minimal.
  - The user interface will show query_analysis.reason_l1 as the main message to the user.
- Only when query_analysis.status == " ++ dq ++ u "VALID" ++ dq ++ u " are you allowed to fully populate
  the remaining fields in the schema according to the mode-specific instructions below.
".

Definition body_encyclopedia (units_block native_lang edu_label field : str) : str :=
  u "
[Task: Encyclopedia-style explanation]

The user has asked about the following content:

--- QUERY UNITS ---
"
  ++ units_block
  ++ u "
-------------------

Your job:

1. Treat the input as a concept or a set of related concepts.
2. Explain everything in L1 ("
  ++ native_lang
  ++ u ") only.
3. Adjust difficulty to the user's education level ("
  ++ edu_label
  ++ u ")
  and field of study ("
  ++ field
  ++ u "). Use field-appropriate analogies if helpful.
4. Clearly break down:
  - What it is
  - Why it matters
  - Where it is commonly used or seen (usage context)
  - Any intuitive examples or analogies
5. If there are multiple units (list or paragraph), you may:
  - either focus on the central overarching concept, OR
  - briefly cover each unit, grouped logically,
  depending on what makes more sense for understanding.
6. If the concept has a specialized meaning in the user's field ("
  ++ field
  ++ u "),
  you MUST prioritize that field-specific explanation first, and then optionally
  mention general meanings later as background.

Remember:
- Output must be fully in L1 ("
  ++ native_lang
  ++ u ").
- Follow the structured fields in the EncyclopediaResponse schema
  (e.g., input_text, key_terms, simplified_explanation, usage_context, extra_notes, ...).
".

Definition body_n2t_lexical_list (units_block native_lang target_lang education field : str) : str :=
  u "
[Task: Bilingual dictionary for multiple lexical items]

The user entered L1 ("
  ++ native_lang
  ++ u ") lexical items (words/phrases).
You receive a list of items and must produce a dictionary-style entry
for EACH item in the list.

--- L1 ITEMS ---
"
  ++ units_block
  ++ u "
----------------

For EACH item:

1. First, check whether this item is used as a technical term in the user's field ("
  ++ field
  ++ u ").
  - If a field-specific sense exists, you MUST follow the domain behavior described above
    in the [Domain behavior for dictionary mode] block.
2. Identify the most natural L2 ("
  ++ target_lang
  ++ u ") translation or expression for the primary sense.
3. Provide several alternative L2 expressions with similar meaning
  when relevant (e.g., synonyms, more formal/informal variants).
4. Provide 1~3 example sentences in L2 for that item,
  adjusted to the user's level ("
  ++ education
  ++ u ") and field ("
  ++ field
  ++ u ").
5. Add explanations in L1 ("
  ++ native_lang
  ++ u ") that:
  - clarify nuance or typical usage,
  - give simple analogies or concrete situations,
  - highlight any important domain-specific aspects if relevant.

All explanations and meta-explanations must be in L1 ("
  ++ native_lang
  ++ u ").
All example sentences and lexical realizations must be in L2 ("
  ++ target_lang
  ++ u ").

Return one dictionary entry per item, following the AdapDictResponse schema.
".

Definition body_n2t_lexical_single (units_block native_lang target_lang education field : str) : str :=
  u "
[Task: Bilingual dictionary for a single lexical item]

The user entered one lexical item in L1 ("
  ++ native_lang
  ++ u ").

--- L1 QUERY ---
"
  ++ units_block
  ++ u "
---------------

Your job:

1. Detect whether this item has relevant general or field-specific senses,
  and then follow the domain behavior defined in the [Domain behavior for dictionary mode] block.
2. Give the most natural L2 ("
  ++ target_lang
  ++ u ") translation or expression for the primary sense.
3. Provide several alternative L2 expressions with similar meaning
  (synonyms, more casual/formal variants, domain-specific alternatives).
4. Provide 2~4 example sentences in L2 that:
  - match the user's level ("
  ++ education
  ++ u "),
  - reflect the user's field of study ("
  ++ field
  ++ u ") when appropriate.
5. Explain in L1 ("
  ++ native_lang
  ++ u "):
  - nuance and typical usage,
  - any register or politeness constraints,
  - common collocations or typical patterns.

Explanations must be in L1.
Translations and examples must be in L2.
Follow the AdapDictResponse schema exactly.
".

Definition body_n2t_sentence_list (units_block native_lang target_lang education field : str) : str :=
  u "
[Task: Sentence-level translation and explanation for multiple sentences]

The user wrote a paragraph in L1 ("
  ++ native_lang
  ++ u ").
You receive it segmented into sentences:

--- L1 SENTENCES ---
"
  ++ units_block
  ++ u "
--------------------

For EACH sentence:

1. Produce a natural L2 ("
  ++ target_lang
  ++ u ") translation,
  as if you are doing careful writing/translation for a learner.
2. If any key words/phrases in the sentence have specialized meanings in the user's field ("
  ++ field
  ++ u "),
  you MUST preserve and clarify those domain-specific meanings when required by the [Domain behavior] block.
3. Optionally suggest 1~2 alternative L2 rewrites that:
  - sound more natural,
  - or fit slightly different registers (formal/casual),
  matching the user's level ("
  ++ education
  ++ u ") and field ("
  ++ field
  ++ u ").
4. Provide short L1 ("
  ++ native_lang
  ++ u ") explanations when needed
  (e.g., why a certain structure was chosen).

All explanations are in L1.
All translations and alternative rewrites are in L2.

Use the sentence-level schema (SenseSentenceResponse) if configured,
or otherwise a multi-entry dictionary schema.
".

Definition body_n2t_sentence_single (units_block native_lang target_lang education field : str) : str :=
  u "
[Task: Sentence translation and enhancement]

The user wrote a single sentence in L1 ("
  ++ native_lang
  ++ u ").

--- L1 SENTENCE ---
"
  ++ units_block
  ++ u "
-------------------

Your job:

1. Translate the sentence into natural L2 ("
  ++ target_lang
  ++ u "),
  matching the user's level ("
  ++ education
  ++ u ") and field ("
  ++ field
  ++ u ").
2. If any key terms in the sentence are used in a field-specific way ("
  ++ field
  ++ u "),
  you MUST preserve and clarify that domain-specific meaning in your translation,
  consistent with the [Domain behavior for dictionary mode].
3. Provide 1~3 alternative L2 rewrites:
  - one slightly more formal,
  - one slightly more casual or conversational,
  - optionally one that is more domain-specific if "
  ++ field
  ++ u " suggests it.
4. In L1 ("
  ++ native_lang
  ++ u "), briefly explain:
  - key grammar or expression choices,
  - any important nuances or possible pitfalls,
  - especially how field-specific meanings are reflected in L2.

Explanations must be in L1.
Translations and alternative sentences must be in L2.
Follow the sentence schema (SenseSentenceResponse) when it is used.
".

Definition body_t2n_lexical_list (units_block native_lang target_lang education field : str) : str :=
  u "
[Task: Understanding-focused dictionary for multiple L2 lexical items]

The user entered several lexical items in L2 ("
  ++ target_lang
  ++ u ").

--- L2 ITEMS ---
"
  ++ units_block
  ++ u "
----------------

For EACH item:

1. Detect whether this item has general and/or specialized meanings,
  and then follow the domain behavior defined in the [Domain behavior for dictionary mode] block.
2. Provide an accurate L1 ("
  ++ native_lang
  ++ u ") translation or explanation
  for the primary sense.
3. Explain in L1:
  - nuance, register (formal/informal), and common usage,
  - differences from near-synonyms,
  - typical collocations or patterns.
4. Provide 1~2 example sentences in L2 ("
  ++ target_lang
  ++ u ") for each item,
  adjusted to the user's level ("
  ++ education
  ++ u ") and field ("
  ++ field
  ++ u ").
5. Optionally suggest a few related L2 expressions or useful phrases,
  but keep the focus on understanding the original items.

All explanations must be in L1.
Examples and lexical realizations are in L2.
Return one dictionary entry per item using the AdapDictResponse schema.
".

Definition body_t2n_lexical_single (units_block native_lang target_lang education field : str) : str :=
  u "
[Task: Understanding-focused dictionary for a single L2 lexical item]

The user entered one lexical item in L2 ("
  ++ target_lang
  ++ u ").

--- L2 QUERY ---
"
  ++ units_block
  ++ u "
---------------

Your job:

1. Determine whether this lexical item has general and/or field-specific senses,
  and apply the rules from the [Domain behavior for dictionary mode] block.
2. Provide an L1 ("
  ++ native_lang
  ++ u ") translation or concise paraphrase
  for the primary sense, tuned to the user's level ("
  ++ education
  ++ u ") and field ("
  ++ field
  ++ u ").
3. In L1, explain:
  - nuance and typical usage,
  - common collocations,
  - differences from similar words.
4. Provide 2~3 example sentences in L2 ("
  ++ target_lang
  ++ u ") that illustrate usage,
  preferably in contexts related to "
  ++ field
  ++ u " when appropriate.
5. Optionally propose a few alternative L2 expressions, but keep the focus
  on understanding the original item.

All explanations are in L1.
Examples and lexical forms are in L2.
Follow the AdapDictResponse schema exactly.
".

Definition body_t2n_sentence_list (units_block native_lang target_lang education field : str) : str :=
  u "
[Task: Comprehension and explanation for multiple L2 sentences]

The user wrote a paragraph in L2 ("
  ++ target_lang
  ++ u ").
You receive it segmented into sentences:

--- L2 SENTENCES ---
"
  ++ units_block
  ++ u "
--------------------

For EACH sentence:

1. Provide an L1 ("
  ++ native_lang
  ++ u ") translation that is natural and clear.
2. In L1, briefly explain:
  - important grammar points,
  - idiomatic expressions or tricky parts,
  - any field-specific terms relevant to "
  ++ field
  ++ u ", consistent with the [Domain behavior] block.
3. Optionally suggest 1~2 improved L2 versions of each sentence
  (more natural, clearer, or better suited for the user's level "
  ++ education
  ++ u "),
  keeping field-specific meanings accurate when required.

All meta-explanations must be in L1.
Translations and improved versions are in L1 (translation) + L2 (improved).
Use the sentence schema (SenseSentenceResponse) if configured.
".

Definition body_t2n_sentence_single (units_block native_lang target_lang education field : str) : str :=
  u "
[Task: Comprehension and refinement for a single L2 sentence]

The user entered one sentence in L2 ("
  ++ target_lang
  ++ u ").

--- L2 SENTENCE ---
"
  ++ units_block
  ++ u "
-------------------

Your job:

1. Translate the sentence into L1 ("
  ++ native_lang
  ++ u ") in a way that:
  - is easy to understand at the user's level ("
  ++ education
  ++ u "),
  - correctly reflects any field-specific meanings in "
  ++ field
  ++ u "
    according to the [Domain behavior for dictionary mode] block.
2. In L1, explain:
  - grammar or structure,
  - nuance of key phrases,
  - any common mistakes or pitfalls learners make with this pattern,
  - especially clarifying the domain-specific sense if there is both a general and field-specific meaning.
3. Provide 1~2 improved or alternative L2 versions
  (e.g., more natural, more polite, or more context-appropriate),
  while preserving the correct sense as required by the domain rules.

All explanations are in L1.
Only the improved versions are in L2.
Follow the sentence-level schema where applicable.
".

Section WithRuntime.
Context {RT : Runtime}.

Definition _normalize_mode (mode : str) : str :=
  let m := lower (strip mode) in
  if is_in m [u "dict"; u "dictionary"] then u "dict"
  else u "encyclopedia".

Definition education_mapping : list (str * str) :=
  [(u "elementary", u "elementary school student");
   (u "middle", u "middle school student");
   (u "high", u "high school student");
   (u "bachelor", u "undergraduate student");
   (u "master", u "master's student");
   (u "doctor", u "doctoral-level learner")].

Fixpoint mapping_get (e : str) (mapping : list (str * str)) (default : str) : str :=
  match mapping with
  | [] => default
  | (k, v) :: r => if str_eqb e k then v else mapping_get e r default
  end.

Definition _education_label (education : str) : str :=
  let e := lower (strip education) in
  mapping_get e education_mapping (u "intermediate adult learner").

Definition _level_guidance (education : str) : str :=
  let e := lower (strip education) in
  if str_eqb e (u "elementary") then level_elementary
  else if str_eqb e (u "middle") then level_middle
  else if str_eqb e (u "high") then level_high
  else if str_eqb e (u "bachelor") then level_bachelor
  else if str_eqb e (u "master") then level_master
  else if str_eqb e (u "doctor") then level_doctor
  else level_fallback.

(** [analysis.query_lang or native_lang] *)
Definition query_lang_or (analysis : QueryAnalysisResult) (native_lang : str) : str :=
  match query_lang analysis with
  | Some (c :: l) => c :: l
  | _ => native_lang
  end.

Definition generate_prompt_rule (analysis : QueryAnalysisResult)
    (education field mode native_lang target_lang : str) : str :=
  let m := _normalize_mode mode in
  let qtype := query_type analysis in
  let units := units analysis in
  let query_lang := query_lang_or analysis native_lang in
  let direction := _direction query_lang native_lang target_lang in
  let is_list := is_in qtype [u "word_list"; u "phrase_list"; u "paragraph"] in
  let is_lexical := is_in qtype [u "word"; u "word_list"; u "phrase"; u "phrase_list"] in
  let units_block := _join_units units in
  let edu_label := _education_label education in
  let level_block := _level_guidance education in
  let field_norm := lower (strip field) in
  let domain_block :=
    if str_eqb m (u "dict") then
      if negb (nonempty field_norm) || str_eqb field_norm (u "general")
      then domain_general field
      else domain_specific field
    else domain_encyclopedia field in
  let header := header_text native_lang target_lang edu_label education field qtype m
                  level_block domain_block in
  if str_eqb m (u "encyclopedia") then
    header ++ body_encyclopedia units_block native_lang edu_label field
  else if str_eqb direction (u "native_to_target") then
    header ++
    (if is_lexical then
       if is_list
       then body_n2t_lexical_list units_block native_lang target_lang education field
       else body_n2t_lexical_single units_block native_lang target_lang education field
     else
       if is_list
       then body_n2t_sentence_list units_block native_lang target_lang education field
       else body_n2t_sentence_single units_block native_lang target_lang education field)
  else
    header ++
    (if is_lexical then
       if is_list
       then body_t2n_lexical_list units_block native_lang target_lang education field
       else body_t2n_lexical_single units_block native_lang target_lang education field
     else
       if is_list
       then body_t2n_sentence_list units_block native_lang target_lang education field
       else body_t2n_sentence_single units_block native_lang target_lang education field).

End WithRuntime.

End PromptRule.

(* ===================================================================== *)
(** ** External services and programs that call them                      *)
(* ===================================================================== *)

Module Service.
Import Verifier Digest.

(** [client.models.generate_content] of the generator: the model name,
    the prompt and the response schema of [generator_config]. *)
Record GenerateRequest := {
  gen_model : str;
  gen_contents : str;
  gen_schema : Schema
}.

(** The response: [.parsed] (the dumped pydantic object, or [None]) and
    [.text]. *)
Record GenerateResponse := {
  gen_parsed : option value;
  gen_text : option str
}.

(** The same call made by [run_verifier], with the fixed [verifier_config]. *)
Record VerifierRequest := {
  ver_model : str;
  ver_contents : str
}.

Record VerifierResponse := {
  ver_parsed : option VerifierResult;
  ver_text : option str
}.

(** An external call returns or raises. *)
Inductive outcome (R : Type) :=
| Returned (r : R)
| Raised (e : exn).
Arguments Returned {R} r.
Arguments Raised {R} e.

Inductive Event :=
| EGenerate (req : GenerateRequest) (o : outcome GenerateResponse)
| EVerify (req : VerifierRequest) (o : outcome VerifierResponse).

(** A program that may call the two services. *)
Inductive Prog (A : Type) : Type :=
| Ret (a : A)
| CallGenerator (req : GenerateRequest) (k : outcome GenerateResponse -> Prog A)
| CallVerifier (req : VerifierRequest) (k : outcome VerifierResponse -> Prog A).
Arguments Ret {A} a.
Arguments CallGenerator {A} req k.
Arguments CallVerifier {A} req k.

Fixpoint prog_bind {A B} (m : Prog A) (f : A -> Prog B) : Prog B :=
  match m with
  | Ret a => f a
  | CallGenerator req k => CallGenerator req (fun o => prog_bind (k o) f)
  | CallVerifier req k => CallVerifier req (fun o => prog_bind (k o) f)
  end.

(** Programs that may also raise. *)
Definition M (A : Type) : Type := Prog (result A).

Definition ret {A} (a : A) : M A := Ret (Ok a).
Definition raise {A} (e : exn) : M A := Ret (Raise e).
Definition lift {A} (r : result A) : M A := Ret r.

Definition bindM {A B} (m : M A) (f : A -> M B) : M B :=
  prog_bind m (fun r => match r with Ok a => f a | Raise e => Ret (Raise e) end).

(** [try: m  except Exception as e: h e] *)
Definition try_except {A} (m : M A) (h : exn -> M A) : M A :=
  prog_bind m (fun r => match r with Ok a => Ret (Ok a) | Raise e => h e end).

Definition of_outcome {R} (o : outcome R) : M R :=
  match o with
  | Returned r => Ret (Ok r)
  | Raised e => Ret (Raise e)
  end.

Definition call_generator (req : GenerateRequest) : M GenerateResponse :=
  CallGenerator req of_outcome.

Definition call_verifier (req : VerifierRequest) : M VerifierResponse :=
  CallVerifier req of_outcome.

(** The services: what each call answers, given the calls made so far. *)
Record Services := {
  generator : list Event -> GenerateRequest -> outcome GenerateResponse;
  verifier : list Event -> VerifierRequest -> outcome VerifierResponse
}.

(** Running a program against the services, logging each call. *)
Fixpoint run {A} (sv : Services) (m : Prog A) (log : list Event) : A * list Event :=
  match m with
  | Ret a => (a, log)
  | CallGenerator req k =>
      let o := generator sv log req in
      run sv (k o) (log ++ [EGenerate req o])
  | CallVerifier req k =>
      let o := verifier sv log req in
      run sv (k o) (log ++ [EVerify req o])
  end.

Definition is_verify (e : Event) : bool :=
  match e with EVerify _ _ => true | EGenerate _ _ => false end.

Definition verifier_calls (log : list Event) : nat := length (filter is_verify log).
Definition generator_calls (log : list Event) : nat :=
  length (filter (fun e => negb (is_verify e)) log).

(** Pydantic's JSON validation, [None] when it raises [ValidationError]. *)
Class Pydantic := {
  model_validate_json : Schema -> str -> option value;
  VerifierResult_validate_json : str -> option VerifierResult
}.

End Service.

Notation "x <~ c1 ;; c2" := (Service.bindM c1 (fun x => c2))
  (at level 61, c1 at next level, right associativity).

(* ===================================================================== *)
(** ** utils/verifier_prompt.py and utils/verifier_client.py               *)
(* ===================================================================== *)

Module VerifierClient.
Import Py Verifier Service.

(** [f"{x}"] for an [Optional[str]] *)
Definition opt_str (o : option str) : str :=
  match o with Some s => s | None => u "None" end.

Definition opt_truthy (o : option str) : bool :=
  match o with Some s => nonempty s | None => false end.

Definition build_verifier_user_prompt (query_text mode query_type answer_text : str)
    (field source_lang target_lang : option str) : str :=
  let lang_info :=
    if opt_truthy source_lang || opt_truthy target_lang then
      u "
Source Language: "
      ++ opt_str source_lang
      ++ u "
Target Language: "
      ++ opt_str target_lang
    else [] in
  let field_str := if opt_truthy field then opt_str field else u "general" in
  let prompt :=
    u "
User Query:
"
    ++ query_text
    ++ u "

Mode: "
    ++ mode
    ++ u "
Query Type: "
    ++ query_type
    ++ u "
Field (domain): "
    ++ field_str
    ++ lang_info
    ++ u "

Main LLM Answer:
"
    ++ answer_text
    ++ u "

You must now evaluate the answer and output the JSON object strictly following the schema.
" in
  strip prompt.

Definition VERIFIER_MODEL : str := u "models/gemini-2.5-flash".

(** The verdict of the three fallbacks. *)
Definition neutral_verdict : VerifierResult :=
  {| has_hallucination := false;
     hallucination_score := S754_zero false;
     type := HT_none;
     comment := [];
     metadata := None |}.

Section WithPydantic.
Context {PD : Pydantic}.

Definition run_verifier (query_text mode query_type answer_text : str)
    (field source_lang target_lang : option str) : M VerifierResult :=
  let user_prompt :=
    build_verifier_user_prompt query_text mode query_type answer_text
      field source_lang target_lang in
  try_except
    (response <~ call_verifier {| ver_model := VERIFIER_MODEL;
                                  ver_contents := user_prompt |} ;;
     match ver_parsed response with
     | Some result => ret result
     | None =>
         let raw_text := ver_text response in
         match raw_text with
         | Some t =>
             if nonempty (strip t) then
               match VerifierResult_validate_json t with
               | Some result => ret result
               | None => raise ValidationError
               end
             else ret neutral_verdict
         | None => ret neutral_verdict
         end
     end)
    (fun e =>
       match e with
       | ValidationError | RuntimeError => ret neutral_verdict
       | _ => ret neutral_verdict
       end).

End WithPydantic.

End VerifierClient.

(* ===================================================================== *)
(** ** main.py: the /api/search pipeline                                   *)
(* ===================================================================== *)

Module Main.
Import Py QueryAnalyzer Verifier Digest Service VerifierClient PromptRule.

(** 0.4 = 7205759403792794 * 2^-54, the double the literal denotes *)
Definition VERIFIER_HALLUCINATION_THRESHOLD : float :=
  S754_finite false 7205759403792794 (-54).

Definition _extract_query_analysis_status (entry : value) : option str :=
  let data := entry in
  match data with
  | VDict _ =>
      match find_query_analysis data with
      | VDict qa =>
          match dict_get qa "status" with
          | VStr status => Some status
          | _ => None
          end
      | _ => None
      end
  | _ => None
  end.

(** [qa_status_value != "VALID"] *)
Definition status_is_valid (qa_status_value : option str) : bool :=
  match qa_status_value with
  | Some s => str_eqb s (u "VALID")
  | None => false
  end.

(** What the handler sends back: [jsonify(body)], [jsonify(body), 400], or
    [jsonify({error: str(e)}), 500]. *)
Inductive Response :=
| Json (body : value)
| BadRequest (body : value)
| ServerError (e : exn).

Section WithRuntime.
Context {RT : Runtime} {PD : Pydantic}.

Definition build_regeneration_instruction (feedback_comment field mode : str) : str :=
  let base_header :=
    u "

You must regenerate a NEW answer for the same user query, fully obeying the following rules:
1) You MUST fix ALL issues identified by the internal verifier.
2) You MUST NOT repeat any mistaken senses, alternatives, or examples.
" in
  let field := lower (strip field) in
  let field_block :=
    if str_eqb mode (u "dict") && nonempty field && negb (str_eqb field (u "general")) then
      u "3) The dictionary mode is FIELD-EXCLUSIVE. The field is '"
      ++ field
      ++ u "'.
   -> You MUST output ONLY meanings, explanations, examples, and alternatives belonging to the '"
      ++ field
      ++ u "' domain.
   -> ANY general or out-of-field sense MUST be removed.
   -> Example: if field='finance', general meanings like 'interest = curiosity' MUST NOT appear.
"
    else if str_eqb mode (u "dict") && (negb (nonempty field) || str_eqb field (u "general")) then
      u "3) The dictionary mode is in GENERAL field.
   -> You MUST focus on the general, most common everyday senses of the query.
   -> You MUST NOT restrict the meaning to a narrow technical sub-domain
      (e.g., do not focus only on finance, law, or medicine unless the query itself clearly demands it).
"
    else [] in
  if negb (nonempty feedback_comment) then
    base_header ++ field_block
    ++ u "4) Regenerate the answer cleanly and concisely.
5) Do NOT add unnecessary information.
6) The JSON structure of the answer MUST follow the original schema.
"
  else
    base_header ++ field_block
    ++ u "4) The internal verifier found the following issue(s):
   "
    ++ feedback_comment
    ++ u "

5) You MUST explicitly correct the above issues.
6) You MUST NOT reintroduce the same incorrect senses, examples, or alternatives.
7) Do NOT add irrelevant or unnecessary information.
8) The final output MUST strictly match the original required JSON schema.
"
.

(** [(data.get(key) or default).strip()] *)
Definition stripped_field (data : value) (key : string) (default : str) : result str :=
  v <- get data key ;;
  match or_ v (VStr default) with
  | VStr s => Ok (strip s)
  | _ => Raise AttributeError
  end.

(** [entry = response.parsed], or else the raw text validated against
    the schema. *)
Definition entry_of (schema : Schema) (response : GenerateResponse) : result value :=
  match gen_parsed response with
  | Some entry => Ok entry
  | None =>
      match gen_text response with
      | Some raw_text =>
          match model_validate_json schema raw_text with
          | Some entry => Ok entry
          | None => Raise ValidationError
          end
      | None => Raise ValidationError
      end
  end.

Definition all_query_types : list str :=
  [u "word"; u "word_list"; u "phrase"; u "phrase_list"; u "sentence"; u "paragraph"].

(** The languages handed to the verifier. *)
Definition verifier_langs (mode : str) (analysis : QueryAnalysisResult)
    (native_lang target_lang : str) : option str * option str :=
  let L1 := native_lang in
  let L2 := target_lang in
  if str_eqb mode (u "dict") then
    if is_in (query_type analysis) all_query_types then
      if same_lang L1 (query_lang analysis) then (Some L1, Some L2)
      else (query_lang analysis, Some L1)
    else (query_lang analysis, None)
  else (query_lang analysis, None).

(** The request context fixed before the first generation. *)
Record Context := {
  cx_query : str;
  cx_field : str;
  cx_mode : str;
  cx_native_lang : str;
  cx_target_lang : str;
  cx_llm : str;
  cx_analysis : QueryAnalysisResult;
  cx_schema : Schema;
  cx_prompt : str
}.

(** Part C of [api_search]: from the first parsed answer to the response. *)
Definition verify_and_regenerate (cx : Context) (entry : value) : M Response :=
  let qa_status_value := _extract_query_analysis_status entry in
  if negb (status_is_valid qa_status_value) then
    ret (Json entry)
  else
    let langs := verifier_langs (cx_mode cx) (cx_analysis cx)
                   (cx_native_lang cx) (cx_target_lang cx) in
    verifier_answer_text <~
      lift (build_verifier_answer_text entry (cx_mode cx) (query_type (cx_analysis cx))) ;;
    verifier_result <~
      run_verifier (cx_query cx) (cx_mode cx) (query_type (cx_analysis cx))
        verifier_answer_text (Some (cx_field cx)) (fst langs) (snd langs) ;;
    if negb (needs_regeneration verifier_result VERIFIER_HALLUCINATION_THRESHOLD) then
      ret (Json entry)
    else
      let regen_instruction :=
        build_regeneration_instruction (comment verifier_result) (cx_field cx) (cx_mode cx) in
      let regen_prompt := cx_prompt cx ++ regen_instruction in
      regen_response <~
        call_generator {| gen_model := cx_llm cx; gen_contents := regen_prompt;
                          gen_schema := cx_schema cx |} ;;
      entry_regen <~ lift (entry_of (cx_schema cx) regen_response) ;;
      ret (Json entry_regen).

(** Parts A and B: the request fields, the analysis, the schema and the
    prompt. [None] is the early return on an empty query. *)
Definition prepare (request_json : value) : result (option Context) :=
  let data := or_ request_json (VDict []) in
  query <- stripped_field data "query" [] ;;
  education <- stripped_field data "education" [] ;;
  field0 <- stripped_field data "field" [] ;;
  let field := if nonempty field0 then field0 else u "general" in
  mode <- stripped_field data "mode" (u "dict") ;;
  native_lang <- stripped_field data "native_lang" (u "ko") ;;
  target_lang <- stripped_field data "target_lang" (u "en") ;;
  if negb (nonempty query) then Ok None
  else
    let llm := if is_in education [u "master"; u "doctor"]
               then u "models/gemini-2.5-flash"
               else u "models/gemini-2.5-flash-lite" in
    analysis <- analyze_query query native_lang target_lang ;;
    let generator_schema := select_schema mode analysis native_lang in
    let generator_prompt :=
      generate_prompt_rule analysis education field mode native_lang target_lang in
    Ok (Some {| cx_query := query; cx_field := field; cx_mode := mode;
                cx_native_lang := native_lang; cx_target_lang := target_lang;
                cx_llm := llm; cx_analysis := analysis;
                cx_schema := generator_schema; cx_prompt := generator_prompt |}).

(** The first call of the generator (B-1). *)
Definition first_request (cx : Context) : GenerateRequest :=
  {| gen_model := cx_llm cx; gen_contents := cx_prompt cx; gen_schema := cx_schema cx |}.

(** The body of the [try] block. *)
Definition api_search_body (request_json : value) : M Response :=
  prepared <~ lift (prepare request_json) ;;
  match prepared with
  | None => ret (BadRequest (VDict [(u "error", VStr (u "Query is empty."))]))
  | Some cx =>
      generator_response <~ call_generator (first_request cx) ;;
      entry <~ lift (entry_of (cx_schema cx) generator_response) ;;
      verify_and_regenerate cx entry
  end.

(** [api_search]: any exception becomes a 500 response. *)
Definition api_search (request_json : value) : Prog Response :=
  prog_bind (api_search_body request_json)
    (fun r => match r with
              | Ok response => Ret response
              | Raise e => Ret (ServerError e)
              end).

End WithRuntime.

End Main.

(* ===================================================================== *)
(** ** schemas/generator: the six answer shapes and their [model_dump()]   *)
(* ===================================================================== *)

Module Schemas.

(** [Literal] fields (status, language codes) are kept as the strings
    they dump to. *)
Record QueryAnalysisBlock := {
  qa_status : str;
  qa_reason_l1 : str;
  qa_suggestion_queries : option (list str)
}.

Record ExamplePair := {
  ex_source_sentence : str;
  ex_target_sentence : str
}.

Record WordSenseVariant := {
  wv_target_text : str;
  wv_explanation : option str;
  wv_examples : option (list ExamplePair);
  wv_alternatives : option (list str)
}.

Record WordDictEntry := {
  we_source_text : str;
  we_source_lang : str;
  we_target_lang : str;
  we_variants : list WordSenseVariant
}.

Record WordDict := {
  wd_query_analysis : QueryAnalysisBlock;
  wd_entries : list WordDictEntry
}.

Record KeyTerm := {
  kt_term : str;
  kt_definition : str;
  kt_analogy : option str
}.

Record Encyclopedia := {
  en_query_analysis : QueryAnalysisBlock;
  en_input_text : str;
  en_key_terms : list KeyTerm;
  en_simplified_explanation : str;
  en_usage_context : option str;
  en_extra_notes : option str
}.

(** [L1toL2WordExplanationItem] and [L2toL1WordExplanationItem] have the
    same fields. *)
Record WordExplanationItem := {
  wx_l2_word : str;
  wx_meaning_l1 : str;
  wx_explanation_l1 : option str;
  wx_examples : option (list ExamplePair);
  wx_alternatives_l2 : option (list str)
}.

Record SentenceL1toL2Block := {
  s1_l1_sentence : str;
  s1_l1_lang : str;
  s1_l2_lang : str;
  s1_main_l2_sentence : str;
  s1_alternative_l2_sentences : option (list str)
}.

Record SentenceL1toL2 := {
  r1_query_analysis : QueryAnalysisBlock;
  r1_sentence : SentenceL1toL2Block;
  r1_l2_focus_sentence : str;
  r1_word_explanations : list WordExplanationItem
}.

Record SentenceL2toL1Block := {
  s2_query_analysis : QueryAnalysisBlock;
  s2_l2_sentence : str;
  s2_l2_lang : str;
  s2_l1_lang : str;
  s2_main_l1_sentence : str;
  s2_sentence_explanation_l1 : option str
}.

Record SentenceL2toL1 := {
  r2_sentence : SentenceL2toL1Block;
  r2_l2_focus_sentence : str;
  r2_word_explanations : list WordExplanationItem
}.

Record ParagraphL1toL2 := {
  p1_query_analysis : QueryAnalysisBlock;
  p1_l1_paragraph : str;
  p1_l1_lang : str;
  p1_l2_lang : str;
  p1_sentence_cards : list SentenceL1toL2
}.

Record ParagraphL2toL1 := {
  p2_query_analysis : QueryAnalysisBlock;
  p2_l2_paragraph : str;
  p2_l2_lang : str;
  p2_l1_lang : str;
  p2_paragraph_l1_translation : str;
  p2_paragraph_content_explanation_l1 : option str;
  p2_sentence_cards : list SentenceL2toL1
}.

(** An answer of the generator: an instance of one of the six schemas. *)
Inductive Answer :=
| AWordDict (r : WordDict)
| AEncyclopedia (r : Encyclopedia)
| ASentenceL1toL2 (r : SentenceL1toL2)
| ASentenceL2toL1 (r : SentenceL2toL1)
| AParagraphL1toL2 (r : ParagraphL1toL2)
| AParagraphL2toL1 (r : ParagraphL2toL1).

(** [model_dump()] *)
Definition dump_opt_str (o : option str) : value :=
  match o with Some s => VStr s | None => VNone end.

Definition dump_strs (l : list str) : value := VList (map VStr l).

Definition dump_opt_strs (o : option (list str)) : value :=
  match o with Some l => dump_strs l | None => VNone end.

Definition dump_query_analysis (q : QueryAnalysisBlock) : value :=
  VDict [(u "status", VStr (qa_status q));
         (u "reason_l1", VStr (qa_reason_l1 q));
         (u "suggestion_queries", dump_opt_strs (qa_suggestion_queries q))].

Definition dump_example (e : ExamplePair) : value :=
  VDict [(u "source_sentence", VStr (ex_source_sentence e));
         (u "target_sentence", VStr (ex_target_sentence e))].

Definition dump_opt_examples (o : option (list ExamplePair)) : value :=
  match o with Some l => VList (map dump_example l) | None => VNone end.

Definition dump_variant (v : WordSenseVariant) : value :=
  VDict [(u "target_text", VStr (wv_target_text v));
         (u "explanation", dump_opt_str (wv_explanation v));
         (u "examples", dump_opt_examples (wv_examples v));
         (u "alternatives", dump_opt_strs (wv_alternatives v))].

Definition dump_entry (e : WordDictEntry) : value :=
  VDict [(u "source_text", VStr (we_source_text e));
         (u "source_lang", VStr (we_source_lang e));
         (u "target_lang", VStr (we_target_lang e));
         (u "variants", VList (map dump_variant (we_variants e)))].

Definition dump_word_dict (r : WordDict) : value :=
  VDict [(u "query_analysis", dump_query_analysis (wd_query_analysis r));
         (u "entries", VList (map dump_entry (wd_entries r)))].

Definition dump_key_term (k : KeyTerm) : value :=
  VDict [(u "term", VStr (kt_term k));
         (u "definition", VStr (kt_definition k));
         (u "analogy", dump_opt_str (kt_analogy k))].

Definition dump_encyclopedia (r : Encyclopedia) : value :=
  VDict [(u "query_analysis", dump_query_analysis (en_query_analysis r));
         (u "input_text", VStr (en_input_text r));
         (u "key_terms", VList (map dump_key_term (en_key_terms r)));
         (u "simplified_explanation", VStr (en_simplified_explanation r));
         (u "usage_context", dump_opt_str (en_usage_context r));
         (u "extra_notes", dump_opt_str (en_extra_notes r))].

Definition dump_word_explanation (w : WordExplanationItem) : value :=
  VDict [(u "l2_word", VStr (wx_l2_word w));
         (u "meaning_l1", VStr (wx_meaning_l1 w));
         (u "explanation_l1", dump_opt_str (wx_explanation_l1 w));
         (u "examples", dump_opt_examples (wx_examples w));
         (u "alternatives_l2", dump_opt_strs (wx_alternatives_l2 w))].

Definition dump_block_l1_to_l2 (b : SentenceL1toL2Block) : value :=
  VDict [(u "l1_sentence", VStr (s1_l1_sentence b));
         (u "l1_lang", VStr (s1_l1_lang b));
         (u "l2_lang", VStr (s1_l2_lang b));
         (u "main_l2_sentence", VStr (s1_main_l2_sentence b));
         (u "alternative_l2_sentences", dump_opt_strs (s1_alternative_l2_sentences b))].

Definition dump_sentence_l1_to_l2 (r : SentenceL1toL2) : value :=
  VDict [(u "query_analysis", dump_query_analysis (r1_query_analysis r));
         (u "sentence", dump_block_l1_to_l2 (r1_sentence r));
         (u "l2_focus_sentence", VStr (r1_l2_focus_sentence r));
         (u "word_explanations", VList (map dump_word_explanation (r1_word_explanations r)))].

Definition dump_block_l2_to_l1 (b : SentenceL2toL1Block) : value :=
  VDict [(u "query_analysis", dump_query_analysis (s2_query_analysis b));
         (u "l2_sentence", VStr (s2_l2_sentence b));
         (u "l2_lang", VStr (s2_l2_lang b));
         (u "l1_lang", VStr (s2_l1_lang b));
         (u "main_l1_sentence", VStr (s2_main_l1_sentence b));
         (u "sentence_explanation_l1", dump_opt_str (s2_sentence_explanation_l1 b))].

Definition dump_sentence_l2_to_l1 (r : SentenceL2toL1) : value :=
  VDict [(u "sentence", dump_block_l2_to_l1 (r2_sentence r));
         (u "l2_focus_sentence", VStr (r2_l2_focus_sentence r));
         (u "word_explanations", VList (map dump_word_explanation (r2_word_explanations r)))].

Definition dump_paragraph_l1_to_l2 (r : ParagraphL1toL2) : value :=
  VDict [(u "query_analysis", dump_query_analysis (p1_query_analysis r));
         (u "l1_paragraph", VStr (p1_l1_paragraph r));
         (u "l1_lang", VStr (p1_l1_lang r));
         (u "l2_lang", VStr (p1_l2_lang r));
         (u "sentence_cards", VList (map dump_sentence_l1_to_l2 (p1_sentence_cards r)))].

Definition dump_paragraph_l2_to_l1 (r : ParagraphL2toL1) : value :=
  VDict [(u "query_analysis", dump_query_analysis (p2_query_analysis r));
         (u "l2_paragraph", VStr (p2_l2_paragraph r));
         (u "l2_lang", VStr (p2_l2_lang r));
         (u "l1_lang", VStr (p2_l1_lang r));
         (u "paragraph_l1_translation", VStr (p2_paragraph_l1_translation r));
         (u "paragraph_content_explanation_l1",
          dump_opt_str (p2_paragraph_content_explanation_l1 r));
         (u "sentence_cards", VList (map dump_sentence_l2_to_l1 (p2_sentence_cards r)))].

Definition model_dump (a : Answer) : value :=
  match a with
  | AWordDict r => dump_word_dict r
  | AEncyclopedia r => dump_encyclopedia r
  | ASentenceL1toL2 r => dump_sentence_l1_to_l2 r
  | ASentenceL2toL1 r => dump_sentence_l2_to_l1 r
  | AParagraphL1toL2 r => dump_paragraph_l1_to_l2 r
  | AParagraphL2toL1 r => dump_paragraph_l2_to_l1 r
  end.

End Schemas.

(* ===================================================================== *)
(** ** schemas/generator/common.py: the validity of a query block          *)
(* ===================================================================== *)

Module Common.
Import Schemas.

(** [QueryAnalysisBlock.is_valid] *)
Definition is_valid (self : QueryAnalysisBlock) : bool :=
  str_eqb (qa_status self) (u "VALID").

(** The block an answer carries: [entry.query_analysis], or
    [entry.sentence.query_analysis] for the one schema that has it there. *)
Definition answer_query_analysis (a : Answer) : QueryAnalysisBlock :=
  match a with
  | AWordDict r => wd_query_analysis r
  | AEncyclopedia r => en_query_analysis r
  | ASentenceL1toL2 r => r1_query_analysis r
  | ASentenceL2toL1 r => s2_query_analysis (r2_sentence r)
  | AParagraphL1toL2 r => p1_query_analysis r
  | AParagraphL2toL1 r => p2_query_analysis r
  end.

End Common.

(* ===================================================================== *)
(** ** Concrete runtimes and data for evaluating the model                 *)
(* ===================================================================== *)

Module Sample.
Import Py Verifier Digest Service.

(** A runtime that leaves non-ASCII strings as they are under [lower()]
    and prints containers as a fixed tag. On ASCII strings and on the
    values [None], booleans, integers and strings, every runtime agrees
    with it. *)
Definition plain_runtime : Runtime :=
  {| unicode_lower := fun s => s; py_repr := fun _ => u "<object>" |}.

(** A validator that rejects every text. *)
Definition rejecting_pydantic : Pydantic :=
  {| model_validate_json := fun _ _ => None;
     VerifierResult_validate_json := fun _ => None |}.

(** A request for the word [applr] and a generator that answers with a
    sentence-shaped entry whose nested status is [TYPO]. *)
Definition typo_request : value :=
  VDict [(u "query", VStr (u "applr")); (u "mode", VStr (u "dict"));
         (u "native_lang", VStr (u "ko")); (u "target_lang", VStr (u "en"))].

Definition typo_entry : value :=
  VDict [(u "sentence",
          VDict [(u "query_analysis",
                  VDict [(u "status", VStr (u "TYPO"));
                         (u "reason_l1", VStr (u "applr is not a word"));
                         (u "suggestion_queries", VList [VStr (u "apple"); VStr (u "apply")])]);
                 (u "l2_sentence", VStr [])]);
         (u "word_explanations", VList [])].

(** An entry whose top-level block has [null] for a status. *)
Definition statusless_entry : value :=
  VDict [(u "query_analysis", VDict [(u "status", VNone); (u "reason_l1", VStr [])]);
         (u "entries", VList [])].

Definition answering (entry : value) : Services :=
  {| generator := fun _ _ => Returned {| gen_parsed := Some entry; gen_text := None |};
     verifier := fun _ _ => Raised (OtherException 0) |}.

(** An encyclopedia answer whose explanation alone has 5000 characters. *)
Definition long_answer : Schemas.Answer :=
  Schemas.AEncyclopedia
    {| Schemas.en_query_analysis :=
         {| Schemas.qa_status := u "VALID";
            Schemas.qa_reason_l1 := u "ok";
            Schemas.qa_suggestion_queries := None |};
       Schemas.en_input_text := u "entropy";
       Schemas.en_key_terms := [];
       Schemas.en_simplified_explanation := repeat 97%N 5000;
       Schemas.en_usage_context := None;
       Schemas.en_extra_notes := None |}.

(** The analysis of the English word [apple] for a Korean speaker. *)
Definition apple_analysis : QueryAnalyzer.QueryAnalysisResult :=
  {| QueryAnalyzer.raw_query := u "apple";
     QueryAnalyzer.normalized_query := u "apple";
     QueryAnalyzer.query_type := u "word";
     QueryAnalyzer.units := [u "apple"];
     QueryAnalyzer.query_lang := Some (u "en") |}.


End Sample.

(* ===================================================================== *)
(** ** The properties' own vocabulary                                      *)
(* ===================================================================== *)

Module Spec.
Import Py QueryAnalyzer Verifier Digest Service.

(** The verifier is unavailable: the call raised, or it returned neither
    a parsed verdict nor a text that validates as one. *)
Definition verifier_unavailable {PD : Pydantic} (o : outcome VerifierResponse) : Prop :=
  match o with
  | Raised _ => True
  | Returned response =>
      ver_parsed response = None
      /\ match ver_text response with
         | Some t => VerifierResult_validate_json t = None
         | None => True
         end
  end.

(** An answer carries the validation status [s]: in the [query_analysis]
    block at its top level, or else in the one inside its [sentence]
    sub-object. *)
Inductive carries_status : value -> str -> Prop :=
| status_at_top_level (d qa : list (str * value)) (s : str) :
    assoc (u "query_analysis") d = Some (VDict qa) ->
    assoc (u "status") qa = Some (VStr s) ->
    carries_status (VDict d) s
| status_under_sentence (d sd qa : list (str * value)) (s : str) :
    assoc (u "query_analysis") d = None ->
    assoc (u "sentence") d = Some (VDict sd) ->
    assoc (u "query_analysis") sd = Some (VDict qa) ->
    assoc (u "status") qa = Some (VStr s) ->
    carries_status (VDict d) s.

(** An answer without a usable status: no [query_analysis] block at
    either place, or a block whose [status] is not a string. *)
Inductive lacks_status : value -> Prop :=
| no_block (d : list (str * value)) :
    assoc (u "query_analysis") d = None ->
    (forall sd, assoc (u "sentence") d = Some (VDict sd) ->
                assoc (u "query_analysis") sd = None) ->
    lacks_status (VDict d)
| status_not_a_string_at_top_level (d qa : list (str * value)) :
    assoc (u "query_analysis") d = Some (VDict qa) ->
    (forall s, assoc (u "status") qa <> Some (VStr s)) ->
    lacks_status (VDict d)
| status_not_a_string_under_sentence (d sd qa : list (str * value)) :
    assoc (u "query_analysis") d = None ->
    assoc (u "sentence") d = Some (VDict sd) ->
    assoc (u "query_analysis") sd = Some (VDict qa) ->
    (forall s, assoc (u "status") qa <> Some (VStr s)) ->
    lacks_status (VDict d).

(** The sentence terminators for a detected language. *)
Definition sentence_terminators (lang : str) : char -> bool :=
  if str_eqb lang (u "zh") then in_chars "。？！" else in_chars ".!?".

(** The non-empty trimmed segments between sentence terminators. *)
Definition segments (lang text : str) : list str :=
  filter nonempty (map strip (split_on (sentence_terminators lang) text)).

(** At least two segments and at least 80 characters. *)
Definition paragraph_condition (lang text : str) : Prop :=
  2 <= length (segments lang text) /\ 80 <= length text.

(** A word-like item: for Chinese, at most 3 characters once whitespace
    is removed; otherwise no whitespace inside, and for English and German
    at most 32 characters. *)
Definition word_like (lang item : str) : bool :=
  if str_eqb lang (u "zh")
  then length (filter (fun c => negb (isspace c)) item) <=? 3
  else negb (existsb isspace item)
       && (if str_eqb lang (u "en") || str_eqb lang (u "de")
           then length item <=? 32 else true).

(** The fraction of word-like items. *)
Definition word_like_fraction (lang : str) (items : list str) : Q :=
  (Z.of_nat (length (filter (word_like lang) items)) # Pos.of_nat (length items))%Q.

(** The exact and the binary64 comparison agree on every list of at most
    [n] items. *)
Definition ratio_tests_agree_upto (n : nat) : bool :=
  forallb (fun len =>
             forallb (fun count =>
                        Bool.eqb (ratio_reaches_threshold_float count len)
                                 (ratio_reaches_threshold count len))
                     (List.seq 0 (S len)))
          (List.seq 1 n).

(** A block renders: no exception, and only strings among its lines, so
    that joining them succeeds. *)
Definition is_str (v : value) : bool :=
  match v with VStr _ => true | _ => false end.

Definition renders (b : block) : bool :=
  match b with
  | Ok ls => forallb is_str ls
  | Raise _ => false
  end.

End Spec.

(* ===================================================================== *)
(** ** Further vocabulary, for the properties of the code at large         *)
(* ===================================================================== *)

Module Notions.
Import Py QueryAnalyzer Verifier Digest Service VerifierClient Main.

(** [x] occurs in [s] as a contiguous part. *)
Definition occurs_in (x s : str) : Prop := exists pre post, s = pre ++ x ++ post.

(** A string with no whitespace at either end. *)
Definition trimmed (s : str) : Prop := strip s = s.

(** The characters of the class [[ \t]]. *)
Definition blank (c : char) : bool := ((c =? 32) || (c =? 9))%N.

(** No space follows a space; [after_space]: the character before [s] is
    one. *)
Fixpoint single_spaced (after_space : bool) (s : str) : bool :=
  match s with
  | [] => true
  | c :: r => if (c =? 32)%N then negb after_space && single_spaced true r
              else single_spaced false r
  end.

(** The separators of [_LIST_SPLIT_PATTERN]. *)
Definition list_separator (c : char) : bool := list_punct c || (c =? 10)%N.

(** The calls one request may make, in order: none; one generation; one
    generation and one verification; or these followed by the single
    regeneration. *)
Inductive pipeline_trace : list Event -> Prop :=
| trace_no_call : pipeline_trace []
| trace_generated (g : GenerateRequest) (o : outcome GenerateResponse) :
    pipeline_trace [EGenerate g o]
| trace_verified (g : GenerateRequest) (o : outcome GenerateResponse)
    (v : VerifierRequest) (ov : outcome VerifierResponse) :
    pipeline_trace [EGenerate g o; EVerify v ov]
| trace_regenerated (g : GenerateRequest) (o : outcome GenerateResponse)
    (v : VerifierRequest) (ov : outcome VerifierResponse)
    (g' : GenerateRequest) (o' : outcome GenerateResponse) :
    pipeline_trace [EGenerate g o; EVerify v ov; EGenerate g' o'].

(** What a generation yields: the parsed answer, or else the text
    validated against the schema; the exception when the call raises or
    the text does not validate. *)
Definition generated_entry {PD : Pydantic} (schema : Schema)
    (o : outcome GenerateResponse) : result value :=
  match o with
  | Returned response => entry_of schema response
  | Raised e => Raise e
  end.

(** The verdict [run_verifier] reports for an outcome of its call: the
    parsed verdict; or else the text, validated when it is not blank; the
    neutral verdict in every other case. *)
Definition reported_verdict {PD : Pydantic} (o : outcome VerifierResponse)
    : VerifierResult :=
  match o with
  | Raised _ => neutral_verdict
  | Returned response =>
      match ver_parsed response with
      | Some result => result
      | None =>
          match ver_text response with
          | Some t =>
              if nonempty (strip t) then
                match VerifierResult_validate_json t with
                | Some result => result
                | None => neutral_verdict
                end
              else neutral_verdict
          | None => neutral_verdict
          end
      end
  end.

(** The request [run_verifier] sends. *)
Definition verifier_request (query_text mode query_type answer_text : str)
    (field source_lang target_lang : option str) : VerifierRequest :=
  {| ver_model := VERIFIER_MODEL;
     ver_contents := build_verifier_user_prompt query_text mode query_type answer_text
                       field source_lang target_lang |}.

(** The verifier call of [api_search] for a context and a digest. *)
Definition pipeline_verifier_request (cx : Context) (digest : str) : VerifierRequest :=
  let langs := verifier_langs (cx_mode cx) (cx_analysis cx)
                 (cx_native_lang cx) (cx_target_lang cx) in
  verifier_request (cx_query cx) (cx_mode cx) (query_type (cx_analysis cx)) digest
    (Some (cx_field cx)) (fst langs) (snd langs).

(** The second call of the generator, after a verdict with [comment]. *)
Definition regeneration_request {RT : Runtime} (cx : Context) (comment : str)
    : GenerateRequest :=
  {| gen_model := cx_llm cx;
     gen_contents := cx_prompt cx
                     ++ build_regeneration_instruction comment (cx_field cx) (cx_mode cx);
     gen_schema := cx_schema cx |}.

(** A request object all of whose values are strings. *)
Definition all_strings (d : list (str * value)) : Prop :=
  Forall (fun kv => Spec.is_str (snd kv) = true) d.

End Notions.

(* ===================================================================== *)
(** ** Further concrete queries, answers and services                      *)
(* ===================================================================== *)

Module Cases.
Import Py QueryAnalyzer Verifier Digest Service.

(** The analysis of a list of two English words for a Korean speaker. *)
Definition pair_of_fruits : QueryAnalysisResult :=
  {| raw_query := u " apple,  pear ";
     normalized_query := u "apple, pear";
     query_type := u "word_list";
     units := [u "apple"; u "pear"];
     query_lang := Some (u "en") |}.

(** A Korean sentence of nine characters, without a full stop: a phrase. *)
Definition short_korean : QueryAnalysisResult :=
  {| raw_query := u "나는 학교에 갔다";
     normalized_query := u "나는 학교에 갔다";
     query_type := u "phrase";
     units := [u "나는 학교에 갔다"];
     query_lang := Some (u "ko") |}.

(** An English phrase typed by a German speaker who learns English. *)
Definition english_for_a_german : QueryAnalysisResult :=
  {| raw_query := u "hello world";
     normalized_query := u "hello world";
     query_type := u "phrase";
     units := [u "hello world"];
     query_lang := Some (u "de") |}.

(** An English sentence for a Korean speaker. *)
Definition english_sentence : QueryAnalysisResult :=
  {| raw_query := u "I went to school. It was fun.";
     normalized_query := u "I went to school. It was fun.";
     query_type := u "sentence";
     units := [u "I went to school. It was fun."];
     query_lang := Some (u "en") |}.

(** A request for the word [apple], and the same with the education code
    capitalised. *)
Definition apple_request : value :=
  VDict [(u "query", VStr (u "apple")); (u "mode", VStr (u "dict"));
         (u "native_lang", VStr (u "ko")); (u "target_lang", VStr (u "en"))].

Definition master_request : value :=
  VDict [(u "query", VStr (u "apple")); (u "education", VStr (u "Master"));
         (u "mode", VStr (u "dict"));
         (u "native_lang", VStr (u "ko")); (u "target_lang", VStr (u "en"))].

(** The fields of a request with a blank query and an unsupported
    language code. *)
Definition blank_fields : list (str * value) :=
  [(u "query", VStr (u "   ")); (u "native_lang", VStr (u "xx"))].

(** A valid word answer without entries, and one with an entry. *)
Definition valid_block : Schemas.QueryAnalysisBlock :=
  {| Schemas.qa_status := u "VALID";
     Schemas.qa_reason_l1 := u "ok";
     Schemas.qa_suggestion_queries := None |}.

Definition empty_word_dict : Schemas.WordDict :=
  {| Schemas.wd_query_analysis := valid_block; Schemas.wd_entries := [] |}.

Definition apple_entry : Schemas.WordDictEntry :=
  {| Schemas.we_source_text := u "apple";
     Schemas.we_source_lang := u "en";
     Schemas.we_target_lang := u "ko";
     Schemas.we_variants :=
       [{| Schemas.wv_target_text := u "사과";
           Schemas.wv_explanation := None;
           Schemas.wv_examples := None;
           Schemas.wv_alternatives := None |}] |}.

Definition valid_entry : value := Schemas.model_dump (Schemas.AWordDict empty_word_dict).

(** A verdict that asks for a regeneration. *)
Definition strict_verdict : VerifierResult :=
  {| has_hallucination := true;
     hallucination_score := f_one;
     type := HT_semantic;
     comment := u "wrong sense";
     metadata := None |}.

(** Services that always generate [entry] and always answer the verifier
    call with [ov]. *)
Definition services (entry : value) (ov : outcome VerifierResponse) : Services :=
  {| generator := fun _ _ => Returned {| gen_parsed := Some entry; gen_text := None |};
     verifier := fun _ _ => ov |}.

(** A generator that is down. *)
Definition failing_generator : Services :=
  {| generator := fun _ _ => Raised (OtherException 503);
     verifier := fun _ _ => Raised (OtherException 503) |}.

(** The digest of [valid_entry] for a word in the dictionary mode. *)
Definition valid_digest : str :=
  match build_verifier_answer_text (RT := Sample.plain_runtime) valid_entry
          (u "dict") (u "word") with
  | Ok digest => digest
  | Raise _ => []
  end.


End Cases.

(* ===================================================================== *)
(** * Properties                                                           *)
(* ===================================================================== *)

Import Py QueryAnalyzer Verifier Digest Service VerifierClient PromptRule Main Sample.

(** ** The regeneration decision *)

Section Decision.

Lemma SFcompare_antisym (x y : float) :
  SFcompare y x = option_map CompOpp (SFcompare x y).
Proof.
  destruct x as [sx | sx | | sx mx ex], y as [sy | sy | | sy my ey]; simpl;
    try reflexivity;
    try (destruct sx; reflexivity);
    try (destruct sy; reflexivity);
    try (destruct sx, sy; reflexivity).
  destruct sx, sy; simpl; try reflexivity;
    rewrite (Z.compare_antisym ex ey); destruct (ex ?= ey)%Z; simpl; try reflexivity;
    rewrite (Pos.compare_cont_antisym mx my Eq); simpl;
    try rewrite CompOpp_involutive; reflexivity.
Qed.

Lemma not_leb_is_gtb (s t : float) :
  SFcompare s t <> None -> negb (SFleb s t) = SFltb t s.
Proof.
  intros H. unfold SFleb, SFltb. rewrite (SFcompare_antisym s t).
  destruct (SFcompare s t) as [[ | | ] | ]; simpl; try reflexivity.
  contradiction.
Qed.

Lemma valid_score_comparable (s t : float) :
  valid_score s = true -> t <> S754_nan -> SFcompare s t <> None.
Proof.
  unfold valid_score. intros H Ht.
  destruct s; try discriminate; destruct t; simpl; try discriminate; try contradiction.
Qed.

Lemma needs_regeneration_unfold (r : VerifierResult) (t : float) :
  SFcompare (hallucination_score r) t <> None ->
  needs_regeneration r t = has_hallucination r && SFltb t (hallucination_score r).
Proof.
  intros H. unfold needs_regeneration, is_safe.
  rewrite negb_orb, negb_involutive, not_leb_is_gtb by exact H. reflexivity.
Qed.

(** C2: for a validated [VerifierResult] and the threshold 0.4,
    [needs_regeneration] is true exactly when [has_hallucination] is true
    and the score is greater than 0.4; a score equal to 0.4 never asks for
    regeneration, whatever [has_hallucination] says. *)
Theorem needs_regeneration_iff (r : VerifierResult) :
  valid_score (hallucination_score r) = true ->
  (needs_regeneration r VERIFIER_HALLUCINATION_THRESHOLD = true <->
     has_hallucination r = true
     /\ SFltb VERIFIER_HALLUCINATION_THRESHOLD (hallucination_score r) = true)
  /\ (SFeqb (hallucination_score r) VERIFIER_HALLUCINATION_THRESHOLD = true ->
      needs_regeneration r VERIFIER_HALLUCINATION_THRESHOLD = false).
Proof.
  intros Hv.
  assert (Hc : SFcompare (hallucination_score r) VERIFIER_HALLUCINATION_THRESHOLD <> None)
    by (apply valid_score_comparable; [exact Hv | discriminate]).
  rewrite (needs_regeneration_unfold r _ Hc). split.
  - apply andb_true_iff.
  - intros He. unfold SFltb, SFeqb in *.
    rewrite (SFcompare_antisym (hallucination_score r)).
    destruct (SFcompare (hallucination_score r) VERIFIER_HALLUCINATION_THRESHOLD)
      as [[ | | ] | ]; try discriminate.
    simpl. apply andb_false_r.
Qed.

(** The boundary case evaluated: hallucination reported with score 0.4. *)
Lemma needs_regeneration_iff_witness :
  let r := {| has_hallucination := true;
              hallucination_score := VERIFIER_HALLUCINATION_THRESHOLD;
              type := HT_factual; comment := u "wrong sense"; metadata := None |} in
  (needs_regeneration r VERIFIER_HALLUCINATION_THRESHOLD = true <->
     has_hallucination r = true
     /\ SFltb VERIFIER_HALLUCINATION_THRESHOLD (hallucination_score r) = true)
  /\ (SFeqb (hallucination_score r) VERIFIER_HALLUCINATION_THRESHOLD = true ->
      needs_regeneration r VERIFIER_HALLUCINATION_THRESHOLD = false).
Proof.
  intro r. apply (needs_regeneration_iff r). reflexivity.
Defined.

End Decision.

(** ** The verifier client fails open *)

Section FailOpen.
Context {PD : Pydantic}.

Lemma neutral_never_regenerates :
  needs_regeneration neutral_verdict VERIFIER_HALLUCINATION_THRESHOLD = false.
Proof. reflexivity. Qed.

(** C4: [run_verifier] always returns a verdict and never raises,
    whatever the verifier service does; when the call raises, or yields
    neither a parsed verdict nor a text that validates, the verdict is the
    neutral one (no hallucination, score 0.0, type none), for which the
    regeneration decision is negative. *)
Theorem run_verifier_fails_open (sv : Services) (log : list Event)
    (query_text mode query_type answer_text : str)
    (field source_lang target_lang : option str) :
  let req := {| ver_model := VERIFIER_MODEL;
                ver_contents :=
                  build_verifier_user_prompt query_text mode query_type answer_text
                    field source_lang target_lang |} in
  let o := verifier sv log req in
  exists verdict : VerifierResult,
    run sv (run_verifier query_text mode query_type answer_text
              field source_lang target_lang) log
      = (Ok verdict, log ++ [EVerify req o])
    /\ (Spec.verifier_unavailable o -> verdict = neutral_verdict)
    /\ has_hallucination neutral_verdict = false
    /\ hallucination_score neutral_verdict = S754_zero false
    /\ type neutral_verdict = HT_none
    /\ needs_regeneration neutral_verdict VERIFIER_HALLUCINATION_THRESHOLD = false.
Proof.
  intros req o. unfold run_verifier, try_except, bindM, call_verifier.
  cbn [prog_bind run]. fold req. fold o.
  destruct o as [response | e]; cbn.
  - destruct (ver_parsed response) as [parsed | ] eqn:Hp; cbn.
    + exists parsed. repeat split. intros [Hn _]. discriminate.
    + destruct (ver_text response) as [t | ] eqn:Ht; cbn.
      * destruct (nonempty (strip t)); cbn.
        -- destruct (VerifierResult_validate_json t) as [v | ] eqn:Hv; cbn.
           ++ exists v. repeat split. intros [_ Hn]. congruence.
           ++ exists neutral_verdict. repeat split.
        -- exists neutral_verdict. repeat split.
      * exists neutral_verdict. repeat split.
  - exists neutral_verdict. destruct e; repeat split.
Qed.

End FailOpen.

(** A verifier that always raises: the verdict is the neutral one. *)
Lemma run_verifier_fails_open_witness :
  let sv := {| generator := fun _ _ => Raised (OtherException 0);
               verifier := fun _ _ => Raised (OtherException 503) |} in
  exists verdict : VerifierResult,
    fst (run sv (run_verifier (PD := rejecting_pydantic) (u "apple") (u "dict") (u "word")
                   (u "digest") (Some (u "general")) (Some (u "en")) (Some (u "ko"))) [])
      = Ok verdict
    /\ verdict = neutral_verdict.
Proof.
  intro sv.
  destruct (run_verifier_fails_open (PD := rejecting_pydantic) sv [] (u "apple") (u "dict")
              (u "word") (u "digest") (Some (u "general")) (Some (u "en")) (Some (u "ko")))
    as [verdict [Hrun [Hneutral _]]].
  exists verdict. split.
  - rewrite Hrun. reflexivity.
  - apply Hneutral. exact I.
Defined.

(** ** The orchestrator returns a non-valid answer at once *)

Section Pipeline.
Context {RT : Runtime} {PD : Pydantic}.

Lemma str_eqb_eq (a b : str) : str_eqb a b = true <-> a = b.
Proof.
  revert b. induction a as [ | x a IH]; intros [ | y b]; simpl; split; intros H;
    try reflexivity; try discriminate.
  - apply andb_true_iff in H. destruct H as [Hx Ha].
    apply N.eqb_eq in Hx. apply IH in Ha. subst. reflexivity.
  - inversion H; subst. rewrite N.eqb_refl. simpl. apply IH. reflexivity.
Qed.

Lemma status_is_valid_false (st : option str) :
  st <> Some (u "VALID") -> status_is_valid st = false.
Proof.
  intros H. destruct st as [s | ]; simpl; [ | reflexivity].
  destruct (str_eqb s (u "VALID")) eqn:E; [ | reflexivity].
  apply str_eqb_eq in E. subst. contradiction.
Qed.

(** When the first answer is not valid, the handler stops after one
    generator call. *)
Lemma first_answer_returned (sv : Services) (log : list Event) (request_json : value)
    (cx : Context) (response : GenerateResponse) (entry : value) :
  prepare request_json = Ok (Some cx) ->
  generator sv log (first_request cx) = Returned response ->
  entry_of (cx_schema cx) response = Ok entry ->
  status_is_valid (_extract_query_analysis_status entry) = false ->
  run sv (api_search request_json) log
    = (Json entry, log ++ [EGenerate (first_request cx) (Returned response)]).
Proof.
  intros Hprep Hgen Hentry Hstatus.
  unfold api_search, api_search_body, bindM, lift, call_generator.
  cbn [prog_bind]. rewrite Hprep. cbn [prog_bind run].
  rewrite Hgen. cbn [of_outcome prog_bind]. rewrite Hentry.
  unfold verify_and_regenerate. rewrite Hstatus. reflexivity.
Qed.

Lemma extract_of_carried (entry : value) (s : str) :
  Spec.carries_status entry s -> _extract_query_analysis_status entry = Some s.
Proof.
  intros H. destruct H as [d qa s Hqa Hs | d sd qa s Hno Hsent Hqa Hs];
    unfold _extract_query_analysis_status, find_query_analysis, key_in, dict_get.
  - rewrite Hqa, Hs. reflexivity.
  - rewrite Hno, Hsent, Hqa, Hs. reflexivity.
Qed.

Lemma extract_of_lacking (entry : value) :
  Spec.lacks_status entry -> _extract_query_analysis_status entry = None.
Proof.
  intros H.
  destruct H as [d Hno Hsent | d qa Hqa Hs | d sd qa Hno Hsent Hqa Hs];
    unfold _extract_query_analysis_status, find_query_analysis, key_in, dict_get.
  - rewrite Hno.
    destruct (assoc (u "sentence") d) as [[ | | | | | | sd] | ] eqn:E; try reflexivity.
    rewrite (Hsent sd eq_refl). reflexivity.
  - rewrite Hqa.
    destruct (assoc (u "status") qa) as [[ | | | | s | | ] | ] eqn:E; try reflexivity.
    exfalso. exact (Hs s eq_refl).
  - rewrite Hno, Hsent, Hqa.
    destruct (assoc (u "status") qa) as [[ | | | | s | | ] | ] eqn:E; try reflexivity.
    exfalso. exact (Hs s eq_refl).
Qed.

(** C3: when the first generated answer carries a validation status other
    than VALID, at the top level or inside its sentence sub-object, the
    status is extracted as it is, the handler answers with that answer
    unchanged, and the only call made for the request is the one generator
    call: the verifier is called zero times. *)
Theorem non_valid_answer_skips_verifier (sv : Services) (log : list Event)
    (request_json : value) (cx : Context) (response : GenerateResponse)
    (entry : value) (status : str) :
  prepare request_json = Ok (Some cx) ->
  generator sv log (first_request cx) = Returned response ->
  entry_of (cx_schema cx) response = Ok entry ->
  Spec.carries_status entry status ->
  status <> u "VALID" ->
  _extract_query_analysis_status entry = Some status
  /\ run sv (api_search request_json) log
       = (Json entry, log ++ [EGenerate (first_request cx) (Returned response)])
  /\ verifier_calls [EGenerate (first_request cx) (Returned response)] = 0.
Proof.
  intros Hprep Hgen Hentry Hcarries Hnot.
  pose proof (extract_of_carried entry status Hcarries) as Hx.
  split; [exact Hx | split; [ | reflexivity]].
  apply (first_answer_returned sv log request_json cx response entry Hprep Hgen Hentry).
  rewrite Hx. apply status_is_valid_false. intros E. inversion E. contradiction.
Qed.

(** C10: when the first generated answer has no query_analysis block at
    either place, or the block's status is not a string, no status is
    extracted and the handler treats the answer as a non-valid one: it is
    returned unchanged after the single generator call, with no verifier
    call and no second generation. *)
Theorem answer_without_status_is_returned (sv : Services) (log : list Event)
    (request_json : value) (cx : Context) (response : GenerateResponse)
    (entry : value) :
  prepare request_json = Ok (Some cx) ->
  generator sv log (first_request cx) = Returned response ->
  entry_of (cx_schema cx) response = Ok entry ->
  Spec.lacks_status entry ->
  _extract_query_analysis_status entry = None
  /\ run sv (api_search request_json) log
       = (Json entry, log ++ [EGenerate (first_request cx) (Returned response)])
  /\ verifier_calls [EGenerate (first_request cx) (Returned response)] = 0
  /\ generator_calls [EGenerate (first_request cx) (Returned response)] = 1.
Proof.
  intros Hprep Hgen Hentry Hlacks.
  pose proof (extract_of_lacking entry Hlacks) as Hx.
  split; [exact Hx | split; [ | split; reflexivity]].
  apply (first_answer_returned sv log request_json cx response entry Hprep Hgen Hentry).
  rewrite Hx. reflexivity.
Qed.

End Pipeline.

Lemma typo_request_prepared :
  { cx : Context |
    prepare (RT := plain_runtime) typo_request = Ok (Some cx) }.
Proof.
  eexists. vm_compute. reflexivity.
Defined.

(** A sentence-shaped answer with the nested status TYPO is sent back
    after one call. *)
Lemma non_valid_answer_skips_verifier_witness :
  let cx := proj1_sig typo_request_prepared in
  let response := {| gen_parsed := Some typo_entry; gen_text := None |} in
  _extract_query_analysis_status typo_entry = Some (u "TYPO")
  /\ run (answering typo_entry)
         (api_search (RT := plain_runtime) (PD := rejecting_pydantic) typo_request) []
       = (Json typo_entry, [] ++ [EGenerate (first_request cx) (Returned response)])
  /\ verifier_calls [EGenerate (first_request cx) (Returned response)] = 0.
Proof.
  intros cx response.
  apply (non_valid_answer_skips_verifier (RT := plain_runtime) (PD := rejecting_pydantic)
           (answering typo_entry) [] typo_request cx response typo_entry (u "TYPO")).
  - exact (proj2_sig typo_request_prepared).
  - reflexivity.
  - reflexivity.
  - apply Spec.status_under_sentence
      with (sd := [(u "query_analysis",
                    VDict [(u "status", VStr (u "TYPO"));
                           (u "reason_l1", VStr (u "applr is not a word"));
                           (u "suggestion_queries",
                            VList [VStr (u "apple"); VStr (u "apply")])]);
                   (u "l2_sentence", VStr [])])
           (qa := [(u "status", VStr (u "TYPO"));
                   (u "reason_l1", VStr (u "applr is not a word"));
                   (u "suggestion_queries", VList [VStr (u "apple"); VStr (u "apply")])]);
      reflexivity.
  - vm_compute. discriminate.
Defined.

(** An answer whose status is null is sent back after one call. *)
Lemma answer_without_status_is_returned_witness :
  let cx := proj1_sig typo_request_prepared in
  let response := {| gen_parsed := Some statusless_entry; gen_text := None |} in
  _extract_query_analysis_status statusless_entry = None
  /\ run (answering statusless_entry)
         (api_search (RT := plain_runtime) (PD := rejecting_pydantic) typo_request) []
       = (Json statusless_entry, [] ++ [EGenerate (first_request cx) (Returned response)])
  /\ verifier_calls [EGenerate (first_request cx) (Returned response)] = 0
  /\ generator_calls [EGenerate (first_request cx) (Returned response)] = 1.
Proof.
  intros cx response.
  apply (answer_without_status_is_returned (RT := plain_runtime) (PD := rejecting_pydantic)
           (answering statusless_entry) [] typo_request cx response statusless_entry).
  - exact (proj2_sig typo_request_prepared).
  - reflexivity.
  - reflexivity.
  - apply Spec.status_not_a_string_at_top_level
      with (qa := [(u "status", VNone); (u "reason_l1", VStr [])]).
    + reflexivity.
    + intros s. vm_compute. discriminate.
Defined.

(** ** The query analyzer *)

Section Strings.

Lemma nonempty_lstrip (s : str) : nonempty (lstrip s) = has_nonspace s.
Proof.
  induction s as [ | c s IH]; simpl; [reflexivity | ].
  destruct (isspace c); simpl; [exact IH | reflexivity].
Qed.

Lemma has_nonspace_lstrip (s : str) : has_nonspace (lstrip s) = has_nonspace s.
Proof.
  induction s as [ | c s IH]; simpl; [reflexivity | ].
  destruct (isspace c) eqn:E; simpl; [exact IH | rewrite E; reflexivity].
Qed.

Lemma existsb_rev_eq {A} (f : A -> bool) (l : list A) : existsb f (rev l) = existsb f l.
Proof.
  induction l as [ | x l IH]; simpl; [reflexivity | ].
  rewrite existsb_app, IH. simpl. rewrite orb_false_r. apply orb_comm.
Qed.

Lemma nonempty_rev (s : str) : nonempty (rev s) = nonempty s.
Proof.
  destruct s as [ | c s]; simpl; [reflexivity | ].
  destruct (rev s ++ [c]) eqn:E; [ | reflexivity].
  apply app_eq_nil in E. destruct E as [_ E]. discriminate.
Qed.

(** A string survives [strip] exactly when it has a non-space character. *)
Lemma nonempty_strip (s : str) : nonempty (strip s) = has_nonspace s.
Proof.
  unfold strip, rstrip. rewrite nonempty_rev, nonempty_lstrip.
  unfold has_nonspace at 1. rewrite existsb_rev_eq. apply has_nonspace_lstrip.
Qed.

Lemma existsb_cons_head (c : char) (ps : list str) :
  existsb has_nonspace (cons_head c ps) = negb (isspace c) || existsb has_nonspace ps.
Proof.
  destruct ps as [ | p ps]; simpl.
  - rewrite !orb_false_r. reflexivity.
  - rewrite orb_assoc. reflexivity.
Qed.

Lemma split_on_nonspace (sep : char -> bool) (s : str) :
  existsb has_nonspace (split_on sep s) = true -> has_nonspace s = true.
Proof.
  induction s as [ | c s IH]; simpl; [intros H; exact H | ].
  destruct (sep c).
  - simpl. intros H. rewrite (IH H). apply orb_true_r.
  - destruct (split_on sep s) as [ | p ps] eqn:E; simpl.
    + rewrite !orb_false_r. intros H. rewrite H. reflexivity.
    + simpl in IH. rewrite <- orb_assoc. intros H.
      apply orb_true_iff in H. destruct H as [H | H].
      * rewrite H. reflexivity.
      * rewrite (IH H). apply orb_true_r.
Qed.

Lemma split_after_nonspace (term : char -> bool) (allow_empty : bool) (s : str) :
  forall prev_term skipping,
  has_nonspace s = true ->
  existsb has_nonspace (split_after term allow_empty prev_term skipping s) = true.
Proof.
  induction s as [ | c s IH]; intros prev_term skipping; simpl; [discriminate | ].
  intros H.
  destruct (isspace c) eqn:Ec; simpl in H.
  - rewrite !andb_true_r.
    destruct skipping; simpl; [apply IH; exact H | ].
    destruct prev_term; simpl; [apply IH; exact H | ].
    rewrite existsb_cons_head, Ec. simpl. apply IH. exact H.
  - rewrite !andb_false_r.
    destruct (prev_term && allow_empty); simpl;
      rewrite existsb_cons_head, Ec; reflexivity.
Qed.

Lemma stripped_nonempty_nil (parts : list str) :
  stripped_nonempty parts = [] -> existsb has_nonspace parts = false.
Proof.
  unfold stripped_nonempty. induction parts as [ | p parts IH]; simpl; [reflexivity | ].
  rewrite nonempty_strip. destruct (has_nonspace p); simpl; [discriminate | exact IH].
Qed.

Lemma stripped_nonempty_exists (parts : list str) :
  stripped_nonempty parts <> [] -> existsb has_nonspace parts = true.
Proof.
  unfold stripped_nonempty. induction parts as [ | p parts IH]; simpl.
  - intros H. contradiction.
  - rewrite nonempty_strip. destruct (has_nonspace p); simpl; [reflexivity | exact IH].
Qed.

Lemma stripped_nonempty_all (parts : list str) (x : str) :
  In x (stripped_nonempty parts) -> x <> [].
Proof.
  unfold stripped_nonempty. intros H. apply in_map_iff in H.
  destruct H as [p [Hx Hp]]. apply filter_In in Hp. destruct Hp as [_ Hp].
  subst x. intros E. rewrite E in Hp. discriminate.
Qed.

Lemma stripped_nonempty_length (parts : list str) :
  length (stripped_nonempty parts) = length (filter nonempty (map strip parts)).
Proof.
  unfold stripped_nonempty. rewrite length_map.
  induction parts as [ | p parts IH]; simpl; [reflexivity | ].
  destruct (nonempty (strip p)); simpl; rewrite IH; reflexivity.
Qed.

End Strings.

Section Analyzer.

Lemma looks_like_paragraph_iff (text lang : str) :
  text <> [] ->
  _looks_like_paragraph text (Some lang) = true <-> Spec.paragraph_condition lang text.
Proof.
  intros Hne. destruct text as [ | c t]; [contradiction | ].
  unfold _looks_like_paragraph, Spec.paragraph_condition, Spec.segments,
    Spec.sentence_terminators, lang_is, _SENT_TERM_ZH, _SENT_TERM_LATIN.
  destruct (str_eqb lang (u "zh")); rewrite stripped_nonempty_length;
    match goal with
    | |- context [length ?l <? 2] => destruct (Nat.ltb_spec (length l) 2) as [L2 | L2]
    end;
    destruct (Nat.ltb_spec (length (c :: t)) 80) as [L80 | L80];
    split; intros H; try discriminate; try reflexivity; try lia.
Qed.

Lemma looks_like_paragraph_has_sentences (text : str) (lang : option str) :
  _looks_like_paragraph text lang = true -> _split_sentences text lang <> [].
Proof.
  destruct text as [ | c t]; [discriminate | ].
  unfold _looks_like_paragraph, _split_sentences. intros H E.
  assert (Hns : has_nonspace (c :: t) = true).
  { destruct (lang_is lang "zh");
      match type of H with
      | context [stripped_nonempty (split_on ?sep ?s)] =>
          apply (split_on_nonspace sep s); apply stripped_nonempty_exists;
          destruct (stripped_nonempty (split_on sep s)); [discriminate | discriminate]
      end. }
  destruct (lang_is lang "zh"); apply stripped_nonempty_nil in E;
    rewrite split_after_nonspace in E by exact Hns; discriminate.
Qed.

Lemma detect_lang_cases (text native_lang target_lang : str) :
  detect_lang text native_lang target_lang = native_lang
  \/ detect_lang text native_lang target_lang = target_lang.
Proof.
  unfold detect_lang.
  destruct ((0 <? _lang_score text native_lang) || (0 <? _lang_score text target_lang));
    [ | left; reflexivity].
  destruct (_lang_score text target_lang <? _lang_score text native_lang);
    [left; reflexivity | ].
  destruct (_lang_score text native_lang <? _lang_score text target_lang);
    [right | left]; reflexivity.
Qed.

Lemma detect_lang_valid (text native_lang target_lang : str) :
  is_in native_lang LangCode_values = true ->
  is_in target_lang LangCode_values = true ->
  is_in (detect_lang text native_lang target_lang) LangCode_values = true.
Proof.
  intros Hn Ht. destruct (detect_lang_cases text native_lang target_lang) as [E | E];
    rewrite E; assumption.
Qed.

Lemma detect_lang_tie (text native_lang target_lang : str) :
  _lang_score text native_lang = _lang_score text target_lang ->
  detect_lang text native_lang target_lang = native_lang.
Proof.
  intros E. unfold detect_lang. rewrite E, Nat.ltb_irrefl.
  destruct ((0 <? _lang_score text target_lang) || (0 <? _lang_score text target_lang));
    reflexivity.
Qed.

Lemma decide_list_type_values (items : list str) (lang : option str) :
  _decide_list_type items lang = u "word_list"
  \/ _decide_list_type items lang = u "phrase_list".
Proof.
  unfold _decide_list_type. destruct items; [left; reflexivity | ].
  match goal with |- context [Qle_bool ?a ?b] => destruct (Qle_bool a b) end;
    [left | right]; reflexivity.
Qed.

Lemma decide_word_or_phrase_values (text : str) (lang : option str) :
  _decide_word_or_phrase text lang = u "word"
  \/ _decide_word_or_phrase text lang = u "phrase".
Proof.
  unfold _decide_word_or_phrase. destruct text; [left; reflexivity | ].
  repeat match goal with
         | |- context [if ?b then _ else _] => destruct b
         end; (left; reflexivity) || (right; reflexivity).
Qed.

Lemma QueryAnalysisResult_new_ok (raw normalized qtype : str) (us : list str) (lang : str) :
  is_in qtype QueryType_values = true ->
  is_in lang LangCode_values = true ->
  QueryAnalysisResult_new raw normalized qtype us (Some lang)
    = Ok {| raw_query := raw; normalized_query := normalized; query_type := qtype;
            units := us; query_lang := Some lang |}.
Proof.
  intros Hq Hl. unfold QueryAnalysisResult_new. rewrite Hq, Hl. reflexivity.
Qed.

(** The three ways out of [analyze_query], for a non-empty normalized
    query whose detected language is a language code. *)
Lemma analyze_query_eq (q native_lang target_lang : str) :
  let text := _normalize q in
  let lang := detect_lang text native_lang target_lang in
  let items := _split_list_candidates text in
  text <> [] ->
  is_in lang LangCode_values = true ->
  analyze_query q native_lang target_lang =
    Ok (if _looks_like_paragraph text (Some lang) then
          {| raw_query := q; normalized_query := text; query_type := u "paragraph";
             units := _split_sentences text (Some lang); query_lang := Some lang |}
        else if (2 <=? length items)
                && (length (filter (fun it => _looks_like_sentence it (Some lang)) items) =? 0)
        then
          {| raw_query := q; normalized_query := text;
             query_type := _decide_list_type items (Some lang);
             units := items; query_lang := Some lang |}
        else
          {| raw_query := q; normalized_query := text;
             query_type := if _looks_like_sentence text (Some lang) then u "sentence"
                           else _decide_word_or_phrase text (Some lang);
             units := [text]; query_lang := Some lang |}).
Proof.
  intros text lang items Hne Hlang. subst items lang text. unfold analyze_query.
  destruct (_normalize q) as [ | c t] eqn:Et; [contradiction | ].
  cbv beta iota zeta.
  set (text := c :: t) in *.
  set (lang := detect_lang text native_lang target_lang) in *.
  set (items := _split_list_candidates text).
  destruct (_looks_like_paragraph text (Some lang)) eqn:Hp.
  - pose proof (looks_like_paragraph_has_sentences text (Some lang) Hp) as Hs.
    destruct (_split_sentences text (Some lang)) as [ | s ss] eqn:Es; [contradiction | ].
    cbn [andb]. apply QueryAnalysisResult_new_ok; [reflexivity | exact Hlang].
  - cbn [andb].
    destruct ((2 <=? length items)
              && (length (filter (fun it => _looks_like_sentence it (Some lang)) items) =? 0)).
    + apply QueryAnalysisResult_new_ok; [ | exact Hlang].
      destruct (decide_list_type_values items (Some lang)) as [E | E]; rewrite E; reflexivity.
    + apply QueryAnalysisResult_new_ok; [ | exact Hlang].
      destruct (_looks_like_sentence text (Some lang)); [reflexivity | ].
      destruct (decide_word_or_phrase_values text (Some lang)) as [E | E];
        rewrite E; reflexivity.
Qed.

(** C6: for a non-empty normalized query, [analyze_query] answers
    [paragraph] exactly when splitting on the sentence terminators of the
    detected language leaves at least two non-empty trimmed segments and
    the normalized text has at least 80 characters. *)
Theorem paragraph_classification (q native_lang target_lang : str) :
  is_in native_lang LangCode_values = true ->
  is_in target_lang LangCode_values = true ->
  _normalize q <> [] ->
  exists a : QueryAnalysisResult,
    analyze_query q native_lang target_lang = Ok a
    /\ normalized_query a = _normalize q
    /\ query_lang a = Some (detect_lang (_normalize q) native_lang target_lang)
    /\ (query_type a = u "paragraph" <->
        Spec.paragraph_condition (detect_lang (_normalize q) native_lang target_lang)
          (_normalize q)).
Proof.
  intros Hn Ht Hne.
  pose proof (detect_lang_valid (_normalize q) native_lang target_lang Hn Ht) as Hl.
  rewrite (analyze_query_eq q native_lang target_lang Hne Hl).
  eexists. split; [reflexivity | ].
  rewrite <- (looks_like_paragraph_iff _ _ Hne).
  destruct (_looks_like_paragraph (_normalize q) _) eqn:Hp.
  - repeat split; reflexivity.
  - match goal with
    | |- context [if ?b then _ else _] => destruct b
    end; cbn [normalized_query query_lang query_type];
      (split; [reflexivity | split; [reflexivity | ]]);
      (split; [ | discriminate]).
    + destruct (decide_list_type_values (_split_list_candidates (_normalize q))
                  (Some (detect_lang (_normalize q) native_lang target_lang))) as [E | E];
        rewrite E; intros H; vm_compute in H; discriminate.
    + destruct (_looks_like_sentence (_normalize q) _);
        [intros H; vm_compute in H; discriminate | ].
      destruct (decide_word_or_phrase_values (_normalize q)
                  (Some (detect_lang (_normalize q) native_lang target_lang))) as [E | E];
        rewrite E; intros H; vm_compute in H; discriminate.
Qed.

(** C8: for a non-empty normalized query whose native-language score
    equals its target-language score (both zero included),
    [analyze_query] sets [query_lang] to [native_lang]. *)
Theorem tie_resolves_to_native_lang (q native_lang target_lang : str) :
  is_in native_lang LangCode_values = true ->
  _normalize q <> [] ->
  _lang_score (_normalize q) native_lang = _lang_score (_normalize q) target_lang ->
  exists a : QueryAnalysisResult,
    analyze_query q native_lang target_lang = Ok a
    /\ query_lang a = Some native_lang.
Proof.
  intros Hn Hne Htie.
  pose proof (detect_lang_tie (_normalize q) native_lang target_lang Htie) as Hd.
  assert (Hl : is_in (detect_lang (_normalize q) native_lang target_lang) LangCode_values
               = true) by (rewrite Hd; exact Hn).
  rewrite (analyze_query_eq q native_lang target_lang Hne Hl).
  eexists. split; [reflexivity | ]. rewrite Hd.
  repeat match goal with
         | |- context [if ?b then _ else _] => destruct b
         end; reflexivity.
Qed.

(** The literals 0.7, 0.4 and 1.0 as doubles: 53-bit mantissas, within
    half a unit in the last place of the decimal value. *)
Lemma literal_doubles :
  (2 ^ 52 <= 6305039478318694 < 2 ^ 53
   /\ 2 * Z.abs (10 * 6305039478318694 - 7 * 2 ^ 53) < 10)%Z
  /\ (2 ^ 52 <= 7205759403792794 < 2 ^ 53
      /\ 2 * Z.abs (10 * 7205759403792794 - 4 * 2 ^ 54) < 10)%Z
  /\ (4503599627370496 = 2 ^ 52)%Z.
Proof. vm_compute. repeat split; intros; discriminate. Qed.

Lemma ratio_tests_agree_sound (n count len : nat) :
  Spec.ratio_tests_agree_upto n = true ->
  1 <= len <= n -> count <= len ->
  ratio_reaches_threshold_float count len = ratio_reaches_threshold count len.
Proof.
  intros H Hlen Hcount.
  unfold Spec.ratio_tests_agree_upto in H. rewrite forallb_forall in H.
  specialize (H len). rewrite forallb_forall in H.
  apply Bool.eqb_prop. apply H.
  - apply in_seq. lia.
  - apply in_seq. lia.
Qed.

Lemma ratio_tests_agree_100 : Spec.ratio_tests_agree_upto 100 = true.
Proof. vm_compute. reflexivity. Qed.

(** The exact comparison of the fraction with 7/10 is the one binary64
    arithmetic makes, checked on every list of at most 100 items. *)
Lemma float_ratio_agrees (count len : nat) :
  1 <= len <= 100 -> count <= len ->
  ratio_reaches_threshold_float count len = ratio_reaches_threshold count len.
Proof.
  exact (ratio_tests_agree_sound 100 count len ratio_tests_agree_100).
Qed.

Lemma decide_list_type_by_ratio (items : list str) (lang : option str) :
  items <> [] ->
  _decide_list_type items lang =
    if ratio_reaches_threshold
         (length (filter (fun it => _is_word_like it lang) items)) (length items)
    then u "word_list" else u "phrase_list".
Proof.
  intros H. destruct items; [contradiction | ]. reflexivity.
Qed.

(** On lists of at most 100 items [_decide_list_type] decides as the
    binary64 evaluation of [ratio >= 0.7] does. *)
Lemma decide_list_type_in_binary64 (items : list str) (lang : option str) :
  items <> [] -> length items <= 100 ->
  _decide_list_type items lang =
    if ratio_reaches_threshold_float
         (length (filter (fun it => _is_word_like it lang) items)) (length items)
    then u "word_list" else u "phrase_list".
Proof.
  intros Hne Hlen. rewrite (decide_list_type_by_ratio items lang Hne).
  rewrite float_ratio_agrees; [reflexivity | | apply filter_length_le].
  destruct items; [contradiction | ]. cbn [length] in *. lia.
Qed.

Lemma is_word_like_spec (item lang : str) :
  item <> [] -> _is_word_like item (Some lang) = Spec.word_like lang item.
Proof.
  intros Hne. destruct item as [ | c t]; [contradiction | ].
  unfold _is_word_like, Spec.word_like, lang_is, has_space, remove_spaces.
  destruct (str_eqb lang (u "zh")) eqn:Ezh.
  - apply str_eqb_eq in Ezh. subst lang. reflexivity.
  - destruct (str_eqb lang (u "en") || str_eqb lang (u "de")).
    + destruct (existsb isspace (c :: t)); reflexivity.
    + destruct (str_eqb lang (u "ko")); rewrite andb_true_r; reflexivity.
Qed.

Lemma filter_word_like (lang : str) (items : list str) :
  (forall it, In it items -> it <> []) ->
  filter (fun it => _is_word_like it (Some lang)) items = filter (Spec.word_like lang) items.
Proof.
  intros H. apply filter_ext_in. intros it Hin. apply is_word_like_spec. exact (H it Hin).
Qed.

Lemma none_sentence_like (lang : option str) (items : list str) :
  (forall it, In it items -> _looks_like_sentence it lang = false) ->
  filter (fun it => _looks_like_sentence it lang) items = [].
Proof.
  induction items as [ | x items IH]; intros H; simpl; [reflexivity | ].
  rewrite (H x (or_introl eq_refl)). apply IH. intros it Hin. apply H. right. exact Hin.
Qed.

(** C7, as the code has it: when the query is not classified as a
    paragraph, splits into at least two list items and none of them is
    sentence-like, [analyze_query] answers with the items as units and
    with [word_list] exactly when the fraction of word-like items is at
    least 0.7 (0.7 included), [phrase_list] when it is below. *)
Theorem list_type_decision (q native_lang target_lang : str) :
  let text := _normalize q in
  let lang := detect_lang text native_lang target_lang in
  let items := _split_list_candidates text in
  is_in native_lang LangCode_values = true ->
  is_in target_lang LangCode_values = true ->
  text <> [] ->
  ~ Spec.paragraph_condition lang text ->
  2 <= length items ->
  (forall it, In it items -> _looks_like_sentence it (Some lang) = false) ->
  exists a : QueryAnalysisResult,
    analyze_query q native_lang target_lang = Ok a
    /\ units a = items
    /\ (query_type a = u "word_list" <->
        (7 # 10 <= Spec.word_like_fraction lang items)%Q)
    /\ (query_type a = u "phrase_list" <->
        (Spec.word_like_fraction lang items < 7 # 10)%Q).
Proof.
  intros text lang items Hn Ht Hne Hnp Hlen Hns.
  pose proof (detect_lang_valid text native_lang target_lang Hn Ht) as Hl.
  rewrite (analyze_query_eq q native_lang target_lang Hne Hl).
  fold text. fold lang. fold items.
  destruct (_looks_like_paragraph text (Some lang)) eqn:Hp.
  { exfalso. apply Hnp. apply looks_like_paragraph_iff; assumption. }
  rewrite (none_sentence_like (Some lang) items Hns).
  destruct (Nat.leb_spec 2 (length items)) as [_ | Hlt]; [ | lia].
  cbn [andb length Nat.eqb]. eexists. split; [reflexivity | ].
  cbn [units query_type]. split; [reflexivity | ].
  unfold _decide_list_type, Spec.word_like_fraction, list_ratio_threshold.
  destruct items as [ | i0 irest] eqn:Ei; [simpl in Hlen; lia | ]. rewrite <- Ei in *.
  rewrite (filter_word_like lang items)
    by (intros it Hin; subst items; exact (stripped_nonempty_all _ it Hin)).
  set (ratio := (Z.of_nat (length (filter (Spec.word_like lang) items))
                   # Pos.of_nat (length items))%Q).
  destruct (Qle_bool (7 # 10) ratio) eqn:Eq.
  - apply Qle_bool_iff in Eq. split; split; intros H.
    + exact Eq.
    + reflexivity.
    + vm_compute in H. discriminate.
    + exfalso. exact (Qlt_not_le _ _ H Eq).
  - assert (Hlt : (ratio < 7 # 10)%Q).
    { apply Qnot_le_lt. intros Hle. apply Qle_bool_iff in Hle. congruence. }
    split; split; intros H.
    + vm_compute in H. discriminate.
    + exfalso. exact (Qlt_not_le _ _ Hlt H).
    + exact Hlt.
    + reflexivity.
Qed.

End Analyzer.

(** A two-sentence text of 94 characters is a paragraph. *)
Lemma paragraph_classification_witness :
  let q := u "I went to school yesterday. It was a very long day and I learned many things about proofs." in
  exists a : QueryAnalysisResult,
    analyze_query q (u "ko") (u "en") = Ok a
    /\ normalized_query a = _normalize q
    /\ query_lang a = Some (detect_lang (_normalize q) (u "ko") (u "en"))
    /\ (query_type a = u "paragraph" <->
        Spec.paragraph_condition (detect_lang (_normalize q) (u "ko") (u "en"))
          (_normalize q)).
Proof.
  intro q. apply (paragraph_classification q (u "ko") (u "en")).
  - reflexivity.
  - reflexivity.
  - vm_compute. discriminate.
Defined.

(** Digits score zero for Korean and for English: the tie goes to Korean. *)
Lemma tie_resolves_to_native_lang_witness :
  exists a : QueryAnalysisResult,
    analyze_query (u "2024 1031") (u "ko") (u "en") = Ok a
    /\ query_lang a = Some (u "ko").
Proof.
  apply (tie_resolves_to_native_lang (u "2024 1031") (u "ko") (u "en")).
  - reflexivity.
  - vm_compute. discriminate.
  - reflexivity.
Defined.

(** Three comma-separated words, all word-like: a word list. *)
Lemma list_type_decision_witness :
  let q := u "apple, banana, orange" in
  let items := _split_list_candidates (_normalize q) in
  let lang := detect_lang (_normalize q) (u "en") (u "ko") in
  exists a : QueryAnalysisResult,
    analyze_query q (u "en") (u "ko") = Ok a
    /\ units a = items
    /\ (query_type a = u "word_list" <->
        (7 # 10 <= Spec.word_like_fraction lang items)%Q)
    /\ (query_type a = u "phrase_list" <->
        (Spec.word_like_fraction lang items < 7 # 10)%Q).
Proof.
  intros q items lang. apply (list_type_decision q (u "en") (u "ko")).
  - reflexivity.
  - reflexivity.
  - vm_compute. discriminate.
  - intros [_ H]. vm_compute in H. lia.
  - vm_compute. lia.
  - intros it Hin. vm_compute in Hin.
    destruct Hin as [E | [E | [E | []]]]; subst it; vm_compute; reflexivity.
Defined.

(** Seven host names separated by commas: every item is word-like and
    none is sentence-like, yet the dots make two segments and the text has
    89 characters, so the paragraph test, which comes first, wins. *)
Lemma list_of_host_names_is_a_paragraph :
  let q := u "example.com, example.org, example.net, example.edu, example.gov, example.info, example.io" in
  let items := _split_list_candidates (_normalize q) in
  exists a : QueryAnalysisResult,
    analyze_query q (u "ko") (u "en") = Ok a
    /\ query_lang a = Some (u "en")
    /\ length items = 7
    /\ forallb (fun it => negb (_looks_like_sentence it (Some (u "en")))) items = true
    /\ (7 # 10 <= Spec.word_like_fraction (u "en") items)%Q
    /\ query_type a = u "paragraph"
    /\ query_type a <> u "word_list".
Proof.
  intros q items. eexists. split; [vm_compute; reflexivity | ].
  split; [reflexivity | ]. split; [vm_compute; reflexivity | ].
  split; [vm_compute; reflexivity | ].
  split; [unfold Qle; vm_compute; discriminate | ].
  split; [vm_compute; reflexivity | ].
  vm_compute. discriminate.
Defined.

(** ** The digest and its cut *)

Section DigestCut.
Context {RT : Runtime}.

Lemma marker_length : length TRUNCATION_MARKER = 29.
Proof. reflexivity. Qed.

Lemma truncate_short (s : str) :
  length s <= MAX_CHARS -> truncate_for_verifier s = s.
Proof.
  intros H. unfold truncate_for_verifier.
  destruct (Nat.ltb_spec MAX_CHARS (length s)); [lia | reflexivity].
Qed.

Lemma truncate_long (s : str) :
  MAX_CHARS < length s ->
  truncate_for_verifier s = firstn MAX_CHARS s ++ TRUNCATION_MARKER.
Proof.
  intros H. unfold truncate_for_verifier.
  destruct (Nat.ltb_spec MAX_CHARS (length s)); [reflexivity | lia].
Qed.

Lemma truncate_length (s : str) :
  length (truncate_for_verifier s) <= MAX_CHARS + length TRUNCATION_MARKER.
Proof.
  destruct (Nat.le_gt_cases (length s) MAX_CHARS) as [H | H].
  - rewrite truncate_short by exact H. lia.
  - rewrite truncate_long by exact H. rewrite length_app, length_firstn. lia.
Qed.

(** The cut, for any value whose rendering succeeds. *)
Lemma cut_of_rendering (entry : value) (mode query_type full : str) :
  full_digest entry mode query_type = Ok full ->
  exists digest : str,
    build_verifier_answer_text entry mode query_type = Ok digest
    /\ length digest <= 4029
    /\ (length full <= 4000 -> digest = full)
    /\ (4000 < length full ->
        digest = firstn 4000 full ++ TRUNCATION_MARKER /\ length digest = 4029).
Proof.
  intros Hfull. unfold build_verifier_answer_text. rewrite Hfull. cbn [bind].
  exists (truncate_for_verifier full). split; [reflexivity | ].
  pose proof (truncate_length full) as Hlen. rewrite marker_length in Hlen.
  change MAX_CHARS with 4000 in Hlen.
  split; [lia | ]. split.
  - intros H. apply truncate_short. exact H.
  - intros H. pose proof (truncate_long full H) as E. change MAX_CHARS with 4000 in E.
    split; [exact E | ]. rewrite E, length_app, length_firstn, marker_length. lia.
Qed.

End DigestCut.

(** ** The instruction composer *)

Section Composer.
Context {RT : Runtime}.



Lemma prompt_depends_on_normalized_mode (a : QueryAnalysisResult)
    (education field mode1 mode2 native_lang target_lang : str) :
  _normalize_mode mode1 = _normalize_mode mode2 ->
  generate_prompt_rule a education field mode1 native_lang target_lang
  = generate_prompt_rule a education field mode2 native_lang target_lang.
Proof.
  intros H. unfold generate_prompt_rule. rewrite H. reflexivity.
Qed.

Lemma normalize_mode_encyclopedia : _normalize_mode (u "encyclopedia") = u "encyclopedia".
Proof. vm_compute. reflexivity. Qed.

Lemma str_eqb_refl (s : str) : str_eqb s s = true.
Proof. apply str_eqb_eq. reflexivity. Qed.

Lemma str_eqb_neq (a b : str) : a <> b -> str_eqb a b = false.
Proof.
  intros H. destruct (str_eqb a b) eqn:E; [ | reflexivity].
  apply str_eqb_eq in E. contradiction.
Qed.

Lemma normalize_mode_dict : _normalize_mode (u "dict") = u "dict".
Proof. vm_compute. reflexivity. Qed.

(** The header up to its mode line does not depend on the mode. *)
Lemma header_text_split (native_lang target_lang edu_label education field qtype : str) :
  exists prefix : str, forall m level_block domain_block : str, exists rest : str,
    header_text native_lang target_lang edu_label education field qtype m
      level_block domain_block
    = prefix ++ (if str_eqb m (u "dict") then u "dictionary" else u "encyclopedia") ++ rest.
Proof.
  eexists. intros m level_block domain_block. eexists. unfold header_text.
  repeat match goal with
         | |- ?x ++ (?y ++ ?z) = _ =>
             lazymatch y with
             | (if _ then _ else _) => fail
             | _ => rewrite (app_assoc x y z)
             end
         end.
  reflexivity.
Qed.

(** Every instruction has the mode line at the same place. *)
Lemma prompt_mode_line (a : QueryAnalysisResult)
    (education field native_lang target_lang : str) :
  exists prefix : str, forall mode : str, exists rest : str,
    generate_prompt_rule a education field mode native_lang target_lang
    = prefix ++ (if str_eqb (_normalize_mode mode) (u "dict")
                 then u "dictionary" else u "encyclopedia") ++ rest.
Proof.
  destruct (header_text_split native_lang target_lang (_education_label education)
              education field (query_type a)) as [prefix Hp].
  exists prefix. intros mode. unfold generate_prompt_rule. cbv zeta.
  repeat match goal with
         | |- exists rest, (if ?b then _ ++ _ else _) = _ => destruct b
         end;
    match goal with
    | |- exists rest, header_text _ _ _ _ _ _ ?m ?l ?d ++ ?body = _ =>
        destruct (Hp m l d) as [r Hr]; exists (r ++ body); rewrite Hr, <- !app_assoc;
        reflexivity
    end.
Qed.

(** The instruction of the dictionary mode is never the one of the
    encyclopedia: they differ at the mode line. *)
Lemma dict_prompt_is_not_encyclopedia (a : QueryAnalysisResult)
    (education field native_lang target_lang : str) :
  generate_prompt_rule a education field (u "dict") native_lang target_lang
  <> generate_prompt_rule a education field (u "encyclopedia") native_lang target_lang.
Proof.
  destruct (prompt_mode_line a education field native_lang target_lang) as [prefix Hp].
  destruct (Hp (u "dict")) as [r1 E1]. destruct (Hp (u "encyclopedia")) as [r2 E2].
  rewrite E1, E2, normalize_mode_dict, normalize_mode_encyclopedia.
  change (str_eqb (u "dict") (u "dict")) with true.
  change (str_eqb (u "encyclopedia") (u "dict")) with false. cbv iota.
  intros E. apply app_inv_head in E. apply (f_equal (hd 0%N)) in E.
  vm_compute in E. discriminate.
Qed.

Lemma dictionary_spelling_is_not_encyclopedia (mode : str) :
  is_in (lower (strip mode)) [u "dict"; u "dictionary"] = true ->
  mode <> u "encyclopedia".
Proof.
  intros H E. subst mode. vm_compute in H. discriminate.
Qed.

(** C9, as the code has it. For a mode that is not exactly
    [encyclopedia] and whose trimmed, lower-cased form is neither [dict]
    nor [dictionary], the two dispatches disagree: [select_schema] picks
    the schema it picks for [dict], never the encyclopedia one, while
    [generate_prompt_rule] composes the text it composes for
    [encyclopedia], ending with the encyclopedia body. For every mode
    whose trimmed, lower-cased form is [dict] or [dictionary], that is,
    every case or spacing variant of the two, both dispatches choose the
    dictionary mode: [select_schema] picks the schema it picks for [dict]
    and [generate_prompt_rule] composes the text it composes for [dict],
    which is never the text of the encyclopedia. *)
Theorem mode_dispatches_disagree (a : QueryAnalysisResult)
    (education field mode native_lang target_lang : str) :
  (mode <> u "encyclopedia" ->
   is_in (lower (strip mode)) [u "dict"; u "dictionary"] = false ->
   select_schema mode a native_lang <> EncyclopediaResponse
   /\ select_schema mode a native_lang = select_schema (u "dict") a native_lang
   /\ _normalize_mode mode = u "encyclopedia"
   /\ generate_prompt_rule a education field mode native_lang target_lang
      = generate_prompt_rule a education field (u "encyclopedia") native_lang target_lang
   /\ exists header : str,
        generate_prompt_rule a education field mode native_lang target_lang
        = header ++ body_encyclopedia (_join_units (units a)) native_lang
                      (_education_label education) field)
  /\ (is_in (lower (strip mode)) [u "dict"; u "dictionary"] = true ->
      select_schema mode a native_lang <> EncyclopediaResponse
      /\ select_schema mode a native_lang = select_schema (u "dict") a native_lang
      /\ _normalize_mode mode = u "dict"
      /\ generate_prompt_rule a education field mode native_lang target_lang
         = generate_prompt_rule a education field (u "dict") native_lang target_lang
      /\ generate_prompt_rule a education field mode native_lang target_lang
         <> generate_prompt_rule a education field (u "encyclopedia")
              native_lang target_lang).
Proof.
  assert (Hschema : mode <> u "encyclopedia" ->
                    select_schema mode a native_lang <> EncyclopediaResponse
                    /\ select_schema mode a native_lang
                       = select_schema (u "dict") a native_lang).
  { intros Hne.
    assert (Hs : select_schema mode a native_lang = select_schema (u "dict") a native_lang).
    { unfold select_schema. rewrite (str_eqb_neq mode (u "encyclopedia") Hne).
      reflexivity. }
    split; [ | exact Hs].
    rewrite Hs. unfold select_schema.
    change (str_eqb (u "dict") (u "encyclopedia")) with false. cbv iota.
    repeat match goal with
           | |- context [if ?b then _ else _] => destruct b
           end; discriminate. }
  split.
  - intros Hne Hnot. destruct (Hschema Hne) as [Hs1 Hs2].
    assert (Hm : _normalize_mode mode = u "encyclopedia").
    { unfold _normalize_mode. rewrite Hnot. reflexivity. }
    split; [exact Hs1 | split; [exact Hs2 | split; [exact Hm | split]]].
    + apply prompt_depends_on_normalized_mode. rewrite Hm, normalize_mode_encyclopedia.
      reflexivity.
    + unfold generate_prompt_rule. rewrite Hm, str_eqb_refl. eexists. reflexivity.
  - intros Hdict.
    destruct (Hschema (dictionary_spelling_is_not_encyclopedia mode Hdict)) as [Hs1 Hs2].
    assert (Hm : _normalize_mode mode = u "dict").
    { unfold _normalize_mode. rewrite Hdict. reflexivity. }
    assert (Hp : generate_prompt_rule a education field mode native_lang target_lang
                 = generate_prompt_rule a education field (u "dict")
                     native_lang target_lang).
    { apply prompt_depends_on_normalized_mode. rewrite Hm, normalize_mode_dict.
      reflexivity. }
    split; [exact Hs1 | split; [exact Hs2 | split; [exact Hm | split; [exact Hp | ]]]].
    rewrite Hp. apply dict_prompt_is_not_encyclopedia.
Qed.

End Composer.


(** The mode [Encyclopedia], capitalised: a dictionary schema with the
    encyclopedia instruction. The mode [DICTIONARY] followed by a space:
    the dictionary schema with the dictionary instruction. *)
Lemma mode_dispatches_disagree_witness :
  (select_schema (u "Encyclopedia") apple_analysis (u "ko") <> EncyclopediaResponse
   /\ select_schema (u "Encyclopedia") apple_analysis (u "ko")
      = select_schema (u "dict") apple_analysis (u "ko")
   /\ _normalize_mode (RT := plain_runtime) (u "Encyclopedia") = u "encyclopedia"
   /\ generate_prompt_rule (RT := plain_runtime) apple_analysis
        (u "high") (u "biology") (u "Encyclopedia") (u "ko") (u "en")
      = generate_prompt_rule (RT := plain_runtime) apple_analysis
          (u "high") (u "biology") (u "encyclopedia") (u "ko") (u "en")
   /\ exists header : str,
        generate_prompt_rule (RT := plain_runtime) apple_analysis
          (u "high") (u "biology") (u "Encyclopedia") (u "ko") (u "en")
        = header ++ body_encyclopedia (_join_units (units apple_analysis)) (u "ko")
                      (_education_label (RT := plain_runtime) (u "high")) (u "biology"))
  /\ (select_schema (u "DICTIONARY ") apple_analysis (u "ko") <> EncyclopediaResponse
      /\ select_schema (u "DICTIONARY ") apple_analysis (u "ko")
         = select_schema (u "dict") apple_analysis (u "ko")
      /\ _normalize_mode (RT := plain_runtime) (u "DICTIONARY ") = u "dict"
      /\ generate_prompt_rule (RT := plain_runtime) apple_analysis
           (u "high") (u "biology") (u "DICTIONARY ") (u "ko") (u "en")
         = generate_prompt_rule (RT := plain_runtime) apple_analysis
             (u "high") (u "biology") (u "dict") (u "ko") (u "en")
      /\ generate_prompt_rule (RT := plain_runtime) apple_analysis
           (u "high") (u "biology") (u "DICTIONARY ") (u "ko") (u "en")
         <> generate_prompt_rule (RT := plain_runtime) apple_analysis
              (u "high") (u "biology") (u "encyclopedia") (u "ko") (u "en")).
Proof.
  split.
  - apply (proj1 (mode_dispatches_disagree (RT := plain_runtime) apple_analysis
                    (u "high") (u "biology") (u "Encyclopedia") (u "ko") (u "en"))).
    + vm_compute. discriminate.
    + vm_compute. reflexivity.
  - apply (proj2 (mode_dispatches_disagree (RT := plain_runtime) apple_analysis
                    (u "high") (u "biology") (u "DICTIONARY ") (u "ko") (u "en"))).
    vm_compute. reflexivity.
Defined.

(** The mode [Dict], capitalised, is outside the three spellings, yet both
    dispatches treat it as the dictionary mode: the instruction is the one
    for [dict], not the one for [encyclopedia]. *)
Lemma capitalised_dict_is_dictionary_mode :
  is_in (u "Dict") [u "dict"; u "dictionary"; u "encyclopedia"] = false
  /\ select_schema (u "Dict") apple_analysis (u "ko") = WordDictResponse
  /\ generate_prompt_rule (RT := plain_runtime) apple_analysis
       (u "high") (u "biology") (u "Dict") (u "ko") (u "en")
     = generate_prompt_rule (RT := plain_runtime) apple_analysis
         (u "high") (u "biology") (u "dict") (u "ko") (u "en")
  /\ generate_prompt_rule (RT := plain_runtime) apple_analysis
       (u "high") (u "biology") (u "Dict") (u "ko") (u "en")
     <> generate_prompt_rule (RT := plain_runtime) apple_analysis
          (u "high") (u "biology") (u "encyclopedia") (u "ko") (u "en").
Proof.
  split; [vm_compute; reflexivity | ].
  split; [vm_compute; reflexivity | ].
  split; [vm_compute; reflexivity | ].
  intros E. apply str_eqb_eq in E. vm_compute in E. discriminate.
Defined.

(** ** The digest of a schema answer always renders *)

Section Rendering.
Context {RT : Runtime}.
Import Schemas.

Lemma renders_line (s : str) : Spec.renders (line s) = true.
Proof. reflexivity. Qed.

Lemma renders_nothing : Spec.renders nothing = true.
Proof. reflexivity. Qed.

Lemma renders_seq (a b : block) :
  Spec.renders (a +++ b) = Spec.renders a && Spec.renders b.
Proof.
  destruct a as [la | e]; [ | reflexivity].
  destruct b as [lb | e]; cbn.
  - apply forallb_app.
  - rewrite andb_false_r. reflexivity.
Qed.

Lemma renders_seq_intro (a b : block) :
  Spec.renders a = true -> Spec.renders b = true -> Spec.renders (a +++ b) = true.
Proof. intros Ha Hb. rewrite renders_seq, Ha, Hb. reflexivity. Qed.

Lemma renders_for_each {A} (f : A -> value) (xs : list A) (body : nat -> value -> block) :
  (forall j x, Spec.renders (body j (f x)) = true) ->
  forall i, Spec.renders (for_each i (map f xs) body) = true.
Proof.
  intros H. induction xs as [ | x xs IH]; intros i; cbn [map for_each].
  - reflexivity.
  - apply renders_seq_intro; [apply H | apply IH].
Qed.

Lemma or_list (l : list value) : or_ (VList l) (VList []) = VList l.
Proof. destruct l; reflexivity. Qed.

Lemma or_str (s : str) : or_ (VStr s) (VStr []) = VStr s.
Proof. destruct s; reflexivity. Qed.

Lemma or_none (d : value) : or_ VNone d = d.
Proof. reflexivity. Qed.

Lemma or_dict (p : str * value) (d : list (str * value)) (x : value) :
  or_ (VDict (p :: d)) x = VDict (p :: d).
Proof. reflexivity. Qed.

Lemma tl_map {A B} (f : A -> B) (l : list A) : tl (map f l) = map f (tl l).
Proof. destruct l; reflexivity. Qed.

(** One step of evaluation: a [get] on a dumped record. *)
Ltac get_step :=
  match goal with
  | |- context [get (VDict ?d) ?k] =>
      first [ match d with
              | context [(_, ?v)] => change (get (VDict d) k) with (Ok v)
              end
            | change (get (VDict d) k) with (@Ok value VNone) ]
  end.

Ltac eval_block :=
  repeat first
    [ get_step
    | rewrite or_list
    | rewrite or_str
    | rewrite or_none
    | rewrite or_dict
    | rewrite tl_map
    | progress unfold dump_strs
    | progress cbn [bind fst snd dump_opt_str dump_opt_strs dump_strs dump_opt_examples
                    iter len rest is_none] ].

Lemma renders_bullets (head : str) (l : list str) :
  Spec.renders (bullet_lines head (VList (map VStr l))) = true.
Proof.
  unfold bullet_lines. cbn [iter bind].
  apply renders_for_each. intros j x. reflexivity.
Qed.

Lemma renders_examples (prefix : str) (l : list ExamplePair) :
  Spec.renders (example_lines prefix (VList (map dump_example l))) = true.
Proof.
  unfold example_lines. cbn [iter bind].
  apply renders_for_each. intros j x. unfold dump_example.
  eval_block. reflexivity.
Qed.

Lemma renders_no_bullets (head : str) : Spec.renders (bullet_lines head (VList [])) = true.
Proof. reflexivity. Qed.

Lemma renders_no_examples (prefix : str) :
  Spec.renders (example_lines prefix (VList [])) = true.
Proof. reflexivity. Qed.

Ltac split_seq :=
  match goal with
  | |- Spec.renders (_ +++ _) = true => apply renders_seq_intro
  end.

Ltac render :=
  repeat first
    [ apply renders_line
    | apply renders_nothing
    | apply renders_bullets
    | apply renders_examples
    | apply renders_no_bullets
    | apply renders_no_examples
    | split_seq
    | progress eval_block
    | match goal with
      | |- Spec.renders (if ?c then _ else _) = true => destruct c
      end
    | reflexivity ].

Lemma renders_word_explanations (ws : list WordExplanationItem)
    (core examples alternatives : bool) (prefix : str) :
  Spec.renders (word_explanation_lines (VList (map dump_word_explanation ws))
                  core examples alternatives prefix) = true.
Proof.
  unfold word_explanation_lines.
  destruct (truthy (VList (map dump_word_explanation ws))); [ | reflexivity].
  split_seq; [reflexivity | ]. cbn [iter bind].
  apply renders_for_each. intros j [word meaning expl exs alts].
  unfold dump_word_explanation. cbn [wx_l2_word wx_meaning_l1 wx_explanation_l1
                                      wx_examples wx_alternatives_l2].
  destruct expl, exs, alts; render.
Qed.

Lemma renders_variant (j : nat) (v : WordSenseVariant) :
  Spec.renders (variant_lines j (dump_variant v)) = true.
Proof.
  destruct v as [target expl exs alts]. unfold variant_lines, dump_variant.
  cbn [wv_target_text wv_explanation wv_examples wv_alternatives].
  destruct expl, exs as [[ | ex exs] | ], alts; cbn [dump_opt_examples map];
    repeat split_seq;
    try (eval_block; cbn [first truthy]; unfold dump_example);
    render.
Qed.

Lemma renders_entry (j : nat) (e : WordDictEntry) :
  Spec.renders (entry_lines j (dump_entry e)) = true.
Proof.
  destruct e as [text slang tlang variants]. unfold entry_lines, dump_entry.
  cbn [we_source_text we_source_lang we_target_lang we_variants].
  repeat split_seq; eval_block; try reflexivity.
  split_seq; [reflexivity | ].
  apply renders_for_each. intros i v. apply renders_variant.
Qed.

Lemma renders_word_entries (a : Answer) :
  Spec.renders (word_entries_lines (model_dump a)) = true.
Proof.
  destruct a as [r | r | r | r | r | r]; try reflexivity.
  destruct r as [qa entries]. unfold word_entries_lines, model_dump, dump_word_dict.
  cbn [wd_query_analysis wd_entries]. eval_block.
  split_seq; [reflexivity | ].
  apply renders_for_each. intros i e. apply renders_entry.
Qed.

Lemma renders_sentence_l1_to_l2 (b : SentenceL1toL2Block) (ws : list WordExplanationItem)
    (prefix : str) :
  Spec.renders (render_sentence_l1_to_l2 (dump_block_l1_to_l2 b)
                  (VList (map dump_word_explanation ws)) true true true prefix) = true.
Proof.
  destruct b as [s l1 l2 main alts]. unfold render_sentence_l1_to_l2, dump_block_l1_to_l2.
  cbn [s1_l1_sentence s1_l1_lang s1_l2_lang s1_main_l2_sentence s1_alternative_l2_sentences].
  eval_block. repeat split_seq; eval_block; try reflexivity.
  apply renders_word_explanations.
Qed.

Lemma renders_sentence_l2_to_l1 (b : SentenceL2toL1Block) (ws : list WordExplanationItem)
    (prefix : str) :
  Spec.renders (render_sentence_l2_to_l1 (dump_block_l2_to_l1 b)
                  (VList (map dump_word_explanation ws)) true true true prefix) = true.
Proof.
  destruct b as [qa s l2 l1 main expl]. unfold render_sentence_l2_to_l1, dump_block_l2_to_l1.
  cbn [s2_query_analysis s2_l2_sentence s2_l2_lang s2_l1_lang s2_main_l1_sentence
       s2_sentence_explanation_l1].
  eval_block. repeat split_seq; eval_block; try reflexivity.
  - destruct expl; render.
  - apply renders_word_explanations.
Qed.

Lemma renders_alternative_sentences (head title : str) (b : SentenceL1toL2Block) :
  Spec.renders
    (a <- get (dump_block_l1_to_l2 b) "alternative_l2_sentences" ;;
     let alts := or_ a (VList []) in
     if truthy alts then line title +++ bullet_lines head alts else nothing) = true.
Proof.
  destruct b as [s l1 l2 main alts]. unfold dump_block_l1_to_l2.
  cbn [s1_l1_sentence s1_l1_lang s1_l2_lang s1_main_l2_sentence s1_alternative_l2_sentences].
  destruct alts; render.
Qed.

Lemma renders_sentence_mode (a : Answer) :
  Spec.renders (sentence_mode_lines (model_dump a)) = true.
Proof.
  destruct a as [r | r | r | r | r | r]; try reflexivity.
  - destruct r as [qa b focus ws]. unfold sentence_mode_lines, model_dump, dump_sentence_l1_to_l2.
    cbn [r1_query_analysis r1_sentence r1_l2_focus_sentence r1_word_explanations].
    split_seq; [reflexivity | ]. split_seq; [ | reflexivity].
    eval_block.
    change (or_ (dump_block_l1_to_l2 b) (VDict [])) with (dump_block_l1_to_l2 b).
    change (contains (dump_block_l1_to_l2 b) "l1_sentence") with (@Ok bool true).
    cbn [bind]. split_seq.
    + apply renders_sentence_l1_to_l2.
    + apply renders_alternative_sentences.
  - destruct r as [b focus ws]. unfold sentence_mode_lines, model_dump, dump_sentence_l2_to_l1.
    cbn [r2_sentence r2_l2_focus_sentence r2_word_explanations].
    split_seq; [reflexivity | ]. split_seq; [ | reflexivity].
    eval_block.
    change (or_ (dump_block_l2_to_l1 b) (VDict [])) with (dump_block_l2_to_l1 b).
    change (contains (dump_block_l2_to_l1 b) "l1_sentence") with (@Ok bool false).
    change (contains (dump_block_l2_to_l1 b) "l2_sentence") with (@Ok bool true).
    change (contains (dump_block_l2_to_l1 b) "main_l1_sentence") with (@Ok bool true).
    cbn [bind andb]. apply renders_sentence_l2_to_l1.
Qed.

Lemma renders_card_l1_to_l2 (i : nat) (card : SentenceL1toL2) :
  Spec.renders
    (line (u "--- Sentence Card #" ++ str_of_nat (i + 1) ++ u " ---")
     +++ (sw <- card_parts (dump_sentence_l1_to_l2 card) ;;
          let sent_block := fst sw in
          let we := snd sw in
          render_sentence_l1_to_l2 sent_block we true true true (u "  ")
          +++ (a <- get sent_block "alternative_l2_sentences" ;;
               let alts := or_ a (VList []) in
               if truthy alts then
                 line (u "  alternative_l2_sentences:") +++ bullet_lines (u "    - ") alts
               else nothing))) = true.
Proof.
  destruct card as [qa b focus ws]. split_seq; [reflexivity | ].
  unfold card_parts, dump_sentence_l1_to_l2.
  cbn [r1_query_analysis r1_sentence r1_l2_focus_sentence r1_word_explanations].
  rewrite or_dict. eval_block.
  change (or_ (dump_block_l1_to_l2 b) (VDict [])) with (dump_block_l1_to_l2 b).
  cbn [bind fst snd]. split_seq.
  - apply renders_sentence_l1_to_l2.
  - apply renders_alternative_sentences.
Qed.

Lemma renders_card_l2_to_l1 (i : nat) (card : SentenceL2toL1) :
  Spec.renders
    (line (u "--- Sentence Card #" ++ str_of_nat (i + 1) ++ u " ---")
     +++ (sw <- card_parts (dump_sentence_l2_to_l1 card) ;;
          render_sentence_l2_to_l1 (fst sw) (snd sw) true true true (u "  "))) = true.
Proof.
  destruct card as [b focus ws]. split_seq; [reflexivity | ].
  unfold card_parts, dump_sentence_l2_to_l1.
  cbn [r2_sentence r2_l2_focus_sentence r2_word_explanations].
  rewrite or_dict. eval_block.
  change (or_ (dump_block_l2_to_l1 b) (VDict [])) with (dump_block_l2_to_l1 b).
  cbn [bind fst snd]. apply renders_sentence_l2_to_l1.
Qed.

Lemma renders_paragraph_mode (a : Answer) :
  Spec.renders (paragraph_mode_lines (model_dump a)) = true.
Proof.
  destruct a as [r | r | r | r | r | r]; try reflexivity.
  - destruct r as [qa par l1 l2 cards].
    unfold paragraph_mode_lines, model_dump, dump_paragraph_l1_to_l2.
    cbn [p1_query_analysis p1_l1_paragraph p1_l1_lang p1_l2_lang p1_sentence_cards].
    split_seq; [reflexivity | ].
    match goal with
    | |- context [contains ?d "l1_paragraph"] =>
        change (contains d "l1_paragraph") with (@Ok bool true)
    end.
    cbn [bind]. unfold paragraph_l1_to_l2_lines.
    repeat split_seq; eval_block; try reflexivity.
    split_seq; [reflexivity | ].
    apply renders_for_each. intros i card. apply renders_card_l1_to_l2.
  - destruct r as [qa par l2 l1 tr expl cards].
    unfold paragraph_mode_lines, model_dump, dump_paragraph_l2_to_l1.
    cbn [p2_query_analysis p2_l2_paragraph p2_l2_lang p2_l1_lang p2_paragraph_l1_translation
         p2_paragraph_content_explanation_l1 p2_sentence_cards].
    split_seq; [reflexivity | ].
    match goal with
    | |- context [contains ?d "l1_paragraph"] =>
        change (contains d "l1_paragraph") with (@Ok bool false);
        change (contains d "l2_paragraph") with (@Ok bool true)
    end.
    cbn [bind]. unfold paragraph_l2_to_l1_lines.
    repeat split_seq; eval_block; try reflexivity.
    + destruct expl; render.
    + apply renders_for_each. intros i card. apply renders_card_l2_to_l1.
Qed.

Lemma any_analogy_total (ks : list KeyTerm) :
  exists b : bool, any_analogy (map dump_key_term ks) = Ok b.
Proof.
  induction ks as [ | k ks [b IH]]; [exists false; reflexivity | ].
  destruct k as [term definition analogy]. cbn [map any_analogy]. unfold dump_key_term.
  cbn [kt_term kt_definition kt_analogy]. eval_block.
  destruct (truthy (dump_opt_str analogy)); [exists true; reflexivity | ].
  exists b. exact IH.
Qed.

Lemma renders_optional_section (d : list (str * value)) (key : string) (o : option str) :
  get (VDict d) key = Ok (dump_opt_str o) ->
  Spec.renders (optional_section (VDict d) key) = true.
Proof.
  intros H. unfold optional_section. rewrite H. cbn [bind].
  destruct o as [s | ]; [ | reflexivity]. cbn [dump_opt_str].
  destruct (truthy (VStr s)); [ | reflexivity]. rewrite or_str. reflexivity.
Qed.

Lemma renders_missing_section (d : list (str * value)) (key : string) :
  get (VDict d) key = Ok VNone ->
  Spec.renders (optional_section (VDict d) key) = true.
Proof. intros H. exact (renders_optional_section d key None H). Qed.

Lemma renders_encyclopedia (a : Answer) :
  Spec.renders (encyclopedia_lines (model_dump a)) = true.
Proof.
  destruct a as [r | r | r | r | r | r]; try reflexivity.
  destruct r as [qa input ks expl usage notes].
  unfold encyclopedia_lines, model_dump, dump_encyclopedia.
  cbn [en_query_analysis en_input_text en_key_terms en_simplified_explanation
       en_usage_context en_extra_notes].
  split_seq; [reflexivity | ]. eval_block. repeat split_seq; try reflexivity;
    try (apply (renders_optional_section _ "input_text" (Some input)); reflexivity);
    try (apply (renders_optional_section _ "usage_context" usage); reflexivity);
    try (apply (renders_optional_section _ "extra_notes" notes); reflexivity);
    try (eval_block; reflexivity);
    (destruct (truthy (VList (map dump_key_term ks))); [ | reflexivity]).
  - split_seq; [reflexivity | ]. eval_block.
    apply renders_for_each. intros j [term definition analogy]. unfold dump_key_term.
    cbn [kt_term kt_definition kt_analogy]. render.
  - eval_block. destruct (any_analogy_total ks) as [b Hb]. rewrite Hb. cbn [bind].
    destruct b; [ | reflexivity].
    repeat split_seq; try reflexivity.
    apply renders_for_each. intros j [term definition analogy]. unfold dump_key_term.
    cbn [kt_term kt_definition kt_analogy]. eval_block.
    destruct (truthy (dump_opt_str analogy)); [ | reflexivity]. render.
Qed.

Lemma renders_header (a : Answer) (mode_norm qtype : str) :
  Spec.renders (header_lines (model_dump a) mode_norm qtype) = true.
Proof.
  destruct a as [r | r | r | r | r | r]; reflexivity.
Qed.

(** Whatever the mode and the query type, the lines of a schema answer
    render. *)
Lemma renders_digest_lines (a : Answer) (mode query_type : str) :
  Spec.renders (digest_lines (model_dump a) mode query_type) = true.
Proof.
  unfold digest_lines. split_seq; [apply renders_header | ].
  destruct (str_eqb (lower (strip mode)) (u "dict")); [ | apply renders_encyclopedia].
  destruct (is_in (lower (strip query_type)) lexical_types); [apply renders_word_entries | ].
  destruct (str_eqb (lower (strip query_type)) (u "sentence"));
    [apply renders_sentence_mode | apply renders_paragraph_mode].
Qed.

Lemma strs_of_total (ls : list value) :
  forallb Spec.is_str ls = true -> exists ss : list str, strs_of ls = Ok ss.
Proof.
  induction ls as [ | v ls IH]; intros H; [exists []; reflexivity | ].
  cbn [forallb] in H. apply andb_true_iff in H. destruct H as [Hv Hls].
  destruct v; try discriminate. destruct (IH Hls) as [ss Hss].
  exists (s :: ss). cbn [strs_of]. rewrite Hss. reflexivity.
Qed.

Lemma full_digest_total (a : Answer) (mode query_type : str) :
  exists full : str, full_digest (model_dump a) mode query_type = Ok full.
Proof.
  pose proof (renders_digest_lines a mode query_type) as H.
  unfold full_digest, join_values.
  destruct (digest_lines (model_dump a) mode query_type) as [ls | e]; [ | discriminate].
  destruct (strs_of_total ls H) as [ss Hss]. cbn [bind]. rewrite Hss.
  eexists. reflexivity.
Qed.

(** C1, as the code has it: for every answer of the six schemas, every
    mode and every query type, the rendering succeeds and a digest is
    returned, of at most 4029 characters: the 4000 kept characters plus
    the 29 of the marker. A rendering of at most 4000 characters is
    returned as it is; a longer one is cut to its first 4000 characters,
    followed by the fixed marker, so what is lost is lost from the end. *)
Theorem digest_is_cut_at_4000 (a : Answer) (mode query_type : str) :
  exists full digest : str,
    full_digest (model_dump a) mode query_type = Ok full
    /\ build_verifier_answer_text (model_dump a) mode query_type = Ok digest
    /\ length digest <= 4029
    /\ (length full <= 4000 -> digest = full)
    /\ (4000 < length full ->
        digest = firstn 4000 full ++ TRUNCATION_MARKER /\ length digest = 4029).
Proof.
  destruct (full_digest_total a mode query_type) as [full Hfull].
  destruct (cut_of_rendering (model_dump a) mode query_type full Hfull) as [digest H].
  exists full, digest. split; [exact Hfull | exact H].
Qed.

End Rendering.

(** The 5000-character explanation is rendered and cut. *)
Lemma digest_is_cut_at_4000_witness :
  exists full digest : str,
    full_digest (RT := plain_runtime) (Schemas.model_dump long_answer)
      (u "encyclopedia") (u "word") = Ok full
    /\ build_verifier_answer_text (RT := plain_runtime) (Schemas.model_dump long_answer)
         (u "encyclopedia") (u "word") = Ok digest
    /\ length digest <= 4029
    /\ (length full <= 4000 -> digest = full)
    /\ (4000 < length full ->
        digest = firstn 4000 full ++ TRUNCATION_MARKER /\ length digest = 4029).
Proof.
  exact (digest_is_cut_at_4000 (RT := plain_runtime) long_answer
           (u "encyclopedia") (u "word")).
Defined.

(** The digest of the 5000-character explanation has 4029 characters:
    more than 4000. *)
Lemma long_digest_exceeds_4000 :
  exists digest : str,
    build_verifier_answer_text (RT := plain_runtime) (Schemas.model_dump long_answer)
      (u "encyclopedia") (u "word") = Ok digest
    /\ length digest = 4029
    /\ ~ length digest <= 4000.
Proof.
  eexists. split; [vm_compute; reflexivity | ].
  assert (E : forall (n : nat) (l : str), length l = n -> n = 4029 ->
                         length l = 4029 /\ ~ length l <= 4000)
    by (intros n l H1 H2; lia).
  eapply E; [reflexivity | vm_compute; reflexivity].
Defined.

(* ===================================================================== *)
(** * Further properties of the code                                       *)
(* ===================================================================== *)

Import Notions.

(** ** Trimming *)

Section Trimming.

Lemma lstrip_suffix (s : str) :
  exists p, s = p ++ lstrip s /\ forallb isspace p = true.
Proof.
  induction s as [ | c s [p [E Hp]]]; [exists []; split; reflexivity | ].
  simpl. destruct (isspace c) eqn:Ec.
  - exists (c :: p). split; [simpl; rewrite <- E; reflexivity | ].
    simpl. rewrite Ec, Hp. reflexivity.
  - exists []. split; reflexivity.
Qed.

Lemma lstrip_head (s : str) (c : char) (r : str) :
  lstrip s = c :: r -> isspace c = false.
Proof.
  induction s as [ | x s IH]; simpl; [discriminate | ].
  destruct (isspace x) eqn:Ex; [exact IH | ].
  intros E. inversion E; subst. exact Ex.
Qed.

Lemma forallb_rev_eq {A} (f : A -> bool) (l : list A) : forallb f (rev l) = forallb f l.
Proof.
  induction l as [ | x l IH]; simpl; [reflexivity | ].
  rewrite forallb_app, IH. simpl. rewrite andb_true_r. apply andb_comm.
Qed.

Lemma forallb_lstrip (f : char -> bool) (s : str) :
  forallb f s = true -> forallb f (lstrip s) = true.
Proof.
  induction s as [ | c s IH]; simpl; [intros H; exact H | ].
  intros H. apply andb_true_iff in H. destruct H as [Hc Hs].
  destruct (isspace c); [apply IH; exact Hs | ].
  simpl. rewrite Hc, Hs. reflexivity.
Qed.

Lemma forallb_strip (f : char -> bool) (s : str) :
  forallb f s = true -> forallb f (strip s) = true.
Proof.
  intros H. unfold strip, rstrip. rewrite forallb_rev_eq. apply forallb_lstrip.
  rewrite forallb_rev_eq. apply forallb_lstrip. exact H.
Qed.

Lemma length_lstrip (s : str) : length (lstrip s) <= length s.
Proof.
  induction s as [ | c s IH]; simpl; [lia | ].
  destruct (isspace c); simpl; lia.
Qed.

Lemma length_strip (s : str) : length (strip s) <= length s.
Proof.
  unfold strip, rstrip. rewrite length_rev.
  pose proof (length_lstrip (rev (lstrip s))) as H1. rewrite length_rev in H1.
  pose proof (length_lstrip s). lia.
Qed.

(** What [strip] returns is empty, or begins and ends with a character
    that is not whitespace. *)
Lemma strip_shape (s : str) :
  strip s = []
  \/ ((exists c r, strip s = c :: r /\ isspace c = false)
      /\ (exists r d, strip s = r ++ [d] /\ isspace d = false)).
Proof.
  unfold strip, rstrip.
  destruct (lstrip (rev (lstrip s))) as [ | d b] eqn:Eb; [left; reflexivity | right].
  pose proof (lstrip_head _ _ _ Eb) as Hd.
  split; [ | exists (rev b), d; split; [reflexivity | exact Hd]].
  destruct (lstrip_suffix (rev (lstrip s))) as [p [E Hp]]. rewrite Eb in E.
  apply (f_equal (@rev char)) in E. rewrite rev_involutive, rev_app_distr in E.
  destruct (rev (d :: b)) as [ | c r] eqn:Er.
  - apply (f_equal (@length char)) in Er. rewrite length_rev in Er. discriminate.
  - exists c, r. split; [reflexivity | ].
    simpl in E. exact (lstrip_head s c (r ++ rev p) E).
Qed.

Lemma strip_fixed (s : str) :
  s = []
  \/ ((exists c r, s = c :: r /\ isspace c = false)
      /\ (exists r d, s = r ++ [d] /\ isspace d = false)) ->
  strip s = s.
Proof.
  intros [E | [[c [r [E Hc]]] [r' [d [E' Hd]]]]]; [subst; reflexivity | ].
  unfold strip, rstrip.
  assert (Hl : lstrip s = s) by (subst s; simpl; rewrite Hc; reflexivity).
  rewrite Hl. rewrite E' at 1. rewrite rev_app_distr. simpl. rewrite Hd.
  change (d :: rev r') with (rev [d] ++ rev r'). rewrite <- rev_app_distr, rev_involutive.
  symmetry. exact E'.
Qed.

Lemma strip_idempotent (s : str) : strip (strip s) = strip s.
Proof. apply strip_fixed. apply strip_shape. Qed.

Lemma has_nonspace_false_strip (s : str) : has_nonspace s = false -> strip s = [].
Proof.
  intros H. pose proof (nonempty_strip s) as E. rewrite H in E.
  destruct (strip s); [reflexivity | discriminate].
Qed.

End Trimming.

(** ** Normalization *)

Section Normalization.

Lemma blank_is_space (c : char) : blank c = true -> isspace c = true.
Proof.
  unfold blank. intros H. apply orb_true_iff in H.
  destruct H as [H | H]; apply N.eqb_eq in H; subst; reflexivity.
Qed.

Lemma collapse_step (b : bool) (c : char) (s : str) :
  collapse_blanks b (c :: s) =
    if blank c then (if b then collapse_blanks true s else 32%N :: collapse_blanks true s)
    else c :: collapse_blanks false s.
Proof. reflexivity. Qed.

Lemma replace_cr_no_cr (s : str) : forallb (fun c => negb (c =? 13)%N) (replace_cr s) = true.
Proof.
  unfold replace_cr. induction s as [ | c s IH]; simpl; [reflexivity | ].
  rewrite IH, andb_true_r. destruct (c =? 13)%N eqn:E; [reflexivity | rewrite E; reflexivity].
Qed.

Lemma replace_cr_fixed (s : str) :
  forallb (fun c => negb (c =? 13)%N) s = true -> replace_cr s = s.
Proof.
  unfold replace_cr. induction s as [ | c s IH]; simpl; [reflexivity | ].
  intros H. apply andb_true_iff in H. destruct H as [Hc Hs].
  rewrite (IH Hs). destruct (c =? 13)%N; [discriminate | reflexivity].
Qed.

Lemma replace_crlf_fixed (s : str) :
  forallb (fun c => negb (c =? 13)%N) s = true -> replace_crlf s = s.
Proof.
  induction s as [ | c s IH]; [reflexivity | ].
  intros H. simpl in H. apply andb_true_iff in H. destruct H as [Hc Hs].
  cbn [replace_crlf]. destruct s as [ | d r]; [reflexivity | ].
  destruct (c =? 13)%N; [discriminate | ]. cbn [andb].
  rewrite (IH Hs). reflexivity.
Qed.

Lemma collapse_forallb (f : char -> bool) (b : bool) (s : str) :
  f 32%N = true -> forallb f s = true -> forallb f (collapse_blanks b s) = true.
Proof.
  intros H32. revert b. induction s as [ | c s IH]; intros b H; [reflexivity | ].
  simpl in H. apply andb_true_iff in H. destruct H as [Hc Hs].
  rewrite collapse_step. destruct (blank c).
  - destruct b; [apply IH; exact Hs | ]. simpl. rewrite H32. apply IH. exact Hs.
  - simpl. rewrite Hc. apply IH. exact Hs.
Qed.

Lemma collapse_no_tab (b : bool) (s : str) :
  forallb (fun c => negb (c =? 9)%N) (collapse_blanks b s) = true.
Proof.
  revert b. induction s as [ | c s IH]; intros b; [reflexivity | ].
  rewrite collapse_step. destruct (blank c) eqn:Eb.
  - destruct b; [apply IH | ]. simpl. apply IH.
  - simpl. rewrite IH, andb_true_r. unfold blank in Eb.
    apply orb_false_iff in Eb. destruct Eb as [_ E]. rewrite E. reflexivity.
Qed.

Lemma collapse_single_spaced (b : bool) (s : str) :
  single_spaced b (collapse_blanks b s) = true.
Proof.
  revert b. induction s as [ | c s IH]; intros b; [reflexivity | ].
  rewrite collapse_step. destruct (blank c) eqn:Eb.
  - destruct b; [apply IH | ]. simpl. apply IH.
  - simpl. unfold blank in Eb. apply orb_false_iff in Eb. destruct Eb as [E _].
    rewrite E. apply IH.
Qed.

Lemma single_spaced_weaken (s : str) :
  single_spaced true s = true -> single_spaced false s = true.
Proof.
  destruct s as [ | c r]; [reflexivity | ]. simpl.
  destruct (c =? 32)%N; [discriminate | intros H; exact H].
Qed.

Lemma single_spaced_no_pair (b : bool) (s : str) :
  single_spaced b s = true -> is_substring [32%N; 32%N] s = false.
Proof.
  revert b. induction s as [ | c r IH]; intros b H; [reflexivity | ].
  simpl in H. cbn [is_substring is_prefix].
  destruct (c =? 32)%N eqn:Ec.
  - apply andb_true_iff in H. destruct H as [_ H].
    rewrite (IH true H), orb_false_r. rewrite N.eqb_sym, Ec. cbn [andb].
    destruct r as [ | d r']; [reflexivity | ]. simpl in H.
    destruct (d =? 32)%N eqn:Ed; [discriminate | ].
    rewrite N.eqb_sym, Ed. reflexivity.
  - rewrite (IH false H), orb_false_r. rewrite N.eqb_sym, Ec. reflexivity.
Qed.

Lemma collapse_fixed (b : bool) (s : str) :
  forallb (fun c => negb (c =? 9)%N) s = true ->
  single_spaced b s = true ->
  collapse_blanks b s = s.
Proof.
  revert b. induction s as [ | c s IH]; intros b Ht Hs; [reflexivity | ].
  simpl in Ht. apply andb_true_iff in Ht. destruct Ht as [Hc Ht].
  rewrite collapse_step. unfold blank. simpl in Hs.
  destruct (c =? 9)%N; [discriminate | ]. rewrite orb_false_r.
  destruct (c =? 32)%N eqn:Ec.
  - apply andb_true_iff in Hs. destruct Hs as [Hb Hs].
    destruct b; [discriminate | ]. apply N.eqb_eq in Ec. subst c.
    rewrite (IH true Ht Hs). reflexivity.
  - rewrite (IH false Ht Hs). reflexivity.
Qed.

Lemma collapse_snoc (b : bool) (r : str) (d : char) :
  blank d = false -> collapse_blanks b (r ++ [d]) = collapse_blanks b r ++ [d].
Proof.
  intros Hd. revert b. induction r as [ | c r IH]; intros b.
  - simpl app. rewrite collapse_step, Hd. reflexivity.
  - change ((c :: r) ++ [d]) with (c :: (r ++ [d])).
    rewrite (collapse_step b c (r ++ [d])), (collapse_step b c r).
    destruct (blank c).
    + destruct b; rewrite IH; reflexivity.
    + rewrite IH. reflexivity.
Qed.

Lemma not_space_not_blank (c : char) : isspace c = false -> blank c = false.
Proof.
  intros H. destruct (blank c) eqn:E; [ | reflexivity].
  apply blank_is_space in E. congruence.
Qed.

Lemma collapse_trimmed (s : str) : strip s = s -> strip (collapse_blanks false s) = collapse_blanks false s.
Proof.
  intros Hs. apply strip_fixed.
  destruct (strip_shape s) as [E | [[c [r [E Hc]]] [r' [d [E' Hd]]]]]; rewrite Hs in *.
  - subst. left. reflexivity.
  - right. split.
    + exists c, (collapse_blanks false r). split; [ | exact Hc].
      rewrite E, collapse_step, (not_space_not_blank c Hc). reflexivity.
    + exists (collapse_blanks false r'), d. split; [ | exact Hd].
      rewrite E'. apply collapse_snoc. apply not_space_not_blank. exact Hd.
Qed.

Lemma normalize_no_cr (text : str) :
  forallb (fun c => negb (c =? 13)%N) (_normalize text) = true.
Proof.
  unfold _normalize. apply collapse_forallb; [reflexivity | ].
  apply forallb_strip. apply replace_cr_no_cr.
Qed.

Lemma normalize_trimmed (text : str) : strip (_normalize text) = _normalize text.
Proof. unfold _normalize. apply collapse_trimmed. apply strip_idempotent. Qed.

(** X1: a normalized text has no carriage return and no tab, never two
    spaces in a row, and no whitespace at either end. *)
Theorem normalized_text_is_clean (text : str) :
  forallb (fun c => negb (c =? 13)%N && negb (c =? 9)%N) (_normalize text) = true
  /\ is_substring (u "  ") (_normalize text) = false
  /\ Notions.trimmed (_normalize text).
Proof.
  split; [ | split].
  - pose proof (normalize_no_cr text) as H1.
    assert (H2 : forallb (fun c => negb (c =? 9)%N) (_normalize text) = true)
      by (unfold _normalize; apply collapse_no_tab).
    rewrite forallb_forall in *. intros c Hc. rewrite (H1 c Hc), (H2 c Hc). reflexivity.
  - change (u "  ") with [32%N; 32%N]. unfold _normalize.
    apply (single_spaced_no_pair false). apply collapse_single_spaced.
  - apply normalize_trimmed.
Qed.

(** A text is left as it is when it has no carriage return and no tab,
    no whitespace at either end and no two spaces in a row. *)
Lemma normalize_of_clean (text : str) :
  forallb (fun c => negb (c =? 13)%N) text = true ->
  strip text = text ->
  forallb (fun c => negb (c =? 9)%N) text = true ->
  single_spaced false text = true ->
  _normalize text = text.
Proof.
  intros Hcr Hs Ht Hsp. unfold _normalize.
  rewrite (replace_crlf_fixed _ Hcr), (replace_cr_fixed _ Hcr), Hs.
  apply collapse_fixed; assumption.
Qed.

(** X2: normalizing twice is normalizing once. *)
Theorem normalize_idempotent (text : str) :
  _normalize (_normalize text) = _normalize text.
Proof.
  apply normalize_of_clean.
  - apply normalize_no_cr.
  - apply normalize_trimmed.
  - unfold _normalize. apply collapse_no_tab.
  - unfold _normalize. apply collapse_single_spaced.
Qed.

End Normalization.

(** ** The outcome of the analysis *)

Section Outcome.

Lemma has_nonspace_cons (c : char) (s : str) :
  has_nonspace (c :: s) = negb (isspace c) || has_nonspace s.
Proof. reflexivity. Qed.

Lemma has_nonspace_replace_cr (s : str) : has_nonspace (replace_cr s) = has_nonspace s.
Proof.
  unfold replace_cr. induction s as [ | c s IH]; [reflexivity | ].
  cbn [map]. rewrite !has_nonspace_cons, IH.
  destruct (c =? 13)%N eqn:E; [ | reflexivity].
  apply N.eqb_eq in E. subst c. reflexivity.
Qed.

Lemma replace_crlf_step (c d : char) (r : str) :
  replace_crlf (c :: d :: r)
  = if ((c =? 13) && (d =? 10))%N then 10%N :: replace_crlf r
    else c :: replace_crlf (d :: r).
Proof. reflexivity. Qed.

Lemma has_nonspace_replace_crlf_upto (n : nat) (s : str) :
  length s <= n -> has_nonspace (replace_crlf s) = has_nonspace s.
Proof.
  revert s. induction n as [ | n IH]; intros [ | c [ | d r]] H; try reflexivity;
    simpl in H; try lia.
  rewrite replace_crlf_step. destruct ((c =? 13) && (d =? 10))%N eqn:E.
  - apply andb_true_iff in E. destruct E as [Ec Ed].
    apply N.eqb_eq in Ec. apply N.eqb_eq in Ed. subst c d.
    rewrite !has_nonspace_cons. change (isspace 13%N) with true.
    change (isspace 10%N) with true. cbn [negb orb]. apply IH. lia.
  - rewrite (has_nonspace_cons c (replace_crlf (d :: r))), IH by (simpl; lia).
    reflexivity.
Qed.

Lemma has_nonspace_replace_crlf (s : str) : has_nonspace (replace_crlf s) = has_nonspace s.
Proof. apply (has_nonspace_replace_crlf_upto (length s)). apply Nat.le_refl. Qed.

Lemma collapse_nil (s : str) : collapse_blanks false s = [] -> s = [].
Proof.
  destruct s as [ | c s]; [reflexivity | ].
  rewrite collapse_step. destruct (blank c); discriminate.
Qed.

(** The normalized text is empty exactly when the text has nothing but
    whitespace. *)
Lemma normalize_nil_iff (text : str) : _normalize text = [] <-> has_nonspace text = false.
Proof.
  rewrite <- (has_nonspace_replace_crlf text), <- (has_nonspace_replace_cr (replace_crlf text)).
  unfold _normalize. split; intros H.
  - apply collapse_nil in H. rewrite <- nonempty_strip, H. reflexivity.
  - rewrite (has_nonspace_false_strip _ H). reflexivity.
Qed.

Lemma new_result_outcome (raw normalized qtype : str) (us : list str) (lang : str) :
  is_in qtype QueryType_values = true ->
  QueryAnalysisResult_new raw normalized qtype us (Some lang)
  = if is_in lang LangCode_values
    then Ok {| raw_query := raw; normalized_query := normalized; query_type := qtype;
               units := us; query_lang := Some lang |}
    else Raise ValidationError.
Proof. intros H. unfold QueryAnalysisResult_new. rewrite H. reflexivity. Qed.

(** With a detected language outside the four codes, the result object is
    refused, whichever way the query is classified. *)
Lemma analyze_query_refused (q native_lang target_lang : str) :
  _normalize q <> [] ->
  is_in (detect_lang (_normalize q) native_lang target_lang) LangCode_values = false ->
  analyze_query q native_lang target_lang = Raise ValidationError.
Proof.
  intros Hne Hlang. unfold analyze_query.
  destruct (_normalize q) as [ | c t] eqn:Et; [contradiction | ].
  cbv beta iota zeta. unfold QueryAnalysisResult_new. rewrite Hlang, !andb_false_r.
  repeat match goal with
         | |- context [if ?b then _ else _] => destruct b
         end; reflexivity.
Qed.

(** What a successful analysis says about its input. *)
Lemma analyze_query_ok_inv (q native_lang target_lang : str) (a : QueryAnalysisResult) :
  analyze_query q native_lang target_lang = Ok a ->
  _normalize q <> []
  /\ is_in (detect_lang (_normalize q) native_lang target_lang) LangCode_values = true.
Proof.
  intros H.
  assert (Hne : _normalize q <> []).
  { intros E. unfold analyze_query in H. rewrite E in H. discriminate. }
  split; [exact Hne | ].
  destruct (is_in (detect_lang (_normalize q) native_lang target_lang) LangCode_values)
    eqn:Hl; [reflexivity | ].
  rewrite (analyze_query_refused q native_lang target_lang Hne Hl) in H. discriminate.
Qed.

Lemma analyze_query_fields (q native_lang target_lang : str) (a : QueryAnalysisResult) :
  analyze_query q native_lang target_lang = Ok a ->
  raw_query a = q
  /\ normalized_query a = _normalize q
  /\ query_lang a = Some (detect_lang (_normalize q) native_lang target_lang).
Proof.
  intros H. destruct (analyze_query_ok_inv _ _ _ _ H) as [Hne Hl].
  rewrite (analyze_query_eq q native_lang target_lang Hne Hl) in H.
  apply (f_equal (fun r => match r with Ok x => x | Raise _ => a end)) in H.
  cbv beta iota in H. subst a.
  repeat match goal with
         | |- context [if ?b then _ else _] => destruct b
         end; repeat split; reflexivity.
Qed.

(** X3: the analysis fails in two ways only. A query with nothing but
    whitespace raises the ValueError of the empty query; any other query
    gives a result when the detected language is one of the four codes,
    and the ValidationError of the result object when it is not. *)
Theorem analyze_query_outcome (q native_lang target_lang : str) :
  (has_nonspace q = false ->
   analyze_query q native_lang target_lang
   = Raise (ValueError (u "QueryAnalyzer: query가 비어 있습니다.")))
  /\ (has_nonspace q = true ->
      is_in (detect_lang (_normalize q) native_lang target_lang) LangCode_values = true ->
      exists a, analyze_query q native_lang target_lang = Ok a)
  /\ (has_nonspace q = true ->
      is_in (detect_lang (_normalize q) native_lang target_lang) LangCode_values = false ->
      analyze_query q native_lang target_lang = Raise ValidationError).
Proof.
  split; [ | split].
  - intros H. apply normalize_nil_iff in H. unfold analyze_query. rewrite H. reflexivity.
  - intros H Hl.
    assert (Hne : _normalize q <> []).
    { intros E. apply normalize_nil_iff in E. congruence. }
    rewrite (analyze_query_eq q native_lang target_lang Hne Hl). eexists. reflexivity.
  - intros H Hl. apply analyze_query_refused; [ | exact Hl].
    intros E. apply normalize_nil_iff in E. congruence.
Qed.

Lemma stripped_nonempty_trimmed (parts : list str) (x : str) :
  In x (stripped_nonempty parts) -> strip x = x.
Proof.
  unfold stripped_nonempty. intros H. apply in_map_iff in H.
  destruct H as [p [Hx _]]. subst x. apply strip_idempotent.
Qed.

Lemma split_sentences_units (text : str) (lang : option str) (x : str) :
  In x (_split_sentences text lang) -> x <> [] /\ strip x = x.
Proof.
  unfold _split_sentences. destruct text as [ | c t]; [intros H; destruct H | ].
  intros H. split; [exact (stripped_nonempty_all _ x H) | exact (stripped_nonempty_trimmed _ x H)].
Qed.

Lemma list_candidates_units (text x : str) :
  In x (_split_list_candidates text) -> x <> [] /\ strip x = x.
Proof.
  unfold _split_list_candidates. intros H.
  split; [exact (stripped_nonempty_all _ x H) | exact (stripped_nonempty_trimmed _ x H)].
Qed.

(** X4: every result of the analysis is well formed: it keeps the raw
    query and its normalized text, its type is one of the six, its
    language is one of the four codes and is the native or the target
    language, and its units are a non-empty list of non-empty strings
    without whitespace at either end. *)
Theorem analysis_is_well_formed (q native_lang target_lang : str) (a : QueryAnalysisResult) :
  analyze_query q native_lang target_lang = Ok a ->
  raw_query a = q
  /\ normalized_query a = _normalize q
  /\ is_in (query_type a) QueryType_values = true
  /\ (exists lang, query_lang a = Some lang
                   /\ is_in lang LangCode_values = true
                   /\ (lang = native_lang \/ lang = target_lang))
  /\ units a <> []
  /\ Forall (fun unit => unit <> [] /\ Notions.trimmed unit) (units a).
Proof.
  intros H. destruct (analyze_query_fields _ _ _ _ H) as [Hraw [Hnorm Hlang]].
  destruct (analyze_query_ok_inv _ _ _ _ H) as [Hne Hl].
  split; [exact Hraw | split; [exact Hnorm | ]].
  split; [ | split].
  2: { eexists. split; [exact Hlang | split; [exact Hl | ]]. apply detect_lang_cases. }
  all: clear Hraw Hnorm Hlang;
    rewrite (analyze_query_eq q native_lang target_lang Hne Hl) in H;
    apply (f_equal (fun r => match r with Ok x => x | Raise _ => a end)) in H;
    cbv beta iota in H; subst a;
    set (text := _normalize q) in *;
    set (lang := detect_lang text native_lang target_lang) in *;
    set (items := _split_list_candidates text) in *;
    destruct (_looks_like_paragraph text (Some lang)) eqn:Hp;
    [ | destruct ((2 <=? length items)
                  && (length (filter (fun it => _looks_like_sentence it (Some lang)) items)
                      =? 0)) eqn:Hlist ];
    cbn [query_type units].
  - reflexivity.
  - destruct (decide_list_type_values items (Some lang)) as [E | E]; rewrite E; reflexivity.
  - destruct (_looks_like_sentence text (Some lang)); [reflexivity | ].
    destruct (decide_word_or_phrase_values text (Some lang)) as [E | E];
      rewrite E; reflexivity.
  - split; [exact (looks_like_paragraph_has_sentences text (Some lang) Hp) | ].
    apply Forall_forall. intros x Hx. exact (split_sentences_units _ _ x Hx).
  - apply andb_true_iff in Hlist. destruct Hlist as [H2 _]. apply Nat.leb_le in H2.
    split.
    { intros E. rewrite E in H2. simpl in H2. lia. }
    apply Forall_forall. intros x Hx. exact (list_candidates_units _ x Hx).
  - split; [discriminate | ].
    constructor; [ | constructor].
    split; [exact Hne | ]. apply normalize_trimmed.
Qed.

(** X24: an analysis is stable under normalization: analysing again the
    normalized text of an analysed query gives the same type, units and
    language, with this text as both the raw and the normalized query. *)
Theorem analysis_of_the_normalized_query (q native_lang target_lang : str)
    (a : QueryAnalysisResult) :
  analyze_query q native_lang target_lang = Ok a ->
  analyze_query (normalized_query a) native_lang target_lang
  = Ok {| raw_query := normalized_query a;
          normalized_query := normalized_query a;
          query_type := query_type a;
          units := units a;
          query_lang := query_lang a |}.
Proof.
  intros H. destruct (analyze_query_ok_inv _ _ _ _ H) as [Hne Hl].
  destruct (analyze_query_fields _ _ _ _ H) as [_ [Hnorm _]]. rewrite Hnorm.
  assert (Hfix : _normalize (_normalize q) = _normalize q).
  { apply normalize_of_clean.
    - apply normalize_no_cr.
    - apply normalize_trimmed.
    - unfold _normalize. apply collapse_no_tab.
    - unfold _normalize. apply collapse_single_spaced. }
  assert (Hne' : _normalize (_normalize q) <> []) by (rewrite Hfix; exact Hne).
  assert (Hl' : is_in (detect_lang (_normalize (_normalize q)) native_lang target_lang)
                  LangCode_values = true) by (rewrite Hfix; exact Hl).
  rewrite (analyze_query_eq (_normalize q) native_lang target_lang Hne' Hl'), Hfix.
  rewrite (analyze_query_eq q native_lang target_lang Hne Hl) in H.
  apply (f_equal (fun r => match r with Ok x => x | Raise _ => a end)) in H.
  cbv beta iota in H. subst a.
  destruct (_looks_like_paragraph _ _); [reflexivity | ].
  match goal with
  | |- context [if ?b then {| raw_query := _ |} else _] => destruct b
  end; reflexivity.
Qed.

End Outcome.

(** ** Units and types *)

Section Units.

Lemma filter_none {A} (f : A -> bool) (l : list A) :
  (length (filter f l) =? 0) = true -> Forall (fun x => f x = false) l.
Proof.
  induction l as [ | x l IH]; intros H; [constructor | ].
  simpl in H. destruct (f x) eqn:E; [discriminate | ].
  constructor; [exact E | exact (IH H)].
Qed.

(** X5: the units follow the type. A word, phrase or sentence has the
    normalized query as its only unit; a word list or phrase list has the
    list items as units, at least two of them and none sentence-like; a
    paragraph has the split sentences as units and a normalized text of at
    least 80 characters. *)
Theorem units_follow_the_type (q native_lang target_lang : str) (a : QueryAnalysisResult) :
  analyze_query q native_lang target_lang = Ok a ->
  (is_in (query_type a) [u "word"; u "phrase"; u "sentence"] = true ->
   units a = [normalized_query a])
  /\ (is_in (query_type a) [u "word_list"; u "phrase_list"] = true ->
      units a = _split_list_candidates (normalized_query a)
      /\ 2 <= length (units a)
      /\ Forall (fun unit => _looks_like_sentence unit (query_lang a) = false) (units a))
  /\ (query_type a = u "paragraph" ->
      units a = _split_sentences (normalized_query a) (query_lang a)
      /\ 80 <= length (normalized_query a)).
Proof.
  intros H. destruct (analyze_query_ok_inv _ _ _ _ H) as [Hne Hl].
  rewrite (analyze_query_eq q native_lang target_lang Hne Hl) in H.
  apply (f_equal (fun r => match r with Ok x => x | Raise _ => a end)) in H.
  cbv beta iota in H. subst a.
  set (text := _normalize q) in *.
  set (lang := detect_lang text native_lang target_lang) in *.
  set (items := _split_list_candidates text) in *.
  destruct (_looks_like_paragraph text (Some lang)) eqn:Hp;
    [ | destruct ((2 <=? length items)
                  && (length (filter (fun it => _looks_like_sentence it (Some lang)) items)
                      =? 0)) eqn:Hlist ];
    cbn [query_type units normalized_query query_lang].
  - split; [intros E; vm_compute in E; discriminate | ].
    split; [intros E; vm_compute in E; discriminate | ].
    intros _. split; [reflexivity | ].
    apply (looks_like_paragraph_iff text lang Hne) in Hp. destruct Hp as [_ H80]. exact H80.
  - apply andb_true_iff in Hlist. destruct Hlist as [H2 H0]. apply Nat.leb_le in H2.
    destruct (decide_list_type_values items (Some lang)) as [E | E]; rewrite E;
      (split; [intros F; vm_compute in F; discriminate | ]);
      (split; [ | intros F; vm_compute in F; discriminate]);
      intros _; (split; [reflexivity | split; [exact H2 | exact (filter_none _ _ H0)]]).
  - destruct (_looks_like_sentence text (Some lang)).
    + split; [intros _; reflexivity | ].
      split; [intros F; vm_compute in F; discriminate | ].
      intros F; vm_compute in F; discriminate.
    + destruct (decide_word_or_phrase_values text (Some lang)) as [E | E]; rewrite E;
        (split; [intros _; reflexivity | ]);
        (split; [intros F; vm_compute in F; discriminate | ]);
        intros F; vm_compute in F; discriminate.
Qed.

Lemma short_plain_not_sentence (text : str) (lang : option str) :
  length (strip text) < 10 ->
  _has_sentence_punc (strip text) lang = false ->
  _looks_like_sentence text lang = false.
Proof.
  intros Hlen Hp. unfold _looks_like_sentence. destruct text as [ | c t]; [reflexivity | ].
  set (s := strip (c :: t)) in *. rewrite Hp.
  assert (H10 : (10 <=? length s) = false) by (apply Nat.leb_gt; lia).
  assert (H40 : (40 <=? length s) = false) by (apply Nat.leb_gt; lia).
  assert (H20 : (20 <=? length (remove_spaces s)) = false).
  { apply Nat.leb_gt. unfold remove_spaces.
    pose proof (filter_length_le (fun c => negb (isspace c)) s). lia. }
  rewrite H10, H40, H20.
  destruct (lang_is lang "ko"); destruct (lang_is lang "zh");
    destruct (6 <=? length (split s)); reflexivity.
Qed.

(** X6: a query whose normalized text has fewer than 10 characters and
    none of the sentence terminators of its language is never a sentence
    nor a paragraph: its type is one of the four lexical types, whatever
    its wording. *)
Theorem short_query_is_lexical (q native_lang target_lang : str) (a : QueryAnalysisResult) :
  analyze_query q native_lang target_lang = Ok a ->
  length (normalized_query a) < 10 ->
  _has_sentence_punc (normalized_query a) (query_lang a) = false ->
  is_in (query_type a) lexical_types = true.
Proof.
  intros H. destruct (analyze_query_ok_inv _ _ _ _ H) as [Hne Hl].
  rewrite (analyze_query_eq q native_lang target_lang Hne Hl) in H.
  apply (f_equal (fun r => match r with Ok x => x | Raise _ => a end)) in H.
  cbv beta iota in H. subst a.
  set (text := _normalize q) in *.
  set (lang := detect_lang text native_lang target_lang) in *.
  set (items := _split_list_candidates text) in *.
  destruct (_looks_like_paragraph text (Some lang)) eqn:Hp;
    [ | destruct ((2 <=? length items)
                  && (length (filter (fun it => _looks_like_sentence it (Some lang)) items)
                      =? 0)) eqn:Hlist ];
    cbn [query_type units normalized_query query_lang]; intros Hlen Hpunc.
  - apply (looks_like_paragraph_iff text lang Hne) in Hp. destruct Hp as [_ H80]. lia.
  - destruct (decide_list_type_values items (Some lang)) as [E | E]; rewrite E; reflexivity.
  - rewrite short_plain_not_sentence.
    + destruct (decide_word_or_phrase_values text (Some lang)) as [E | E];
        rewrite E; reflexivity.
    + unfold text. rewrite normalize_trimmed. exact Hlen.
    + unfold text. rewrite normalize_trimmed. exact Hpunc.
Qed.

Lemma cons_head_clean (f : char -> bool) (c : char) (ps : list str) :
  f c = true ->
  Forall (fun p => forallb f p = true) ps ->
  Forall (fun p => forallb f p = true) (cons_head c ps).
Proof.
  intros Hc H. destruct ps as [ | p ps]; simpl.
  - constructor; [simpl; rewrite Hc; reflexivity | constructor].
  - inversion H; subst. constructor; [simpl; rewrite Hc; assumption | assumption].
Qed.

Lemma split_list_pattern_clean (b : bool) (s : str) :
  Forall (fun p => forallb (fun c => negb (list_separator c)) p = true)
    (split_list_pattern b s).
Proof.
  revert b. induction s as [ | c s IH]; intros b; simpl.
  - constructor; [reflexivity | constructor].
  - destruct (list_punct c) eqn:Ep; [constructor; [reflexivity | apply IH] | ].
    destruct (c =? 10)%N eqn:En.
    + destruct b; [apply IH | constructor; [reflexivity | apply IH]].
    + apply cons_head_clean; [ | apply IH].
      unfold list_separator. rewrite Ep, En. reflexivity.
Qed.

(** X7: every list item is clean: it is not empty, has no whitespace at
    either end, and contains none of the separators (the seven
    punctuation marks and the newline). *)
Theorem list_items_are_clean (text item : str) :
  In item (_split_list_candidates text) ->
  item <> []
  /\ Notions.trimmed item
  /\ forallb (fun c => negb (Notions.list_separator c)) item = true.
Proof.
  intros H. destruct (list_candidates_units text item H) as [Hne Htrim].
  split; [exact Hne | split; [exact Htrim | ]].
  unfold _split_list_candidates, stripped_nonempty in H.
  apply in_map_iff in H. destruct H as [p [Hx Hp]]. apply filter_In in Hp.
  destruct Hp as [Hp _]. subst item. apply forallb_strip.
  pose proof (split_list_pattern_clean false text) as Hall.
  rewrite Forall_forall in Hall. exact (Hall p Hp).
Qed.

End Units.

(** ** Language detection *)

Section Detection.

Lemma lang_score_de (text : str) :
  _lang_score text (u "de")
  = length (findall _GERMAN_CHAR (firstn 300 text)) + _lang_score text (u "en").
Proof. destruct text as [ | c t]; reflexivity. Qed.

Lemma lang_score_unknown (text lang : str) :
  is_in lang LangCode_values = false -> _lang_score text lang = 0.
Proof.
  unfold is_in, LangCode_values. cbn [existsb]. intros H.
  repeat (apply orb_false_iff in H; destruct H as [? H]).
  unfold _lang_score. destruct text as [ | c t]; [reflexivity | ].
  repeat match goal with
         | E : str_eqb lang ?x = false |- _ => rewrite E; clear E
         end.
  reflexivity.
Qed.

Lemma filter_length_pos {A} (f : A -> bool) (l : list A) :
  (0 <? length (filter f l)) = existsb f l.
Proof.
  induction l as [ | x l IH]; [reflexivity | ].
  simpl. destruct (f x); [reflexivity | exact IH].
Qed.

Lemma detect_lang_de_en (text : str) : detect_lang text (u "de") (u "en") = u "de".
Proof.
  unfold detect_lang. rewrite lang_score_de.
  set (g := length (findall _GERMAN_CHAR (firstn 300 text))).
  set (l := _lang_score text (u "en")).
  destruct ((0 <? g + l) || (0 <? l)); [ | reflexivity].
  destruct (l <? g + l); [reflexivity | ].
  destruct (Nat.ltb_spec (g + l) l); [lia | reflexivity].
Qed.

Lemma detect_lang_en_de (text : str) :
  detect_lang text (u "en") (u "de")
  = if existsb _GERMAN_CHAR (firstn 300 text) then u "de" else u "en".
Proof.
  unfold detect_lang. rewrite lang_score_de, <- filter_length_pos.
  change (filter _GERMAN_CHAR (firstn 300 text)) with (findall _GERMAN_CHAR (firstn 300 text)).
  set (g := length (findall _GERMAN_CHAR (firstn 300 text))).
  set (l := _lang_score text (u "en")).
  destruct (Nat.ltb_spec 0 g) as [Hg | Hg].
  - destruct (Nat.ltb_spec 0 (g + l)); [ | lia]. rewrite orb_true_r.
    destruct (Nat.ltb_spec (g + l) l); [lia | ].
    destruct (Nat.ltb_spec l (g + l)); [reflexivity | lia].
  - destruct ((0 <? l) || (0 <? g + l)); [ | reflexivity].
    destruct (Nat.ltb_spec (g + l) l); [reflexivity | ].
    destruct (Nat.ltb_spec l (g + l)); [lia | reflexivity].
Qed.

(** X8: German against English. For a German speaker learning English
    every query is taken to be German, an English one included, because
    the German score counts the Latin letters too. For an English speaker
    learning German a query is German exactly when one of the letters
    of [_GERMAN_CHAR] occurs among the first 300 characters of its
    normalized text. *)
Theorem german_against_english (q : str) (a : QueryAnalysisResult) :
  (analyze_query q (u "de") (u "en") = Ok a -> query_lang a = Some (u "de"))
  /\ (analyze_query q (u "en") (u "de") = Ok a ->
      (query_lang a = Some (u "de")
       <-> existsb _GERMAN_CHAR (firstn 300 (normalized_query a)) = true)).
Proof.
  split; intros H; destruct (analyze_query_fields _ _ _ _ H) as [_ [Hnorm Hlang]];
    rewrite Hlang, ?Hnorm.
  - rewrite detect_lang_de_en. reflexivity.
  - rewrite detect_lang_en_de.
    destruct (existsb _GERMAN_CHAR (firstn 300 (_normalize q))); split; intros E;
      try reflexivity; discriminate.
Qed.

Lemma detect_lang_unknown_target (text native_lang target_lang : str) :
  is_in target_lang LangCode_values = false ->
  detect_lang text native_lang target_lang = native_lang.
Proof.
  intros H. unfold detect_lang. rewrite (lang_score_unknown text target_lang H).
  destruct ((0 <? _lang_score text native_lang) || (0 <? 0)); [ | reflexivity].
  destruct (0 <? _lang_score text native_lang); [reflexivity | ].
  destruct (Nat.ltb_spec (_lang_score text native_lang) 0); [lia | reflexivity].
Qed.

Lemma detect_lang_unknown_native (text native_lang target_lang : str) :
  is_in native_lang LangCode_values = false ->
  detect_lang text native_lang target_lang
  = if 0 <? _lang_score text target_lang then target_lang else native_lang.
Proof.
  intros H. unfold detect_lang. rewrite (lang_score_unknown text native_lang H).
  set (ts := _lang_score text target_lang).
  change (0 <? 0) with false. cbn [orb].
  assert (E : (ts <? 0) = false) by (apply Nat.ltb_ge; lia).
  rewrite E. destruct (0 <? ts); reflexivity.
Qed.

(** X9: language codes outside the four. An unsupported target language
    is never noticed: with a supported native language every query that
    is not blank is analysed, as a query in the native language. An
    unsupported native language makes the analysis fail with a
    ValidationError exactly when the query has no letter of the
    (supported) target language among its first 300 characters. *)
Theorem unsupported_language_codes (q native_lang target_lang : str) :
  has_nonspace q = true ->
  (is_in native_lang LangCode_values = true ->
   is_in target_lang LangCode_values = false ->
   exists a, analyze_query q native_lang target_lang = Ok a
             /\ query_lang a = Some native_lang)
  /\ (is_in native_lang LangCode_values = false ->
      is_in target_lang LangCode_values = true ->
      (analyze_query q native_lang target_lang = Raise ValidationError
       <-> _lang_score (_normalize q) target_lang = 0)
      /\ (0 < _lang_score (_normalize q) target_lang ->
          exists a, analyze_query q native_lang target_lang = Ok a
                    /\ query_lang a = Some target_lang)).
Proof.
  intros Hq.
  assert (Hne : _normalize q <> []).
  { intros E. apply normalize_nil_iff in E. congruence. }
  split; intros Hn Ht.
  - pose proof (detect_lang_unknown_target (_normalize q) native_lang target_lang Ht) as Hd.
    assert (Hl : is_in (detect_lang (_normalize q) native_lang target_lang) LangCode_values
                 = true) by (rewrite Hd; exact Hn).
    destruct (analyze_query q native_lang target_lang) as [a | e] eqn:Ha.
    + exists a. split; [reflexivity | ].
      destruct (analyze_query_fields _ _ _ _ Ha) as [_ [_ Hlang]]. rewrite Hlang, Hd.
      reflexivity.
    + rewrite (analyze_query_eq q native_lang target_lang Hne Hl) in Ha. discriminate.
  - pose proof (detect_lang_unknown_native (_normalize q) native_lang target_lang Hn) as Hd.
    destruct (Nat.ltb_spec 0 (_lang_score (_normalize q) target_lang)) as [Hp | Hp].
    + assert (Hl : is_in (detect_lang (_normalize q) native_lang target_lang) LangCode_values
                   = true) by (rewrite Hd; exact Ht).
      destruct (analyze_query q native_lang target_lang) as [a | e] eqn:Ha.
      * split; [split; intros E; [discriminate | lia] | ].
        intros _. exists a. split; [reflexivity | ].
        destruct (analyze_query_fields _ _ _ _ Ha) as [_ [_ Hlang]]. rewrite Hlang, Hd.
        reflexivity.
      * rewrite (analyze_query_eq q native_lang target_lang Hne Hl) in Ha. discriminate.
    + assert (Hl : is_in (detect_lang (_normalize q) native_lang target_lang) LangCode_values
                   = false) by (rewrite Hd; exact Hn).
      rewrite (analyze_query_refused q native_lang target_lang Hne Hl).
      split; [split; intros _; [lia | reflexivity] | intros F; lia].
Qed.

Lemma lang_score_prefix (text1 text2 lang : str) :
  firstn 300 text1 = firstn 300 text2 ->
  _lang_score text1 lang = _lang_score text2 lang.
Proof.
  intros H. unfold _lang_score.
  destruct text1 as [ | c1 t1]; destruct text2 as [ | c2 t2];
    try reflexivity; try discriminate.
  rewrite H. reflexivity.
Qed.

Lemma german_char_not_latin (c : char) : _GERMAN_CHAR c = true -> _LATIN_RANGE c = false.
Proof.
  unfold _GERMAN_CHAR, in_chars.
  change (u "ÄÖÜäöüß") with [196; 214; 220; 228; 246; 252; 223]%N.
  cbn [existsb]. intros H.
  repeat (apply orb_true_iff in H; destruct H as [H | H]);
    try discriminate; apply N.eqb_eq in H; subst c; reflexivity.
Qed.

Lemma disjoint_filters {A} (f g : A -> bool) (l : list A) :
  (forall x, f x = true -> g x = false) ->
  length (filter f l) + length (filter g l) <= length l.
Proof.
  intros H. induction l as [ | x l IH]; [apply Nat.le_refl | ].
  simpl. destruct (f x) eqn:Ef.
  - rewrite (H x Ef). simpl. lia.
  - destruct (g x); simpl; lia.
Qed.

Lemma lang_score_bound (text lang : str) : _lang_score text lang <= 300.
Proof.
  assert (Hs : length (firstn 300 text) <= 300) by apply firstn_le_length.
  unfold _lang_score, findall. destruct text as [ | c t]; [lia | ].
  set (sample := firstn 300 (c :: t)) in *.
  pose proof (filter_length_le _HANGUL_RANGE sample).
  pose proof (filter_length_le _CJK_RANGE sample).
  pose proof (filter_length_le _LATIN_RANGE sample).
  pose proof (disjoint_filters _GERMAN_CHAR _LATIN_RANGE sample german_char_not_latin).
  repeat match goal with
         | |- context [if ?b then _ else _] => destruct b
         end; lia.
Qed.

(** X10: the language of a query is read off the first 300 characters of
    its normalized text: two texts that agree on them get the same
    scores, each at most 300, and the same language. *)
Theorem language_is_read_off_300_characters
    (text1 text2 native_lang target_lang : str) :
  firstn 300 text1 = firstn 300 text2 ->
  _lang_score text1 native_lang = _lang_score text2 native_lang
  /\ _lang_score text1 target_lang = _lang_score text2 target_lang
  /\ _lang_score text1 native_lang <= 300
  /\ _lang_score text1 target_lang <= 300
  /\ detect_lang text1 native_lang target_lang = detect_lang text2 native_lang target_lang.
Proof.
  intros H.
  pose proof (lang_score_prefix text1 text2 native_lang H) as Hn.
  pose proof (lang_score_prefix text1 text2 target_lang H) as Ht.
  split; [exact Hn | split; [exact Ht | ]].
  split; [apply lang_score_bound | split; [apply lang_score_bound | ]].
  unfold detect_lang. rewrite Hn, Ht. reflexivity.
Qed.

End Detection.

(** ** A single token *)

Section SingleToken.

Lemma split_on_none (sep : char -> bool) (s : str) :
  existsb sep s = false -> split_on sep s = [s].
Proof.
  induction s as [ | c s IH]; [reflexivity | ].
  simpl. intros H. apply orb_false_iff in H. destruct H as [Hc Hs].
  rewrite Hc, (IH Hs). reflexivity.
Qed.

Lemma split_list_pattern_none (b : bool) (s : str) :
  existsb list_separator s = false -> split_list_pattern b s = [s].
Proof.
  revert b. induction s as [ | c s IH]; intros b; [reflexivity | ].
  simpl. intros H. apply orb_false_iff in H. destruct H as [Hc Hs].
  unfold list_separator in Hc. apply orb_false_iff in Hc. destruct Hc as [Hp Hn].
  rewrite Hp, Hn, (IH false Hs). reflexivity.
Qed.

Lemma stripped_nonempty_single (s : str) : length (stripped_nonempty [s]) <= 1.
Proof.
  unfold stripped_nonempty. simpl. destruct (nonempty (strip s)); simpl; lia.
Qed.

Lemma split_single (s : str) : has_space s = false -> length (split s) <= 1.
Proof.
  intros H. unfold split. rewrite (split_on_none isspace s H).
  simpl. destruct (nonempty s); simpl; lia.
Qed.

Lemma existsb_strip (f : char -> bool) (s : str) :
  existsb f s = false -> existsb f (strip s) = false.
Proof.
  intros H.
  assert (Hall : forallb (fun c => negb (f c)) s = true).
  { induction s as [ | c s IH]; [reflexivity | ].
    simpl in H. apply orb_false_iff in H. destruct H as [Hc Hs].
    simpl. rewrite Hc, (IH Hs). reflexivity. }
  apply (forallb_strip _ s) in Hall.
  induction (strip s) as [ | c r IH]; [reflexivity | ].
  simpl in Hall. apply andb_true_iff in Hall. destruct Hall as [Hc Hr].
  simpl. rewrite (IH Hr), orb_false_r. destruct (f c); [discriminate | reflexivity].
Qed.

(** X26: a single token is a word. An analysed query detected as
    English or German whose normalized text has no whitespace, none of
    the terminators [.!?] and no list separator is classified as a word,
    with the normalized text as its only unit, whatever its length. *)
Theorem single_token_is_a_word (q native_lang target_lang : str)
    (a : QueryAnalysisResult) :
  analyze_query q native_lang target_lang = Ok a ->
  query_lang a = Some (u "en") \/ query_lang a = Some (u "de") ->
  has_space (normalized_query a) = false ->
  _has_sentence_punc (normalized_query a) (query_lang a) = false ->
  existsb Notions.list_separator (normalized_query a) = false ->
  query_type a = u "word" /\ units a = [normalized_query a].
Proof.
  intros H Hlang Hspace Hpunc Hsep.
  destruct (analyze_query_ok_inv _ _ _ _ H) as [Hne Hl].
  destruct (analyze_query_fields _ _ _ _ H) as [_ [Hnorm Hq]].
  rewrite Hnorm in *. rewrite Hq in Hlang, Hpunc. clear Hnorm Hq.
  rewrite (analyze_query_eq q native_lang target_lang Hne Hl) in H.
  apply (f_equal (fun r => match r with Ok x => x | Raise _ => a end)) in H.
  cbv beta iota in H. subst a.
  remember (_normalize q) as text eqn:Et. clear Et.
  remember (detect_lang text native_lang target_lang) as lang eqn:El. clear El.
  destruct text as [ | c t]; [contradiction | ].
  assert (Hzh : lang_is (Some lang) "zh" = false)
    by (destruct Hlang as [E | E]; injection E as E; rewrite E; reflexivity).
  assert (Hko : lang_is (Some lang) "ko" = false)
    by (destruct Hlang as [E | E]; injection E as E; rewrite E; reflexivity).
  assert (Hlatin : lang_is (Some lang) "en" || lang_is (Some lang) "de" = true)
    by (destruct Hlang as [E | E]; injection E as E; rewrite E; reflexivity).
  assert (Hterm : existsb _SENT_TERM_LATIN (c :: t) = false).
  { unfold _has_sentence_punc in Hpunc. rewrite Hzh in Hpunc. exact Hpunc. }
  assert (Hpar : _looks_like_paragraph (c :: t) (Some lang) = false).
  { unfold _looks_like_paragraph.
    rewrite Hzh, (split_on_none _SENT_TERM_LATIN _ Hterm).
    pose proof (stripped_nonempty_single (c :: t)) as Hle.
    match goal with
    | |- context [?n <? 2] => destruct (Nat.ltb_spec n 2); [reflexivity | lia]
    end. }
  assert (Hitems : (2 <=? length (_split_list_candidates (c :: t))) = false).
  { unfold _split_list_candidates. rewrite (split_list_pattern_none false _ Hsep).
    pose proof (stripped_nonempty_single (c :: t)). apply Nat.leb_gt. lia. }
  assert (Hsent : _looks_like_sentence (c :: t) (Some lang) = false).
  { unfold _looks_like_sentence.
    unfold _has_sentence_punc. rewrite Hzh, Hko, (existsb_strip _ _ Hterm).
    pose proof (split_single (strip (c :: t)) (existsb_strip _ _ Hspace)) as Htok.
    match goal with
    | |- context [6 <=? ?n] => destruct (Nat.leb_spec 6 n); [lia | reflexivity]
    end. }
  assert (Hword : _decide_word_or_phrase (c :: t) (Some lang) = u "word").
  { unfold _decide_word_or_phrase.
    pose proof (split_single (c :: t) Hspace) as Htok.
    rewrite Hlatin.
    match goal with
    | |- context [?n <=? 1] => destruct (Nat.leb_spec n 1); [reflexivity | lia]
    end. }
  rewrite Hpar, Hitems. cbn [andb query_type units normalized_query].
  rewrite Hsent, Hword. split; reflexivity.
Qed.

End SingleToken.

(** A blank query, a word, and a word under two unsupported codes. *)
Lemma analyze_query_outcome_witness :
  analyze_query (u "   ") (u "ko") (u "en")
  = Raise (ValueError (u "QueryAnalyzer: query가 비어 있습니다."))
  /\ (exists a, analyze_query (u "apple") (u "ko") (u "en") = Ok a)
  /\ analyze_query (u "apple") (u "fr") (u "xx") = Raise ValidationError.
Proof.
  split; [ | split].
  - apply (proj1 (analyze_query_outcome (u "   ") (u "ko") (u "en"))). reflexivity.
  - apply (proj1 (proj2 (analyze_query_outcome (u "apple") (u "ko") (u "en"))));
      vm_compute; reflexivity.
  - apply (proj2 (proj2 (analyze_query_outcome (u "apple") (u "fr") (u "xx"))));
      vm_compute; reflexivity.
Defined.

(** The list [apple, pear], typed with spaces around it. *)
Lemma analysis_is_well_formed_witness :
  raw_query Cases.pair_of_fruits = u " apple,  pear "
  /\ normalized_query Cases.pair_of_fruits = _normalize (u " apple,  pear ")
  /\ is_in (query_type Cases.pair_of_fruits) QueryType_values = true
  /\ (exists lang, query_lang Cases.pair_of_fruits = Some lang
                   /\ is_in lang LangCode_values = true
                   /\ (lang = u "ko" \/ lang = u "en"))
  /\ units Cases.pair_of_fruits <> []
  /\ Forall (fun unit => unit <> [] /\ Notions.trimmed unit) (units Cases.pair_of_fruits).
Proof.
  apply (analysis_is_well_formed (u " apple,  pear ") (u "ko") (u "en")).
  vm_compute. reflexivity.
Defined.

Lemma units_follow_the_type_witness :
  (is_in (query_type Cases.pair_of_fruits) [u "word"; u "phrase"; u "sentence"] = true ->
   units Cases.pair_of_fruits = [normalized_query Cases.pair_of_fruits])
  /\ (is_in (query_type Cases.pair_of_fruits) [u "word_list"; u "phrase_list"] = true ->
      units Cases.pair_of_fruits
      = _split_list_candidates (normalized_query Cases.pair_of_fruits)
      /\ 2 <= length (units Cases.pair_of_fruits)
      /\ Forall (fun unit =>
                   _looks_like_sentence unit (query_lang Cases.pair_of_fruits) = false)
           (units Cases.pair_of_fruits))
  /\ (query_type Cases.pair_of_fruits = u "paragraph" ->
      units Cases.pair_of_fruits
      = _split_sentences (normalized_query Cases.pair_of_fruits)
          (query_lang Cases.pair_of_fruits)
      /\ 80 <= length (normalized_query Cases.pair_of_fruits)).
Proof.
  apply (units_follow_the_type (u " apple,  pear ") (u "ko") (u "en")).
  vm_compute. reflexivity.
Defined.

(** Nine characters that end like a Korean sentence, without a full stop. *)
Lemma short_query_is_lexical_witness :
  is_in (query_type Cases.short_korean) lexical_types = true.
Proof.
  apply (short_query_is_lexical (u "나는 학교에 갔다") (u "ko") (u "en")).
  - vm_compute. reflexivity.
  - vm_compute. lia.
  - vm_compute. reflexivity.
Defined.

Lemma list_items_are_clean_witness :
  u "pear" <> []
  /\ Notions.trimmed (u "pear")
  /\ forallb (fun c => negb (Notions.list_separator c)) (u "pear") = true.
Proof.
  apply (list_items_are_clean (u "apple ;  pear / plum")).
  vm_compute. right. left. reflexivity.
Defined.

Lemma german_against_english_witness :
  query_lang Cases.english_for_a_german = Some (u "de").
Proof.
  apply (proj1 (german_against_english (u "hello world") Cases.english_for_a_german)).
  vm_compute. reflexivity.
Defined.

(** A Korean speaker with the unsupported target language [fr]. *)
Lemma unsupported_language_codes_witness :
  exists a, analyze_query (u "apple") (u "ko") (u "fr") = Ok a
            /\ query_lang a = Some (u "ko").
Proof.
  apply (proj1 (unsupported_language_codes (u "apple") (u "ko") (u "fr") eq_refl));
    vm_compute; reflexivity.
Defined.

(** Three hundred Latin letters, followed or not by Korean ones. *)
Lemma language_is_read_off_300_characters_witness :
  let text1 := repeat 97%N 300 ++ u "가나다라마바사" in
  let text2 := repeat 97%N 300 in
  _lang_score text1 (u "ko") = _lang_score text2 (u "ko")
  /\ _lang_score text1 (u "en") = _lang_score text2 (u "en")
  /\ _lang_score text1 (u "ko") <= 300
  /\ _lang_score text1 (u "en") <= 300
  /\ detect_lang text1 (u "ko") (u "en") = detect_lang text2 (u "ko") (u "en").
Proof.
  intros text1 text2.
  apply (language_is_read_off_300_characters text1 text2 (u "ko") (u "en")).
  vm_compute. reflexivity.
Defined.

(** The list [apple, pear] once more, from its normalized text. *)
Lemma analysis_of_the_normalized_query_witness :
  analyze_query (normalized_query Cases.pair_of_fruits) (u "ko") (u "en")
  = Ok {| raw_query := normalized_query Cases.pair_of_fruits;
          normalized_query := normalized_query Cases.pair_of_fruits;
          query_type := query_type Cases.pair_of_fruits;
          units := units Cases.pair_of_fruits;
          query_lang := query_lang Cases.pair_of_fruits |}.
Proof.
  apply (analysis_of_the_normalized_query (u " apple,  pear ") (u "ko") (u "en")).
  vm_compute. reflexivity.
Defined.

(** The word [apple] for a Korean speaker who learns English. *)
Lemma single_token_is_a_word_witness :
  query_type Sample.apple_analysis = u "word"
  /\ units Sample.apple_analysis = [normalized_query Sample.apple_analysis].
Proof.
  apply (single_token_is_a_word (u "apple") (u "ko") (u "en")).
  - vm_compute. reflexivity.
  - left. reflexivity.
  - vm_compute. reflexivity.
  - vm_compute. reflexivity.
  - vm_compute. reflexivity.
Defined.

(** ** The handler, call by call *)

Section Execution.
Context {RT : Runtime} {PD : Pydantic}.

Lemma run_prog_bind {A B} (sv : Services) (m : Prog A) (f : A -> Prog B)
    (log : list Event) :
  run sv (prog_bind m f) log = run sv (f (fst (run sv m log))) (snd (run sv m log)).
Proof.
  revert log. induction m as [a | req k IH | req k IH]; intros log; cbn [prog_bind run].
  - reflexivity.
  - apply IH.
  - apply IH.
Qed.

(** [run_verifier] makes one call and reports a verdict. *)
Lemma run_verifier_run (sv : Services) (log : list Event)
    (query_text mode query_type answer_text : str)
    (field source_lang target_lang : option str) :
  let req := Notions.verifier_request query_text mode query_type answer_text
               field source_lang target_lang in
  run sv (run_verifier query_text mode query_type answer_text
            field source_lang target_lang) log
  = (Ok (Notions.reported_verdict (verifier sv log req)),
     log ++ [EVerify req (verifier sv log req)]).
Proof.
  intros req. unfold run_verifier, try_except, bindM, call_verifier.
  cbn [prog_bind run]. fold (Notions.verifier_request query_text mode query_type answer_text
                               field source_lang target_lang). fold req.
  destruct (verifier sv log req) as [response | e]; cbn.
  - destruct (ver_parsed response) as [parsed | ]; cbn; [reflexivity | ].
    destruct (ver_text response) as [t | ]; cbn; [ | reflexivity].
    destruct (nonempty (strip t)); cbn; [ | reflexivity].
    destruct (VerifierResult_validate_json t); reflexivity.
  - destruct e; reflexivity.
Qed.

Lemma unavailable_is_neutral (o : outcome VerifierResponse) :
  Spec.verifier_unavailable o -> Notions.reported_verdict o = neutral_verdict.
Proof.
  destruct o as [response | e]; [ | reflexivity].
  cbn. intros [Hp Ht]. rewrite Hp. destruct (ver_text response) as [t | ]; [ | reflexivity].
  rewrite Ht. destruct (nonempty (strip t)); reflexivity.
Qed.

Lemma status_is_valid_true (st : option str) :
  status_is_valid st = true -> st = Some (u "VALID").
Proof.
  destruct st as [s | ]; simpl; [ | discriminate].
  intros H. apply str_eqb_eq in H. subst. reflexivity.
Qed.

(** Part C on a valid answer with a digest: one verification, and one
    more generation when the verdict asks for it. *)
Lemma run_verify_and_regenerate (sv : Services) (log : list Event) (cx : Context)
    (entry : value) (digest : str) :
  _extract_query_analysis_status entry = Some (u "VALID") ->
  build_verifier_answer_text entry (cx_mode cx) (query_type (cx_analysis cx)) = Ok digest ->
  let vreq := Notions.pipeline_verifier_request cx digest in
  let ov := verifier sv log vreq in
  let verdict := Notions.reported_verdict ov in
  let log1 := log ++ [EVerify vreq ov] in
  let greq := Notions.regeneration_request cx (comment verdict) in
  let og := generator sv log1 greq in
  run sv (verify_and_regenerate cx entry) log
  = if needs_regeneration verdict VERIFIER_HALLUCINATION_THRESHOLD
    then (match Notions.generated_entry (cx_schema cx) og with
          | Ok entry_regen => Ok (Json entry_regen)
          | Raise e => Raise e
          end, log1 ++ [EGenerate greq og])
    else (Ok (Json entry), log1).
Proof.
  intros Hstatus Hdigest vreq ov verdict log1 greq og.
  unfold verify_and_regenerate. rewrite Hstatus.
  change (status_is_valid (Some (u "VALID"))) with true. cbn [negb].
  rewrite Hdigest. unfold bindM at 1. unfold lift. cbn [prog_bind].
  unfold bindM at 1. rewrite run_prog_bind, run_verifier_run. cbn [fst snd].
  fold (Notions.pipeline_verifier_request cx digest). fold vreq. fold ov. fold verdict.
  fold log1.
  destruct (needs_regeneration verdict VERIFIER_HALLUCINATION_THRESHOLD); cbn [negb].
  - unfold bindM, call_generator. cbn [prog_bind run].
    fold (Notions.regeneration_request cx (comment verdict)). fold greq. fold og.
    destruct og as [response | e]; cbn [of_outcome prog_bind Notions.generated_entry].
    + unfold lift. cbn [prog_bind].
      destruct (entry_of (cx_schema cx) response); reflexivity.
    + reflexivity.
  - reflexivity.
Qed.

(** The handler up to the first answer. *)
Lemma run_api_search_prepared (sv : Services) (log : list Event) (request_json : value)
    (cx : Context) :
  prepare request_json = Ok (Some cx) ->
  let o := generator sv log (first_request cx) in
  let log0 := log ++ [EGenerate (first_request cx) o] in
  run sv (api_search request_json) log
  = match Notions.generated_entry (cx_schema cx) o with
    | Raise e => (ServerError e, log0)
    | Ok entry =>
        (match fst (run sv (verify_and_regenerate cx entry) log0) with
         | Ok response => response
         | Raise e => ServerError e
         end, snd (run sv (verify_and_regenerate cx entry) log0))
    end.
Proof.
  intros Hprep o log0.
  unfold api_search, api_search_body, bindM, lift, call_generator.
  cbn [prog_bind]. rewrite Hprep. cbn [prog_bind run]. fold o. fold log0.
  destruct o as [response | e]; cbn [of_outcome prog_bind Notions.generated_entry].
  - destruct (entry_of (cx_schema cx) response) as [entry | e]; cbn [prog_bind run].
    + rewrite run_prog_bind.
      destruct (fst (run sv (verify_and_regenerate cx entry) log0)); reflexivity.
    + reflexivity.
  - reflexivity.
Qed.

End Execution.

Section Handler.
Context {RT : Runtime} {PD : Pydantic}.

Lemma verify_and_regenerate_trace (sv : Services) (log : list Event) (cx : Context)
    (entry : value) :
  exists (r : result Response) (trace : list Event),
    run sv (verify_and_regenerate cx entry) log = (r, log ++ trace)
    /\ (trace = []
        \/ (exists v ov, trace = [EVerify v ov])
        \/ (exists v ov g og, trace = [EVerify v ov; EGenerate g og])).
Proof.
  destruct (status_is_valid (_extract_query_analysis_status entry)) eqn:Hs.
  - pose proof (status_is_valid_true _ Hs) as Hx.
    destruct (build_verifier_answer_text entry (cx_mode cx) (query_type (cx_analysis cx)))
      as [digest | e] eqn:Hd.
    + rewrite (run_verify_and_regenerate sv log cx entry digest Hx Hd). cbv zeta.
      destruct (needs_regeneration _ VERIFIER_HALLUCINATION_THRESHOLD).
      * eexists. eexists. split; [rewrite <- app_assoc; reflexivity | ].
        right. right. eexists. eexists. eexists. eexists. reflexivity.
      * eexists. eexists. split; [reflexivity | ].
        right. left. eexists. eexists. reflexivity.
    + exists (Raise e), []. split; [ | left; reflexivity].
      unfold verify_and_regenerate. rewrite Hs. cbn [negb]. rewrite Hd.
      unfold bindM, lift. cbn [prog_bind run]. rewrite app_nil_r. reflexivity.
  - exists (Ok (Json entry)), []. split; [ | left; reflexivity].
    unfold verify_and_regenerate. rewrite Hs. cbn [negb]. unfold ret. cbn [run].
    rewrite app_nil_r. reflexivity.
Qed.

(** X11: whatever the request and whatever the two services answer, the
    handler returns a response after one of four call patterns: no call;
    one generation; one generation and one verification; or these two
    followed by one more generation. It never generates more than twice
    and never verifies more than once. *)
Theorem pipeline_call_pattern (sv : Services) (log : list Event) (request_json : value) :
  exists (response : Response) (trace : list Event),
    run sv (api_search request_json) log = (response, log ++ trace)
    /\ Notions.pipeline_trace trace
    /\ generator_calls trace <= 2
    /\ verifier_calls trace <= 1.
Proof.
  destruct (prepare request_json) as [[cx | ] | e] eqn:Hprep.
  - rewrite (run_api_search_prepared sv log request_json cx Hprep). cbv zeta.
    set (o := generator sv log (first_request cx)).
    destruct (Notions.generated_entry (cx_schema cx) o) as [entry | e].
    + destruct (verify_and_regenerate_trace sv (log ++ [EGenerate (first_request cx) o])
                  cx entry) as [r [trace [Hrun Hshape]]].
      rewrite Hrun. cbn [fst snd]. eexists. exists (EGenerate (first_request cx) o :: trace).
      split; [rewrite <- app_assoc; reflexivity | ].
      destruct Hshape as [E | [[v [ov E]] | [v [ov [g [og E]]]]]]; subst trace.
      * split; [constructor | split; cbn; lia].
      * split; [constructor | split; cbn; lia].
      * split; [constructor | split; cbn; lia].
    + eexists. exists [EGenerate (first_request cx) o].
      split; [reflexivity | split; [constructor | split; cbn; lia]].
  - exists (BadRequest (VDict [(u "error", VStr (u "Query is empty."))])), [].
    split; [ | split; [constructor | split; cbn; lia]].
    unfold api_search, api_search_body, bindM, lift. cbn [prog_bind]. rewrite Hprep.
    cbn [prog_bind run]. rewrite app_nil_r. reflexivity.
  - exists (ServerError e), [].
    split; [ | split; [constructor | split; cbn; lia]].
    unfold api_search, api_search_body, bindM, lift. cbn [prog_bind]. rewrite Hprep.
    cbn [prog_bind run]. rewrite app_nil_r. reflexivity.
Qed.

Lemma assoc_in (k : str) (d : list (str * value)) (v : value) :
  assoc k d = Some v -> exists k', In (k', v) d.
Proof.
  induction d as [ | [k' v'] d IH]; simpl; [discriminate | ].
  destruct (str_eqb k k').
  - intros E. inversion E; subst. exists k'. left. reflexivity.
  - intros E. destruct (IH E) as [k'' Hin]. exists k''. right. exact Hin.
Qed.

(** A field of a request whose values are all strings. *)
Lemma stripped_field_of_strings (d : list (str * value)) (key : string) (default : str) :
  Notions.all_strings d ->
  stripped_field (or_ (VDict d) (VDict [])) key default
  = Ok (strip match assoc (u key) d with
              | Some (VStr (c :: s)) => c :: s
              | _ => default
              end).
Proof.
  intros Hall.
  assert (Hd : or_ (VDict d) (VDict []) = VDict d) by (destruct d; reflexivity).
  rewrite Hd. unfold stripped_field, get, bind.
  destruct (assoc (u key) d) as [v | ] eqn:Ea; [ | reflexivity].
  destruct (assoc_in _ _ _ Ea) as [k' Hin].
  unfold Notions.all_strings in Hall. rewrite Forall_forall in Hall.
  specialize (Hall (k', v) Hin). cbn [snd] in Hall.
  destruct v as [ | | | | s | | ]; try discriminate.
  destruct s; reflexivity.
Qed.

(** X12: a request whose fields are strings and whose query is missing,
    empty or nothing but whitespace is answered with the 400 error
    [Query is empty.] and no service is called; the other fields are not
    looked at, so that an unsupported language code goes unnoticed. *)
Theorem blank_query_is_refused_without_a_call (sv : Services) (log : list Event)
    (d : list (str * value)) :
  Notions.all_strings d ->
  (forall q, assoc (u "query") d = Some (VStr q) -> has_nonspace q = false) ->
  run sv (api_search (VDict d)) log
  = (BadRequest (VDict [(u "error", VStr (u "Query is empty."))]), log).
Proof.
  intros Hall Hblank.
  assert (Hprep : prepare (VDict d) = Ok None).
  { unfold prepare. cbv zeta. rewrite !(stripped_field_of_strings d) by exact Hall.
    unfold bind.
    assert (Hq : strip match assoc (u "query") d with
                       | Some (VStr (c :: s)) => c :: s
                       | _ => []
                       end = []).
    { destruct (assoc (u "query") d) as [[ | | | | [ | c s] | | ] | ] eqn:Eq;
        try reflexivity.
      apply has_nonspace_false_strip. apply Hblank. reflexivity. }
    rewrite Hq. reflexivity. }
  unfold api_search, api_search_body, bindM, lift. cbn [prog_bind]. rewrite Hprep.
  reflexivity.
Qed.

(** X13: when the first generation fails (the call raises, or the
    response has no parsed answer and its text does not validate against
    the schema), the handler answers with the 500 error of that exception
    after this single call: the generation is not tried again and the
    verifier is not called. *)
Theorem failed_generation_is_a_server_error (sv : Services) (log : list Event)
    (request_json : value) (cx : Context) (e : exn) :
  prepare request_json = Ok (Some cx) ->
  Notions.generated_entry (cx_schema cx) (generator sv log (first_request cx)) = Raise e ->
  run sv (api_search request_json) log
  = (ServerError e,
     log ++ [EGenerate (first_request cx) (generator sv log (first_request cx))]).
Proof.
  intros Hprep Hfail.
  rewrite (run_api_search_prepared sv log request_json cx Hprep). cbv zeta.
  rewrite Hfail. reflexivity.
Qed.

(** X14: a valid first answer is sent back unchanged, after exactly one
    generation and one verification, whenever the verifier is unavailable
    (its call raises, or yields neither a parsed verdict nor a text that
    validates) or its verdict does not ask for a regeneration. *)
Theorem first_answer_is_kept (sv : Services) (log : list Event) (request_json : value)
    (cx : Context) (response : GenerateResponse) (entry : value) (digest : str) :
  prepare request_json = Ok (Some cx) ->
  generator sv log (first_request cx) = Returned response ->
  entry_of (cx_schema cx) response = Ok entry ->
  _extract_query_analysis_status entry = Some (u "VALID") ->
  build_verifier_answer_text entry (cx_mode cx) (query_type (cx_analysis cx)) = Ok digest ->
  let log1 := log ++ [EGenerate (first_request cx) (Returned response)] in
  let vreq := Notions.pipeline_verifier_request cx digest in
  let ov := verifier sv log1 vreq in
  Spec.verifier_unavailable ov
  \/ needs_regeneration (Notions.reported_verdict ov) VERIFIER_HALLUCINATION_THRESHOLD = false ->
  run sv (api_search request_json) log = (Json entry, log1 ++ [EVerify vreq ov]).
Proof.
  intros Hprep Hgen Hentry Hstatus Hdigest log1 vreq ov Hsafe.
  assert (Hno : needs_regeneration (Notions.reported_verdict ov)
                  VERIFIER_HALLUCINATION_THRESHOLD = false).
  { destruct Hsafe as [Hun | Hs]; [ | exact Hs].
    rewrite (unavailable_is_neutral ov Hun). reflexivity. }
  rewrite (run_api_search_prepared sv log request_json cx Hprep). cbv zeta.
  rewrite Hgen. cbn [Notions.generated_entry]. rewrite Hentry.
  rewrite (run_verify_and_regenerate sv _ cx entry digest Hstatus Hdigest). cbv zeta.
  fold log1. fold vreq. fold ov. rewrite Hno. reflexivity.
Qed.

(** X15: when the verdict on a valid first answer asks for a
    regeneration, the generator is called a second time with the same
    model and schema and with the first instruction followed by the
    regeneration instruction built from the verdict's comment; what this
    second call yields is the response: its answer is sent back whatever
    its status and without a second verification, and its failure is a
    500 error, the first answer being dropped in either case. *)
Theorem regeneration_replaces_the_answer (sv : Services) (log : list Event)
    (request_json : value) (cx : Context) (response : GenerateResponse) (entry : value)
    (digest : str) :
  prepare request_json = Ok (Some cx) ->
  generator sv log (first_request cx) = Returned response ->
  entry_of (cx_schema cx) response = Ok entry ->
  _extract_query_analysis_status entry = Some (u "VALID") ->
  build_verifier_answer_text entry (cx_mode cx) (query_type (cx_analysis cx)) = Ok digest ->
  let log1 := log ++ [EGenerate (first_request cx) (Returned response)] in
  let vreq := Notions.pipeline_verifier_request cx digest in
  let ov := verifier sv log1 vreq in
  let verdict := Notions.reported_verdict ov in
  let log2 := log1 ++ [EVerify vreq ov] in
  let greq := {| gen_model := gen_model (first_request cx);
                 gen_contents := gen_contents (first_request cx)
                                 ++ build_regeneration_instruction (comment verdict)
                                      (cx_field cx) (cx_mode cx);
                 gen_schema := gen_schema (first_request cx) |} in
  let og := generator sv log2 greq in
  needs_regeneration verdict VERIFIER_HALLUCINATION_THRESHOLD = true ->
  run sv (api_search request_json) log
  = (match Notions.generated_entry (cx_schema cx) og with
     | Ok entry_regen => Json entry_regen
     | Raise e => ServerError e
     end, log2 ++ [EGenerate greq og]).
Proof.
  intros Hprep Hgen Hentry Hstatus Hdigest log1 vreq ov verdict log2 greq og Hregen.
  rewrite (run_api_search_prepared sv log request_json cx Hprep). cbv zeta.
  rewrite Hgen. cbn [Notions.generated_entry]. rewrite Hentry.
  rewrite (run_verify_and_regenerate sv _ cx entry digest Hstatus Hdigest). cbv zeta.
  fold log1. fold vreq. fold ov. fold verdict. rewrite Hregen. fold log2.
  change (Notions.regeneration_request cx (comment verdict)) with greq. fold og.
  cbn [fst snd]. destruct (Notions.generated_entry (cx_schema cx) og); reflexivity.
Qed.

End Handler.

Lemma apple_request_prepared :
  { cx : Context | prepare (RT := plain_runtime) Cases.apple_request = Ok (Some cx) }.
Proof.
  eexists. vm_compute. reflexivity.
Defined.

(** A blank query with an unsupported language code. *)
Lemma blank_query_is_refused_without_a_call_witness :
  run Cases.failing_generator
    (api_search (RT := plain_runtime) (PD := rejecting_pydantic) (VDict Cases.blank_fields)) []
  = (BadRequest (VDict [(u "error", VStr (u "Query is empty."))]), []).
Proof.
  apply (blank_query_is_refused_without_a_call (RT := plain_runtime)
           (PD := rejecting_pydantic) Cases.failing_generator [] Cases.blank_fields).
  - repeat constructor.
  - intros q H. vm_compute in H.
    apply (f_equal (fun o => match o with Some (VStr s) => has_nonspace s | _ => false end)) in H.
    vm_compute in H. symmetry. exact H.
Defined.

(** The generator is down. *)
Lemma failed_generation_is_a_server_error_witness :
  let cx := proj1_sig apple_request_prepared in
  run Cases.failing_generator
    (api_search (RT := plain_runtime) (PD := rejecting_pydantic) Cases.apple_request) []
  = (ServerError (OtherException 503),
     [] ++ [EGenerate (first_request cx)
              (generator Cases.failing_generator [] (first_request cx))]).
Proof.
  intros cx.
  apply (failed_generation_is_a_server_error (RT := plain_runtime)
           (PD := rejecting_pydantic) Cases.failing_generator [] Cases.apple_request cx).
  - exact (proj2_sig apple_request_prepared).
  - reflexivity.
Defined.

(** A valid answer and a verifier that is down. *)
Lemma first_answer_is_kept_witness :
  let cx := proj1_sig apple_request_prepared in
  let sv := Cases.services Cases.valid_entry (Raised (OtherException 503)) in
  let response := {| gen_parsed := Some Cases.valid_entry; gen_text := None |} in
  run sv (api_search (RT := plain_runtime) (PD := rejecting_pydantic) Cases.apple_request) []
  = (Json Cases.valid_entry,
     ([] ++ [EGenerate (first_request cx) (Returned response)])
     ++ [EVerify (Notions.pipeline_verifier_request cx Cases.valid_digest)
           (Raised (OtherException 503))]).
Proof.
  intros cx sv response.
  apply (first_answer_is_kept (RT := plain_runtime) (PD := rejecting_pydantic)
           sv [] Cases.apple_request cx response Cases.valid_entry Cases.valid_digest).
  - exact (proj2_sig apple_request_prepared).
  - reflexivity.
  - reflexivity.
  - vm_compute. reflexivity.
  - vm_compute. reflexivity.
  - left. exact I.
Defined.

(** A valid answer, a verdict with score 1.0, and the second generation. *)
Lemma regeneration_replaces_the_answer_witness :
  let cx := proj1_sig apple_request_prepared in
  let ov := Returned {| ver_parsed := Some Cases.strict_verdict; ver_text := None |} in
  let sv := Cases.services Cases.valid_entry ov in
  let response := {| gen_parsed := Some Cases.valid_entry; gen_text := None |} in
  let greq := {| gen_model := gen_model (first_request cx);
                 gen_contents :=
                   gen_contents (first_request cx)
                   ++ build_regeneration_instruction (RT := plain_runtime)
                        (u "wrong sense") (cx_field cx) (cx_mode cx);
                 gen_schema := gen_schema (first_request cx) |} in
  run sv (api_search (RT := plain_runtime) (PD := rejecting_pydantic) Cases.apple_request) []
  = (Json Cases.valid_entry,
     (([] ++ [EGenerate (first_request cx) (Returned response)])
      ++ [EVerify (Notions.pipeline_verifier_request cx Cases.valid_digest) ov])
     ++ [EGenerate greq (Returned response)]).
Proof.
  intros cx ov sv response greq.
  apply (regeneration_replaces_the_answer (RT := plain_runtime) (PD := rejecting_pydantic)
           sv [] Cases.apple_request cx response Cases.valid_entry Cases.valid_digest).
  - exact (proj2_sig apple_request_prepared).
  - reflexivity.
  - reflexivity.
  - vm_compute. reflexivity.
  - vm_compute. reflexivity.
  - vm_compute. reflexivity.
Defined.

(** ** The instruction, the digest and the requests built from them *)

Section Occurrence.

Lemma occurs_in_here (x t : str) : Notions.occurs_in x (x ++ t).
Proof. exists [], t. reflexivity. Qed.

Lemma occurs_in_skip (a x t : str) : Notions.occurs_in x t -> Notions.occurs_in x (a ++ t).
Proof.
  intros [pre [post E]]. exists (a ++ pre), post. rewrite E, app_assoc. reflexivity.
Qed.

Lemma occurs_in_left (x s t : str) : Notions.occurs_in x s -> Notions.occurs_in x (s ++ t).
Proof.
  intros [pre [post E]]. exists pre, (post ++ t). rewrite E, <- !app_assoc. reflexivity.
Qed.

End Occurrence.

(** Walks along a concatenation up to the part looked for. *)
Ltac find_occurrence :=
  repeat lazymatch goal with
         | |- Notions.occurs_in ?x (?y ++ ?t) =>
             first [ constr_eq x y; exact (occurs_in_here x t)
                   | apply occurs_in_skip ]
         end.

Section Composition.
Context {RT : Runtime} {PD : Pydantic}.

(** X16: for an answer of any of the six schemas, the status the handler
    extracts from the dumped answer is the status of the answer's
    [query_analysis] block, found at the top level or, for the one schema
    that nests it, inside [sentence]; so the handler's test for a valid
    answer is the block's own [is_valid]. *)
Theorem status_of_a_schema_answer (a : Schemas.Answer) :
  _extract_query_analysis_status (Schemas.model_dump a)
  = Some (Schemas.qa_status (Common.answer_query_analysis a))
  /\ status_is_valid (_extract_query_analysis_status (Schemas.model_dump a))
     = Common.is_valid (Common.answer_query_analysis a).
Proof.
  assert (H : _extract_query_analysis_status (Schemas.model_dump a)
              = Some (Schemas.qa_status (Common.answer_query_analysis a)))
    by (destruct a; reflexivity).
  split; [exact H | rewrite H; reflexivity].
Qed.

Lemma valid_lang_nonempty (lang : str) :
  is_in lang LangCode_values = true -> exists c l, lang = c :: l.
Proof.
  destruct lang as [ | c l]; [discriminate | ]. intros _. exists c, l. reflexivity.
Qed.

Lemma analysis_type_is_one_of_six (q native_lang target_lang : str)
    (a : QueryAnalysisResult) :
  analyze_query q native_lang target_lang = Ok a ->
  is_in (query_type a) QueryType_values = true.
Proof.
  intros H. destruct (analyze_query_ok_inv _ _ _ _ H) as [Hne Hl].
  rewrite (analyze_query_eq q native_lang target_lang Hne Hl) in H.
  apply (f_equal (fun r => match r with Ok x => x | Raise _ => a end)) in H.
  cbv beta iota in H. subst a.
  destruct (_looks_like_paragraph _ _); [reflexivity | ].
  match goal with
  | |- context [if ?b then {| raw_query := _ |} else _] => destruct b
  end; cbn [query_type].
  - match goal with
    | |- context [_decide_list_type ?i ?l] =>
        destruct (decide_list_type_values i l) as [E | E]; rewrite E; reflexivity
    end.
  - destruct (_looks_like_sentence _ _); [reflexivity | ].
    match goal with
    | |- context [_decide_word_or_phrase ?i ?l] =>
        destruct (decide_word_or_phrase_values i l) as [E | E]; rewrite E; reflexivity
    end.
Qed.

(** An analysed query that is not lexical is a sentence or a paragraph. *)
Lemma sentence_or_paragraph (q native_lang target_lang : str) (a : QueryAnalysisResult) :
  analyze_query q native_lang target_lang = Ok a ->
  is_in (query_type a) lexical_types = false ->
  query_type a = u "sentence" \/ query_type a = u "paragraph".
Proof.
  intros H Hlex. pose proof (analysis_type_is_one_of_six _ _ _ _ H) as Htype.
  unfold is_in, lexical_types in Hlex. unfold is_in, QueryType_values in Htype.
  cbn [existsb] in Hlex, Htype.
  repeat (apply orb_false_iff in Hlex; destruct Hlex as [? Hlex]).
  repeat match goal with
         | E : str_eqb (query_type a) ?x = false |- _ =>
             rewrite E in Htype; clear E
         end.
  cbn [orb] in Htype. rewrite orb_false_r in Htype.
  apply orb_true_iff in Htype. destruct Htype as [E | E]; apply str_eqb_eq in E;
    [left | right]; exact E.
Qed.

(** The instruction for a sentence or a paragraph in the dictionary mode:
    the header followed by the body of its direction. *)
Lemma dict_sentence_prompt (a : QueryAnalysisResult)
    (education field mode native_lang target_lang : str) :
  _normalize_mode mode = u "dict" ->
  is_in (query_type a) lexical_types = false ->
  exists header : str,
    generate_prompt_rule a education field mode native_lang target_lang
    = header
      ++ (if str_eqb (_direction (query_lang_or a native_lang) native_lang target_lang)
               (u "native_to_target")
          then (if is_in (query_type a) [u "word_list"; u "phrase_list"; u "paragraph"]
                then body_n2t_sentence_list (_join_units (units a)) native_lang
                       target_lang education field
                else body_n2t_sentence_single (_join_units (units a)) native_lang
                       target_lang education field)
          else (if is_in (query_type a) [u "word_list"; u "phrase_list"; u "paragraph"]
                then body_t2n_sentence_list (_join_units (units a)) native_lang
                       target_lang education field
                else body_t2n_sentence_single (_join_units (units a)) native_lang
                       target_lang education field)).
Proof.
  intros Hm Hlex. unfold generate_prompt_rule. cbv zeta.
  change (is_in (query_type a) [u "word"; u "word_list"; u "phrase"; u "phrase_list"])
    with (is_in (query_type a) lexical_types).
  rewrite Hm, Hlex.
  change (str_eqb (u "dict") (u "encyclopedia")) with false. cbv iota.
  match goal with
  | |- context [header_text ?x1 ?x2 ?x3 ?x4 ?x5 ?x6 ?x7 ?x8 ?x9] =>
      exists (header_text x1 x2 x3 x4 x5 x6 x7 x8 x9)
  end.
  destruct (str_eqb _ (u "native_to_target")); reflexivity.
Qed.

(** X17: in the dictionary mode (a mode whose trimmed, lower-cased form
    is [dict] or [dictionary]) the schema and the instruction agree on
    the direction of every analysed sentence or paragraph. Either the
    direction is native-to-target, the schema is the L1-to-L2 one and the
    instruction ends with the native-to-target body, or the direction is
    target-to-native, the schema is the L2-to-L1 one and the instruction
    ends with the target-to-native body; the schema and the body are
    those of a sentence for a sentence and those of a paragraph for a
    paragraph. *)
Theorem schema_follows_the_direction
    (q native_lang target_lang mode education field : str) (a : QueryAnalysisResult) :
  analyze_query q native_lang target_lang = Ok a ->
  is_in (lower (strip mode)) [u "dict"; u "dictionary"] = true ->
  is_in (query_type a) lexical_types = false ->
  exists header : str,
    (_direction (query_lang_or a native_lang) native_lang target_lang
     = u "native_to_target"
     /\ select_schema mode a native_lang
        = (if is_in (query_type a) [u "sentence"] then SentenceL1toL2Response
           else ParagraphL1toL2Response)
     /\ generate_prompt_rule a education field mode native_lang target_lang
        = header
          ++ (if is_in (query_type a) [u "sentence"]
              then body_n2t_sentence_single (_join_units (units a)) native_lang
                     target_lang education field
              else body_n2t_sentence_list (_join_units (units a)) native_lang
                     target_lang education field))
    \/ (_direction (query_lang_or a native_lang) native_lang target_lang
        = u "target_to_native"
        /\ select_schema mode a native_lang
           = (if is_in (query_type a) [u "sentence"] then SentenceL2toL1Response
              else ParagraphL2toL1Response)
        /\ generate_prompt_rule a education field mode native_lang target_lang
           = header
             ++ (if is_in (query_type a) [u "sentence"]
                 then body_t2n_sentence_single (_join_units (units a)) native_lang
                        target_lang education field
                 else body_t2n_sentence_list (_join_units (units a)) native_lang
                        target_lang education field)).
Proof.
  intros H Hdict Hlex.
  pose proof (dictionary_spelling_is_not_encyclopedia mode Hdict) as Hmode.
  assert (Hm : _normalize_mode mode = u "dict").
  { unfold _normalize_mode. rewrite Hdict. reflexivity. }
  destruct (analyze_query_fields _ _ _ _ H) as [_ [_ Hlang]].
  destruct (analyze_query_ok_inv _ _ _ _ H) as [_ Hvalid].
  pose proof (sentence_or_paragraph _ _ _ _ H Hlex) as Hkind.
  pose proof (detect_lang_cases (_normalize q) native_lang target_lang) as Hcase.
  remember (detect_lang (_normalize q) native_lang target_lang) as lang eqn:Edef.
  clear Edef H.
  destruct (valid_lang_nonempty lang Hvalid) as [c [l El]].
  assert (Hor : query_lang_or a native_lang = lang).
  { unfold query_lang_or. rewrite Hlang, El. reflexivity. }
  assert (Hdir : (_direction lang native_lang target_lang = u "native_to_target"
                  /\ same_lang native_lang (Some lang) = true)
                 \/ (_direction lang native_lang target_lang = u "target_to_native"
                     /\ same_lang native_lang (Some lang) = false)).
  { unfold _direction, same_lang. destruct Hcase as [E | E].
    - left. rewrite E, str_eqb_refl. split; reflexivity.
    - destruct (str_eqb lang native_lang) eqn:En.
      + left. apply str_eqb_eq in En. rewrite En, str_eqb_refl. split; reflexivity.
      + right. rewrite E at 1. rewrite str_eqb_refl. split; [reflexivity | ].
        apply str_eqb_neq. intros F. rewrite F, str_eqb_refl in En. discriminate. }
  destruct (dict_sentence_prompt a education field mode native_lang target_lang Hm Hlex)
    as [header Hprompt].
  exists header. rewrite Hprompt, Hor.
  assert (Hschema : select_schema mode a native_lang
                    = if is_in (query_type a) [u "sentence"]
                      then (if same_lang native_lang (Some lang)
                            then SentenceL1toL2Response else SentenceL2toL1Response)
                      else (if same_lang native_lang (Some lang)
                            then ParagraphL1toL2Response else ParagraphL2toL1Response)).
  { unfold select_schema.
    rewrite (str_eqb_neq mode (u "encyclopedia") Hmode), Hlex, Hlang. reflexivity. }
  rewrite Hschema.
  assert (Hlist : is_in (query_type a) [u "word_list"; u "phrase_list"; u "paragraph"]
                  = negb (is_in (query_type a) [u "sentence"])).
  { destruct Hkind as [E | E]; rewrite E; reflexivity. }
  rewrite Hlist.
  destruct Hdir as [[Hd Hs] | [Hd Hs]]; [left | right]; rewrite Hd, Hs;
    (split; [reflexivity | ]);
    (split; [destruct (is_in (query_type a) [u "sentence"]); reflexivity | ]);
    [ change (str_eqb (u "native_to_target") (u "native_to_target")) with true
    | change (str_eqb (u "target_to_native") (u "native_to_target")) with false ];
    cbv iota; destruct (is_in (query_type a) [u "sentence"]); reflexivity.
Qed.

(** X18: the instruction always carries the units of the analysis: the
    text [_join_units] makes of them occurs in the instruction composed
    for any mode, direction, type, education and field. *)
Theorem instruction_carries_the_units (a : QueryAnalysisResult)
    (education field mode native_lang target_lang : str) :
  Notions.occurs_in (_join_units (units a))
    (generate_prompt_rule a education field mode native_lang target_lang).
Proof.
  unfold generate_prompt_rule. cbv zeta.
  match goal with
  | |- context [header_text ?x1 ?x2 ?x3 ?x4 ?x5 ?x6 ?x7 ?x8 ?x9] =>
      generalize (header_text x1 x2 x3 x4 x5 x6 x7 x8 x9); intros header
  end.
  repeat match goal with
         | |- context [if ?b then _ else _] => destruct b
         end;
    apply occurs_in_skip;
    unfold body_encyclopedia, body_n2t_lexical_list, body_n2t_lexical_single,
      body_n2t_sentence_list, body_n2t_sentence_single, body_t2n_lexical_list,
      body_t2n_lexical_single, body_t2n_sentence_list, body_t2n_sentence_single;
    find_occurrence.
Qed.

End Composition.

Section Requests.
Context {RT : Runtime} {PD : Pydantic}.

Lemma stripped_field_trimmed (data : value) (key : string) (default x : str) :
  stripped_field data key default = Ok x -> strip x = x.
Proof.
  unfold stripped_field, bind. destruct (get data key) as [v | e]; [ | discriminate].
  destruct (or_ v (VStr default)); try discriminate.
  intros H. apply (f_equal (fun r => match r with Ok y => y | Raise _ => x end)) in H.
  cbv beta iota in H. subst x. apply strip_idempotent.
Qed.

(** What a prepared context is made of. *)
Lemma prepare_inv (request_json : value) (cx : Context) :
  prepare request_json = Ok (Some cx) ->
  exists query education field0 mode native_lang target_lang analysis,
    stripped_field (or_ request_json (VDict [])) "query" [] = Ok query
    /\ stripped_field (or_ request_json (VDict [])) "education" [] = Ok education
    /\ stripped_field (or_ request_json (VDict [])) "field" [] = Ok field0
    /\ stripped_field (or_ request_json (VDict [])) "mode" (u "dict") = Ok mode
    /\ stripped_field (or_ request_json (VDict [])) "native_lang" (u "ko") = Ok native_lang
    /\ stripped_field (or_ request_json (VDict [])) "target_lang" (u "en") = Ok target_lang
    /\ nonempty query = true
    /\ analyze_query query native_lang target_lang = Ok analysis
    /\ cx = {| cx_query := query;
               cx_field := if nonempty field0 then field0 else u "general";
               cx_mode := mode;
               cx_native_lang := native_lang;
               cx_target_lang := target_lang;
               cx_llm := if is_in education [u "master"; u "doctor"]
                         then u "models/gemini-2.5-flash"
                         else u "models/gemini-2.5-flash-lite";
               cx_analysis := analysis;
               cx_schema := select_schema mode analysis native_lang;
               cx_prompt := generate_prompt_rule analysis education
                              (if nonempty field0 then field0 else u "general")
                              mode native_lang target_lang |}.
Proof.
  unfold prepare. cbv zeta.
  destruct (stripped_field (or_ request_json (VDict [])) "query" []) as [query | ];
    [ | discriminate].
  destruct (stripped_field (or_ request_json (VDict [])) "education" []) as [education | ];
    [ | discriminate].
  destruct (stripped_field (or_ request_json (VDict [])) "field" []) as [field0 | ];
    [ | discriminate].
  destruct (stripped_field (or_ request_json (VDict [])) "mode" (u "dict")) as [mode | ];
    [ | discriminate].
  destruct (stripped_field (or_ request_json (VDict [])) "native_lang" (u "ko"))
    as [native_lang | ]; [ | discriminate].
  destruct (stripped_field (or_ request_json (VDict [])) "target_lang" (u "en"))
    as [target_lang | ]; [ | discriminate].
  unfold bind at 1 2 3 4 5 6.
  destruct (nonempty query) eqn:Hq; cbn [negb]; [ | discriminate].
  destruct (analyze_query query native_lang target_lang) as [analysis | ] eqn:Ha;
    unfold bind; [ | discriminate].
  intros H.
  apply (f_equal (fun r => match r with Ok (Some x) => x | _ => cx end)) in H.
  cbv beta iota in H.
  exists query, education, field0, mode, native_lang, target_lang, analysis.
  repeat (split; [reflexivity | ]).
  split; [exact Hq | split; [exact Ha | symmetry; exact H]].
Qed.

Lemma level_guidance_master (education : str) :
  lower (strip education) = u "master" -> _level_guidance education = level_master.
Proof. intros H. unfold _level_guidance. rewrite H. reflexivity. Qed.

Lemma level_guidance_doctor (education : str) :
  lower (strip education) = u "doctor" -> _level_guidance education = level_doctor.
Proof. intros H. unfold _level_guidance. rewrite H. reflexivity. Qed.

Lemma instruction_has_level (a : QueryAnalysisResult)
    (education field mode native_lang target_lang : str) :
  Notions.occurs_in (_level_guidance education)
    (generate_prompt_rule a education field mode native_lang target_lang).
Proof.
  unfold generate_prompt_rule. cbv zeta.
  generalize (_level_guidance education). intros level.
  repeat match goal with
         | |- context [if ?b then _ else _] => destruct b
         end;
    apply occurs_in_left; unfold header_text; find_occurrence.
Qed.

(** X25: the label and the level guidance of an education code always
    belong together: they are one of the seven pairs below, the last one
    for every code outside the six, so that the instruction never names
    one level and describes another. *)
Theorem label_and_guidance_agree (education : str) :
  In (_education_label education, _level_guidance education)
     [(u "elementary school student", level_elementary);
      (u "middle school student", level_middle);
      (u "high school student", level_high);
      (u "undergraduate student", level_bachelor);
      (u "master's student", level_master);
      (u "doctoral-level learner", level_doctor);
      (u "intermediate adult learner", level_fallback)].
Proof.
  unfold _education_label, _level_guidance, education_mapping. cbv zeta.
  generalize (lower (strip education)). intros e. cbn [mapping_get].
  destruct (str_eqb e (u "elementary")); [left; reflexivity | right].
  destruct (str_eqb e (u "middle")); [left; reflexivity | right].
  destruct (str_eqb e (u "high")); [left; reflexivity | right].
  destruct (str_eqb e (u "bachelor")); [left; reflexivity | right].
  destruct (str_eqb e (u "master")); [left; reflexivity | right].
  destruct (str_eqb e (u "doctor")); [left; reflexivity | right].
  left. reflexivity.
Qed.

(** X19: the model is chosen by the exact spelling of the education code
    while the instruction is composed from its lower-cased form: a code
    such as [Master] or [DOCTOR] gets the level guidance written for
    master's or doctoral learners, and yet the lite model, which the
    exact codes [master] and [doctor] never get. *)
Theorem capitalised_education_gets_the_lite_model (request_json : value) (cx : Context)
    (education : str) :
  prepare request_json = Ok (Some cx) ->
  stripped_field (or_ request_json (VDict [])) "education" [] = Ok education ->
  is_in (lower education) [u "master"; u "doctor"] = true ->
  is_in education [u "master"; u "doctor"] = false ->
  cx_llm cx = u "models/gemini-2.5-flash-lite"
  /\ Notions.occurs_in
       (if str_eqb (lower education) (u "master") then level_master else level_doctor)
       (cx_prompt cx).
Proof.
  intros Hprep Hedu Hlow Hexact.
  destruct (prepare_inv request_json cx Hprep)
    as [query [education' [field0 [mode [n [t [analysis
         [_ [Hedu' [_ [_ [_ [_ [_ [_ Hcx]]]]]]]]]]]]]]].
  assert (E : education' = education) by congruence. subst education'.
  pose proof (stripped_field_trimmed _ _ _ _ Hedu) as Htrim.
  subst cx. cbn [cx_llm cx_prompt]. rewrite Hexact. split; [reflexivity | ].
  assert (Hlevel : _level_guidance education
                   = if str_eqb (lower education) (u "master") then level_master
                     else level_doctor).
  { unfold is_in in Hlow. cbn [existsb] in Hlow. rewrite orb_false_r in Hlow.
    destruct (str_eqb (lower education) (u "master")) eqn:Em.
    - apply str_eqb_eq in Em. apply level_guidance_master. rewrite Htrim. exact Em.
    - cbn [orb] in Hlow. apply str_eqb_eq in Hlow. apply level_guidance_doctor.
      rewrite Htrim. exact Hlow. }
  rewrite <- Hlevel. apply instruction_has_level.
Qed.

(** X20: the digest is built for the dictionary only when the trimmed,
    lower-cased mode is [dict]. Under any other mode a word or phrase
    answer is digested as an encyclopedia answer, and the digest sent to
    the verifier is the same whatever the entries of the answer are: with
    the spelling [dictionary], which the instruction composer accepts for
    the dictionary mode, the verifier never sees an entry. *)
Theorem digest_outside_dict_ignores_the_entries (r : Schemas.WordDict)
    (entries : list Schemas.WordDictEntry) (mode query_type : str) :
  str_eqb (lower (strip mode)) (u "dict") = false ->
  build_verifier_answer_text (Schemas.model_dump (Schemas.AWordDict r)) mode query_type
  = build_verifier_answer_text
      (Schemas.model_dump
         (Schemas.AWordDict {| Schemas.wd_query_analysis := Schemas.wd_query_analysis r;
                               Schemas.wd_entries := entries |}))
      mode query_type.
Proof.
  intros H. unfold build_verifier_answer_text, full_digest, digest_lines.
  cbv zeta. rewrite H. reflexivity.
Qed.

(** X21: the languages handed to the verifier for an analysed query. In
    the mode [dict] the source language is the detected language of the
    query and the target language is the other one of the pair: the
    target language for a query in the native language, the native
    language otherwise; the branch for an undefined query type is never
    taken. In every other mode the source language is the detected one
    and there is no target language. *)
Theorem verifier_languages (q native_lang target_lang mode : str)
    (a : QueryAnalysisResult) :
  analyze_query q native_lang target_lang = Ok a ->
  is_in (query_type a) all_query_types = true
  /\ verifier_langs mode a native_lang target_lang
     = (query_lang a,
        if str_eqb mode (u "dict")
        then Some (if same_lang native_lang (query_lang a) then target_lang
                   else native_lang)
        else None).
Proof.
  intros H.
  assert (Htype : is_in (query_type a) all_query_types = true).
  { destruct (analyze_query_ok_inv _ _ _ _ H) as [Hne Hl].
    rewrite (analyze_query_eq q native_lang target_lang Hne Hl) in H.
    apply (f_equal (fun r => match r with Ok x => x | Raise _ => a end)) in H.
    cbv beta iota in H. subst a.
    destruct (_looks_like_paragraph _ _); [reflexivity | ].
    match goal with
    | |- context [if ?b then {| raw_query := _ |} else _] => destruct b
    end; cbn [query_type].
    - match goal with
      | |- context [_decide_list_type ?i ?l] =>
          destruct (decide_list_type_values i l) as [E | E]; rewrite E; reflexivity
      end.
    - destruct (_looks_like_sentence _ _); [reflexivity | ].
      match goal with
      | |- context [_decide_word_or_phrase ?i ?l] =>
          destruct (decide_word_or_phrase_values i l) as [E | E]; rewrite E; reflexivity
      end. }
  split; [exact Htype | ].
  unfold verifier_langs. cbv zeta. rewrite Htype.
  destruct (str_eqb mode (u "dict")); [ | reflexivity].
  destruct (query_lang a) as [lang | ] eqn:El; cbn [same_lang]; [ | reflexivity].
  destruct (str_eqb native_lang lang) eqn:En; [ | reflexivity].
  apply str_eqb_eq in En. subst lang. reflexivity.
Qed.

(** X22: the regeneration instruction names the field only in the mode
    spelled exactly [dict]: under any other mode, the spellings
    [dictionary] and [Dict] included, it is the text written for the
    encyclopedia, the same whatever the field is, with neither the
    field-exclusive rule nor the general-field rule. *)
Theorem regeneration_instruction_outside_dict (feedback_comment field1 field2 mode : str) :
  mode <> u "dict" ->
  build_regeneration_instruction feedback_comment field1 mode
  = build_regeneration_instruction feedback_comment field2 (u "encyclopedia").
Proof.
  intros H. unfold build_regeneration_instruction. cbv zeta.
  rewrite (str_eqb_neq mode (u "dict") H).
  change (str_eqb (u "encyclopedia") (u "dict")) with false. reflexivity.
Qed.

End Requests.

Section VerifierPrompt.

Lemma lstrip_padding (ws s : str) : forallb isspace ws = true -> lstrip (ws ++ s) = lstrip s.
Proof.
  induction ws as [ | c ws IH]; intros H; [reflexivity | ].
  simpl in H. apply andb_true_iff in H. destruct H as [Hc Hws].
  simpl. rewrite Hc. exact (IH Hws).
Qed.

(** Whitespace around a trimmed text is all that [strip] removes. *)
Lemma strip_padded (ws1 s ws2 : str) :
  forallb isspace ws1 = true ->
  forallb isspace ws2 = true ->
  strip s = s ->
  strip (ws1 ++ s ++ ws2) = s.
Proof.
  intros H1 H2 Hs. unfold strip. rewrite (lstrip_padding ws1 _ H1).
  destruct (strip_shape s) as [E | [[c [r [E Hc]]] _]]; rewrite Hs in E.
  - subst s. cbn [app]. rewrite <- (app_nil_r ws2), lstrip_padding by exact H2.
    reflexivity.
  - assert (Hl : lstrip (s ++ ws2) = s ++ ws2) by (rewrite E; simpl; rewrite Hc; reflexivity).
    assert (Hl' : lstrip s = s) by (rewrite E; simpl; rewrite Hc; reflexivity).
    rewrite Hl. unfold rstrip. rewrite rev_app_distr.
    rewrite lstrip_padding by (rewrite forallb_rev_eq; exact H2).
    unfold strip, rstrip in Hs. rewrite Hl' in Hs. exact Hs.
Qed.

(** The prompt of the verifier is the template without its first and its
    last newline; the query and the digest are embedded as they are. *)
Lemma verifier_prompt_shape (query_text mode query_type answer_text : str)
    (field source_lang target_lang : option str) :
  build_verifier_user_prompt query_text mode query_type answer_text
    field source_lang target_lang
  = u "User Query:
"
    ++ query_text
    ++ u "

Mode: "
    ++ mode
    ++ u "
Query Type: "
    ++ query_type
    ++ u "
Field (domain): "
    ++ (if opt_truthy field then opt_str field else u "general")
    ++ (if opt_truthy source_lang || opt_truthy target_lang then
          u "
Source Language: "
          ++ opt_str source_lang
          ++ u "
Target Language: "
          ++ opt_str target_lang
        else [])
    ++ u "

Main LLM Answer:
"
    ++ answer_text
    ++ u "

You must now evaluate the answer and output the JSON object strictly following the schema.".
Proof.
  unfold build_verifier_user_prompt. cbv zeta.
  match goal with
  | |- strip (?first ++ ?q ++ ?l1 ++ ?m ++ ?l2 ++ ?t ++ ?l3 ++ ?f ++ ?li ++ ?l4 ++ ?a ++ ?last)
       = ?head ++ ?rest =>
      set (body := q ++ l1 ++ m ++ l2 ++ t ++ l3 ++ f ++ li ++ l4 ++ a);
      set (tail := removelast last);
      assert (El : first ++ q ++ l1 ++ m ++ l2 ++ t ++ l3 ++ f ++ li ++ l4 ++ a ++ last
                   = [10%N] ++ (head ++ body ++ tail) ++ [10%N])
        by (change first with ([10%N] ++ head); change last with (tail ++ [10%N]);
            unfold body; rewrite <- !app_assoc; reflexivity);
      assert (Er : head ++ rest = head ++ body ++ tail)
        by (unfold body; rewrite <- !app_assoc; reflexivity);
      rewrite El, Er
  end.
  apply strip_padded; [reflexivity | reflexivity | ].
  apply strip_fixed. right. split.
  - exists 85%N, (tl (u "User Query:
") ++ body ++ tail). split; reflexivity.
  - exists (u "User Query:
" ++ body ++ removelast tail), 46%N. split; [ | reflexivity].
    rewrite (app_removelast_last 0%N (l := tail)) at 1 by discriminate.
    rewrite !app_assoc. reflexivity.
Qed.

(** X23: outside the mode spelled exactly [dict] the verifier is told of
    no target language: for an analysed query its prompt names the
    detected language as the source language and prints the missing
    target language as the text [None]. *)
Theorem verification_outside_dict_names_no_target
    (q native_lang target_lang mode query_text answer_text : str) (field : option str)
    (a : QueryAnalysisResult) :
  analyze_query q native_lang target_lang = Ok a ->
  mode <> u "dict" ->
  exists lang,
    query_lang a = Some lang
    /\ verifier_langs mode a native_lang target_lang = (Some lang, None)
    /\ Notions.occurs_in
         (u "Source Language: " ++ lang ++ u "
Target Language: None")
         (build_verifier_user_prompt query_text mode (query_type a) answer_text field
            (fst (verifier_langs mode a native_lang target_lang))
            (snd (verifier_langs mode a native_lang target_lang))).
Proof.
  intros H Hmode.
  destruct (analyze_query_fields _ _ _ _ H) as [_ [_ Hlang]].
  destruct (analyze_query_ok_inv _ _ _ _ H) as [_ Hvalid].
  set (lang := detect_lang (_normalize q) native_lang target_lang) in *.
  destruct (valid_lang_nonempty lang Hvalid) as [c [l El]].
  assert (Hv : verifier_langs mode a native_lang target_lang = (Some lang, None)).
  { unfold verifier_langs. cbv zeta. rewrite (str_eqb_neq mode (u "dict") Hmode), Hlang.
    reflexivity. }
  exists lang. split; [exact Hlang | split; [exact Hv | ]].
  rewrite Hv. cbn [fst snd]. rewrite verifier_prompt_shape.
  assert (Ht : opt_truthy (Some lang) = true) by (rewrite El; reflexivity).
  rewrite Ht. cbn [orb opt_str].
  do 8 apply occurs_in_skip.
  apply occurs_in_left.
  exists [10%N], []. rewrite app_nil_r. reflexivity.
Qed.

End VerifierPrompt.

(** An English sentence for a Korean speaker, in the mode [Dictionary]:
    target to native. *)
Lemma schema_follows_the_direction_witness :
  exists header : str,
    (_direction (query_lang_or Cases.english_sentence (u "ko")) (u "ko") (u "en")
     = u "native_to_target"
     /\ select_schema (u "Dictionary") Cases.english_sentence (u "ko")
        = (if is_in (query_type Cases.english_sentence) [u "sentence"]
           then SentenceL1toL2Response else ParagraphL1toL2Response)
     /\ generate_prompt_rule (RT := plain_runtime) Cases.english_sentence
          (u "high") (u "biology") (u "Dictionary") (u "ko") (u "en")
        = header
          ++ (if is_in (query_type Cases.english_sentence) [u "sentence"]
              then body_n2t_sentence_single (_join_units (units Cases.english_sentence))
                     (u "ko") (u "en") (u "high") (u "biology")
              else body_n2t_sentence_list (_join_units (units Cases.english_sentence))
                     (u "ko") (u "en") (u "high") (u "biology")))
    \/ (_direction (query_lang_or Cases.english_sentence (u "ko")) (u "ko") (u "en")
        = u "target_to_native"
        /\ select_schema (u "Dictionary") Cases.english_sentence (u "ko")
           = (if is_in (query_type Cases.english_sentence) [u "sentence"]
              then SentenceL2toL1Response else ParagraphL2toL1Response)
        /\ generate_prompt_rule (RT := plain_runtime) Cases.english_sentence
             (u "high") (u "biology") (u "Dictionary") (u "ko") (u "en")
           = header
             ++ (if is_in (query_type Cases.english_sentence) [u "sentence"]
                 then body_t2n_sentence_single
                        (_join_units (units Cases.english_sentence))
                        (u "ko") (u "en") (u "high") (u "biology")
                 else body_t2n_sentence_list
                        (_join_units (units Cases.english_sentence))
                        (u "ko") (u "en") (u "high") (u "biology"))).
Proof.
  apply (schema_follows_the_direction (RT := plain_runtime)
           (u "I went to school. It was fun.") (u "ko") (u "en") (u "Dictionary")
           (u "high") (u "biology")).
  - vm_compute. reflexivity.
  - vm_compute. reflexivity.
  - vm_compute. reflexivity.
Defined.

Lemma master_request_prepared :
  { cx : Context | prepare (RT := plain_runtime) Cases.master_request = Ok (Some cx) }.
Proof.
  eexists. vm_compute. reflexivity.
Defined.

(** The education code [Master]. *)
Lemma capitalised_education_gets_the_lite_model_witness :
  let cx := proj1_sig master_request_prepared in
  cx_llm cx = u "models/gemini-2.5-flash-lite"
  /\ Notions.occurs_in
       (if str_eqb (lower (RT := plain_runtime) (u "Master")) (u "master")
        then level_master else level_doctor)
       (cx_prompt cx).
Proof.
  intros cx.
  apply (capitalised_education_gets_the_lite_model (RT := plain_runtime)
           Cases.master_request cx (u "Master")).
  - exact (proj2_sig master_request_prepared).
  - vm_compute. reflexivity.
  - vm_compute. reflexivity.
  - vm_compute. reflexivity.
Defined.

(** The mode [dictionary]: the digest with an entry is the digest without. *)
Lemma digest_outside_dict_ignores_the_entries_witness :
  build_verifier_answer_text (RT := plain_runtime)
    (Schemas.model_dump (Schemas.AWordDict Cases.empty_word_dict))
    (u "dictionary") (u "word")
  = build_verifier_answer_text (RT := plain_runtime)
      (Schemas.model_dump
         (Schemas.AWordDict
            {| Schemas.wd_query_analysis := Schemas.wd_query_analysis Cases.empty_word_dict;
               Schemas.wd_entries := [Cases.apple_entry] |}))
      (u "dictionary") (u "word").
Proof.
  apply (digest_outside_dict_ignores_the_entries (RT := plain_runtime)
           Cases.empty_word_dict [Cases.apple_entry] (u "dictionary") (u "word")).
  vm_compute. reflexivity.
Defined.

Lemma verifier_languages_witness :
  is_in (query_type Cases.pair_of_fruits) all_query_types = true
  /\ verifier_langs (u "dict") Cases.pair_of_fruits (u "ko") (u "en")
     = (query_lang Cases.pair_of_fruits,
        if str_eqb (u "dict") (u "dict")
        then Some (if same_lang (u "ko") (query_lang Cases.pair_of_fruits) then u "en"
                   else u "ko")
        else None).
Proof.
  apply (verifier_languages (u " apple,  pear ") (u "ko") (u "en") (u "dict")).
  vm_compute. reflexivity.
Defined.

(** The mode [dictionary], for the fields finance and law. *)
Lemma regeneration_instruction_outside_dict_witness :
  build_regeneration_instruction (RT := plain_runtime)
    (u "wrong sense") (u "finance") (u "dictionary")
  = build_regeneration_instruction (RT := plain_runtime)
      (u "wrong sense") (u "law") (u "encyclopedia").
Proof.
  apply (regeneration_instruction_outside_dict (RT := plain_runtime)).
  discriminate.
Defined.

Lemma verification_outside_dict_names_no_target_witness :
  exists lang,
    query_lang Cases.pair_of_fruits = Some lang
    /\ verifier_langs (u "encyclopedia") Cases.pair_of_fruits (u "ko") (u "en")
       = (Some lang, None)
    /\ Notions.occurs_in
         (u "Source Language: " ++ lang ++ u "
Target Language: None")
         (build_verifier_user_prompt (u "apple, pear") (u "encyclopedia")
            (query_type Cases.pair_of_fruits) (u "digest") (Some (u "general"))
            (fst (verifier_langs (u "encyclopedia") Cases.pair_of_fruits (u "ko") (u "en")))
            (snd (verifier_langs (u "encyclopedia") Cases.pair_of_fruits (u "ko") (u "en")))).
Proof.
  apply (verification_outside_dict_names_no_target (u " apple,  pear ") (u "ko") (u "en")).
  - vm_compute. reflexivity.
  - discriminate.
Defined.
